(** * TalentScout privacy store: [utils/data_handler.py]

    A shallow embedding of the [DataHandler] class of the TalentScout
    hiring assistant and the proofs of its storage, retention, export,
    erasure and audit properties.

    Layout of the development:
    - [PyText]:   Python [str] and [bytes], UTF-8 ([str.encode],
                  [bytes.decode]) and [base64.b64encode]/[b64decode];
    - [PyTime]:   naive and aware [datetime] values, [timedelta(days=n)]
                  arithmetic, [isoformat] and [strftime];
    - [PyJson]:   JSON documents and Python [dict] operations;
    - [Store]:    the file system under [data/], the clock, and the
                  state-and-exception monad the methods run in;
    - [Handler]:  the methods of [DataHandler], one definition each;
    - [Install]:  the key file and [DataHandler.__init__];
    - [App]:      the session methods of [HiringAssistant] in [app.py];
    - [Maintenance]: [scripts/privacy_maintenance.py];
    - the lemmas and theorems about them. *)

From Stdlib Require Import NArith ZArith Lia List Bool.
From Stdlib.Strings Require Import Byte Ascii String.
From stdpp Require Import gmap list strings.

Ltac Zify.zify_post_hook ::= Z.to_euclidean_division_equations.

#[global] Set Warnings "-register-all".

(** ** Python text and bytes *)

Module PyText.

Local Open Scope N_scope.

(** A Python [str] is a sequence of code points; lone surrogates
    (U+D800..U+DFFF) are legal members of a [str]. *)
Abbreviation pystr := (list N).

(** A Python [bytes] object. *)
Abbreviation bytes := (list byte).

Definition byte_of (n : N) : byte := default x00 (Byte.of_N n).

(** An ASCII literal of the source, as a [str]. *)
Definition lit (s : string) : pystr :=
  map N_of_ascii (list_ascii_of_string s).

(** The same literal as [bytes]. *)
Definition blit (s : string) : bytes :=
  map (fun a => byte_of (N_of_ascii a)) (list_ascii_of_string s).

(** [s.startswith(p)] *)
Fixpoint startswith (s p : pystr) : bool :=
  match p, s with
  | [], _ => true
  | _ :: _, [] => false
  | x :: p', y :: s' => (x =? y) && startswith s' p'
  end.

(** [s.endswith(p)] *)
Definition endswith (s p : pystr) : bool :=
  startswith (rev s) (rev p).

(** UTF-8 encoding of one code point; [None] is [UnicodeEncodeError]
    (a surrogate) or a number that is no code point at all. *)
Definition utf8_encode_cp (c : N) : option bytes :=
  if c <? 0x80 then Some [byte_of c]
  else if c <? 0x800 then
    Some [byte_of (0xC0 + c / 64); byte_of (0x80 + c mod 64)]
  else if c <? 0x10000 then
    if (0xD800 <=? c) && (c <? 0xE000) then None
    else Some [byte_of (0xE0 + c / 4096);
               byte_of (0x80 + (c / 64) mod 64);
               byte_of (0x80 + c mod 64)]
  else if c <? 0x110000 then
    Some [byte_of (0xF0 + c / 262144);
          byte_of (0x80 + (c / 4096) mod 64);
          byte_of (0x80 + (c / 64) mod 64);
          byte_of (0x80 + c mod 64)]
  else None.

(** [s.encode()] (UTF-8, strict). *)
Fixpoint str_encode (s : pystr) : option bytes :=
  match s with
  | [] => Some []
  | c :: s' =>
      match utf8_encode_cp c, str_encode s' with
      | Some cb, Some r => Some (cb ++ r)
      | _, _ => None
      end
  end.

Definition is_cont (n : N) : bool := (0x80 <=? n) && (n <? 0xC0).

Definition cons_cp (c : N) (r : option pystr) : option pystr :=
  match r with Some s => Some (c :: s) | None => None end.

(** [b.decode()] (UTF-8, strict): overlong forms, surrogates, values above
    U+10FFFF, stray continuation bytes and truncated sequences are
    [UnicodeDecodeError], here [None]. *)
Fixpoint bytes_decode (b : bytes) : option pystr :=
  match b with
  | [] => Some []
  | b0 :: r0 =>
      let n0 := Byte.to_N b0 in
      if n0 <? 0x80 then cons_cp n0 (bytes_decode r0)
      else if n0 <? 0xC2 then None
      else if n0 <? 0xE0 then
        match r0 with
        | b1 :: r1 =>
            let n1 := Byte.to_N b1 in
            if is_cont n1
            then cons_cp ((n0 - 0xC0) * 64 + (n1 - 0x80)) (bytes_decode r1)
            else None
        | _ => None
        end
      else if n0 <? 0xF0 then
        match r0 with
        | b1 :: b2 :: r2 =>
            let n1 := Byte.to_N b1 in
            let n2 := Byte.to_N b2 in
            let c := (n0 - 0xE0) * 4096 + (n1 - 0x80) * 64 + (n2 - 0x80) in
            if is_cont n1 && is_cont n2 && (0x800 <=? c)
               && negb ((0xD800 <=? c) && (c <? 0xE000))
            then cons_cp c (bytes_decode r2)
            else None
        | _ => None
        end
      else if n0 <? 0xF5 then
        match r0 with
        | b1 :: b2 :: b3 :: r3 =>
            let n1 := Byte.to_N b1 in
            let n2 := Byte.to_N b2 in
            let n3 := Byte.to_N b3 in
            let c := (n0 - 0xF0) * 262144 + (n1 - 0x80) * 4096
                     + (n2 - 0x80) * 64 + (n3 - 0x80) in
            if is_cont n1 && is_cont n2 && is_cont n3
               && (0x10000 <=? c) && (c <? 0x110000)
            then cons_cp c (bytes_decode r3)
            else None
        | _ => None
        end
      else None
  end.

(** *** base64 *)

(** The standard alphabet: [A-Z], [a-z], [0-9], [+], [/]. *)
Definition b64_char (i : N) : byte :=
  if i <? 26 then byte_of (65 + i)
  else if i <? 52 then byte_of (97 + (i - 26))
  else if i <? 62 then byte_of (48 + (i - 52))
  else if i =? 62 then byte_of 43
  else byte_of 47.

Definition b64_pad : byte := byte_of 61.

(** The inverse table ([table_a2b_base64] of [binascii]). *)
Definition b64_value (ch : byte) : option N :=
  let n := Byte.to_N ch in
  if (65 <=? n) && (n <=? 90) then Some (n - 65)
  else if (97 <=? n) && (n <=? 122) then Some (n - 71)
  else if (48 <=? n) && (n <=? 57) then Some (n + 4)
  else if n =? 43 then Some 62
  else if n =? 47 then Some 63
  else None.

(** [base64.b64encode(b)] *)
Fixpoint b64encode (b : bytes) : bytes :=
  match b with
  | [] => []
  | [a0] =>
      let x := Byte.to_N a0 in
      [b64_char (x / 4); b64_char ((x mod 4) * 16); b64_pad; b64_pad]
  | [a0; a1] =>
      let x := Byte.to_N a0 in
      let y := Byte.to_N a1 in
      [b64_char (x / 4); b64_char ((x mod 4) * 16 + y / 16);
       b64_char ((y mod 16) * 4); b64_pad]
  | a0 :: a1 :: a2 :: rest =>
      let x := Byte.to_N a0 in
      let y := Byte.to_N a1 in
      let z := Byte.to_N a2 in
      b64_char (x / 4) :: b64_char ((x mod 4) * 16 + y / 16)
        :: b64_char ((y mod 16) * 4 + z / 64) :: b64_char (z mod 64)
        :: b64encode rest
  end.

(** The decoding loop of [binascii.a2b_base64] in its default, non-strict
    mode: characters outside the alphabet are skipped, a complete pad
    sequence ends the input, and leftover sextets are [binascii.Error].
    [quad_pos] counts the sextets of the current quad, [leftchar] holds the
    bits not yet written, [pads] the pad characters seen in a row. *)
Fixpoint a2b_loop (inp : bytes) (quad_pos leftchar pads : N) (out : bytes)
  : option bytes :=
  match inp with
  | [] => if quad_pos =? 0 then Some out else None
  | ch :: rest =>
      if Byte.to_N ch =? 61 then
        if 2 <=? quad_pos then
          if 4 <=? quad_pos + (pads + 1) then Some out
          else a2b_loop rest quad_pos leftchar (pads + 1) out
        else a2b_loop rest quad_pos leftchar pads out
      else
        match b64_value ch with
        | None => a2b_loop rest quad_pos leftchar pads out
        | Some v =>
            if quad_pos =? 0 then a2b_loop rest 1 v 0 out
            else if quad_pos =? 1 then
              a2b_loop rest 2 (v mod 16) 0
                       (out ++ [byte_of (leftchar * 4 + v / 16)])
            else if quad_pos =? 2 then
              a2b_loop rest 3 (v mod 4) 0
                       (out ++ [byte_of (leftchar * 16 + v / 4)])
            else
              a2b_loop rest 0 0 0 (out ++ [byte_of (leftchar * 64 + v)])
        end
  end.

(** [base64.b64decode(b)]; [None] is [binascii.Error]. *)
Definition b64decode (b : bytes) : option bytes := a2b_loop b 0 0 0 [].

(** Every byte is an ASCII character. *)
Definition ascii_bytes (b : bytes) : Prop :=
  Forall (fun x => Byte.to_N x < 128) b.

End PyText.

(** ** Python [datetime] *)

Module PyTime.
Import PyText.

Local Open Scope Z_scope.

(** A [datetime] value, field by field as CPython keeps it.  [utcoffset] is
    [None] for a naive value (what [datetime.now()] returns) and the offset
    east of UTC, in microseconds, for an aware one (what [fromisoformat]
    may return for a string that carries an offset). *)
Record datetime : Type := mkdt {
  year : Z; month : Z; day : Z;
  hour : Z; minute : Z; second : Z; microsecond : Z;
  utcoffset : option Z
}.

Definition _is_leap (y : Z) : bool :=
  (y mod 4 =? 0) && (negb (y mod 100 =? 0) || (y mod 400 =? 0)).

Definition _days_before_year (y : Z) : Z :=
  let y1 := y - 1 in y1 * 365 + y1 / 4 - y1 / 100 + y1 / 400.

(** [_DAYS_IN_MONTH] *)
Definition _DAYS_IN_MONTH (m : Z) : Z :=
  match m with
  | 1 => 31 | 2 => 28 | 3 => 31 | 4 => 30 | 5 => 31 | 6 => 30
  | 7 => 31 | 8 => 31 | 9 => 30 | 10 => 31 | 11 => 30 | 12 => 31
  | _ => -1
  end.

(** [_DAYS_BEFORE_MONTH] *)
Definition _DAYS_BEFORE_MONTH (m : Z) : Z :=
  match m with
  | 1 => 0 | 2 => 31 | 3 => 59 | 4 => 90 | 5 => 120 | 6 => 151
  | 7 => 181 | 8 => 212 | 9 => 243 | 10 => 273 | 11 => 304 | 12 => 334
  | _ => -1
  end.

Definition _days_before_month (y m : Z) : Z :=
  _DAYS_BEFORE_MONTH m + (if (2 <? m) && _is_leap y then 1 else 0).

Definition _ymd2ord (y m d : Z) : Z :=
  _days_before_year y + _days_before_month y m + d.

Definition _DI400Y : Z := 146097.
Definition _DI100Y : Z := 36524.
Definition _DI4Y : Z := 1461.
Definition _MAXORDINAL : Z := 3652059.

Definition _ord2ymd (n0 : Z) : Z * Z * Z :=
  let n := n0 - 1 in
  let n400 := n / _DI400Y in
  let n := n mod _DI400Y in
  let year := n400 * 400 + 1 in
  let n100 := n / _DI100Y in
  let n := n mod _DI100Y in
  let n4 := n / _DI4Y in
  let n := n mod _DI4Y in
  let n1 := n / 365 in
  let n := n mod 365 in
  let year := year + n100 * 100 + n4 * 4 + n1 in
  if (n1 =? 4) || (n100 =? 4) then (year - 1, 12, 31)
  else
    let leapyear := (n1 =? 3) && (negb (n4 =? 24) || (n100 =? 3)) in
    let month := (n + 50) / 32 in
    let preceding :=
      _DAYS_BEFORE_MONTH month + (if (2 <? month) && leapyear then 1 else 0) in
    if n <? preceding then
      let month := month - 1 in
      let preceding :=
        preceding - (_DAYS_IN_MONTH month
                     + (if (month =? 2) && leapyear then 1 else 0)) in
      (year, month, n - preceding + 1)
    else (year, month, n - preceding + 1).

Definition toordinal (d : datetime) : Z := _ymd2ord (year d) (month d) (day d).

Definition seconds_of_day (d : datetime) : Z :=
  second d + minute d * 60 + hour d * 3600.

(** Microseconds since the start of day one, wall-clock fields only. *)
Definition wall_micros (d : datetime) : Z :=
  toordinal d * 86400000000 + seconds_of_day d * 1000000 + microsecond d.

(** [d - timedelta(days=n)].  [None] is [OverflowError]: [timedelta] takes at
    most 999999999 days either way, and the result has to be a date of the
    years 1 to 9999. *)
Definition sub_days (d : datetime) (n : Z) : option datetime :=
  if 999999999 <? Z.abs n then None
  else
    let o := toordinal d - n in
    if (0 <? o) && (o <=? _MAXORDINAL) then
      let '(y, m, dd) := _ord2ymd o in
      Some (mkdt y m dd (hour d) (minute d) (second d) (microsecond d)
                 (utcoffset d))
    else None.

(** [(a - b).days]; [None] is the [TypeError] of mixing a naive and an aware
    value. *)
Definition sub_dt_days (a b : datetime) : option Z :=
  let base := wall_micros a - wall_micros b in
  match utcoffset a, utcoffset b with
  | None, None => Some (base / 86400000000)
  | Some oa, Some ob => Some ((base + ob - oa) / 86400000000)
  | _, _ => None
  end.

(** The tuple comparison of [datetime._cmp]. *)
Definition cmp_fields (a b : datetime) : comparison :=
  match year a ?= year b with
  | Eq =>
    match month a ?= month b with
    | Eq =>
      match day a ?= day b with
      | Eq =>
        match hour a ?= hour b with
        | Eq =>
          match minute a ?= minute b with
          | Eq =>
            match second a ?= second b with
            | Eq => microsecond a ?= microsecond b
            | c => c
            end
          | c => c
          end
        | c => c
        end
      | c => c
      end
    | c => c
    end
  | c => c
  end.

(** [datetime._cmp]; [None] is the [TypeError] "can't compare offset-naive
    and offset-aware datetimes". *)
Definition dt_cmp (a b : datetime) : option comparison :=
  match utcoffset a, utcoffset b with
  | None, None => Some (cmp_fields a b)
  | Some oa, Some ob =>
      if oa =? ob then Some (cmp_fields a b)
      else Some ((wall_micros a - oa) ?= (wall_micros b - ob))
  | _, _ => None
  end.

(** [a < b] *)
Definition dt_lt (a b : datetime) : option bool :=
  match dt_cmp a b with
  | Some Lt => Some true
  | Some _ => Some false
  | None => None
  end.

(** [a > b] *)
Definition dt_gt (a b : datetime) : option bool :=
  match dt_cmp a b with
  | Some Gt => Some true
  | Some _ => Some false
  | None => None
  end.

(** ["%0<w>d" % n] for [0 <= n < 10^w]. *)
Fixpoint zpad (w : nat) (n : Z) : pystr :=
  match w with
  | O => []
  | S w' => zpad w' (n / 10) ++ [Z.to_N (48 + n mod 10)]
  end.

(** [_format_offset] *)
Definition _format_offset (off : option Z) : pystr :=
  match off with
  | None => []
  | Some o =>
      let sign := if o <? 0 then lit "-" else lit "+" in
      let o := Z.abs o in
      let hh := o / 3600000000 in
      let r := o mod 3600000000 in
      let mm := r / 60000000 in
      let ss := r mod 60000000 in
      sign ++ zpad 2 hh ++ lit ":" ++ zpad 2 mm
        ++ (if ss =? 0 then []
            else lit ":" ++ zpad 2 (ss / 1000000)
                 ++ (if ss mod 1000000 =? 0 then []
                     else lit "." ++ zpad 6 (ss mod 1000000)))
  end.

(** [d.isoformat()] *)
Definition isoformat (d : datetime) : pystr :=
  zpad 4 (year d) ++ lit "-" ++ zpad 2 (month d) ++ lit "-" ++ zpad 2 (day d)
    ++ lit "T"
    ++ zpad 2 (hour d) ++ lit ":" ++ zpad 2 (minute d) ++ lit ":"
    ++ zpad 2 (second d)
    ++ (if microsecond d =? 0 then [] else lit "." ++ zpad 6 (microsecond d))
    ++ _format_offset (utcoffset d).

(** [d.strftime('%Y%m%d_%H%M%S')], for the four-digit years the clock
    produces. *)
Definition strftime_Ymd_HMS (d : datetime) : pystr :=
  zpad 4 (year d) ++ zpad 2 (month d) ++ zpad 2 (day d) ++ lit "_"
    ++ zpad 2 (hour d) ++ zpad 2 (minute d) ++ zpad 2 (second d).

End PyTime.

(** ** JSON documents and Python dictionaries *)

Module PyJson.
Import PyText.

(** The values [json.load] returns and [json.dump] accepts in this program:
    [None], [bool], [int], [str], [list] and [dict] with [str] keys.  A
    [dict] keeps its keys in insertion order. *)
Inductive json : Type :=
| JNull
| JBool (b : bool)
| JInt (z : Z)
| JStr (s : pystr)
| JList (l : list json)
| JDict (kv : list (pystr * json)).

(** Truth value of a Python object in an [if]. *)
Definition truthy (v : json) : bool :=
  match v with
  | JNull => false
  | JBool b => b
  | JInt z => negb (z =? 0)%Z
  | JStr s => negb (length s =? 0)%nat
  | JList l => negb (length l =? 0)%nat
  | JDict kv => negb (length kv =? 0)%nat
  end.

(** [d.get(k)] on the items of a [dict]. *)
Fixpoint dict_get (k : pystr) (kv : list (pystr * json)) : option json :=
  match kv with
  | [] => None
  | (k', v) :: r => if decide (k = k') then Some v else dict_get k r
  end.

(** [d[k] = v]: an existing key keeps its place, a new key goes last. *)
Fixpoint dict_set (k : pystr) (v : json) (kv : list (pystr * json))
  : list (pystr * json) :=
  match kv with
  | [] => [(k, v)]
  | (k', v') :: r =>
      if decide (k = k') then (k, v) :: r else (k', v') :: dict_set k v r
  end.

(** [x == k] for a [str] [k]. *)
Definition is_str (k : pystr) (x : json) : bool :=
  match x with
  | JStr s => bool_decide (s = k)
  | _ => false
  end.

(** [l[-n:]]: the last [n] items. *)
Definition last_n {A : Type} (n : nat) (l : list A) : list A :=
  drop (length l - n) l.

End PyJson.

(** ** The store: files under [data/], the clock, exceptions *)

Module Store.
Import PyText PyTime PyJson.

(** What a regular file holds: a JSON document, or text [json.load]
    rejects.  A written document is kept as the document: it stands for
    the text [json.dump] writes for it.  [json.load] reads that text back
    as the same document unless a string of it holds a high surrogate
    followed by a low one, which [json.dump] writes like the one code
    point above U+FFFF they encode in UTF-16 and [json.load] reads as that
    code point; the statements about values read back are made for
    strings without such a pair ([json_stable]). *)
Inductive fcontent : Type :=
| NotJson (raw : pystr)
| Json (v : json).

(** A directory entry: a regular file or a sub-directory, each with its
    permission bits and modification time. *)
Inductive fs_entry : Type :=
| File (c : fcontent) (mode : N) (mtime : datetime)
| Dir (mode : N) (mtime : datetime).

(** The three places [DataHandler] touches.  A directory is kept as the
    list of its entries, a name being one path component.  A name with a
    ['/'] is a path through a sub-directory; what lies inside the
    sub-directories is no part of the state, so such a name finds nothing
    and creates nothing here, which is what the file system does unless
    the path does pass through a sub-directory that exists
    ([enters_subdir]). *)
Inductive path : Type :=
| Encrypted (name : pystr)     (* data/encrypted/<name> *)
| Exports (name : pystr)       (* data/exports/<name> *)
| ActivityLog.                 (* data/activity_log.json *)

(** The state a method runs in.  [clock] is every reading [datetime.now()]
    will give, [ticks] the number of readings taken so far; [nonce] counts
    the calls of [Fernet.encrypt], each of which draws a fresh IV. *)
Record World : Type := mkWorld {
  encrypted_dir : gmap pystr fs_entry;
  exports_dir : gmap pystr fs_entry;
  activity_log : option fs_entry;
  umask : N;
  clock : nat -> datetime;
  ticks : nat;
  nonce : nat
}.

(** The entry at a path: the entry of the directory under the name. *)
Definition lookup_path (p : path) (w : World) : option fs_entry :=
  match p with
  | Encrypted n => encrypted_dir w !! n
  | Exports n => exports_dir w !! n
  | ActivityLog => activity_log w
  end.

Definition set_path (p : path) (e : option fs_entry) (w : World) : World :=
  match p with
  | Encrypted n =>
      mkWorld (match e with
               | Some x => <[n := x]> (encrypted_dir w)
               | None => delete n (encrypted_dir w)
               end)
              (exports_dir w) (activity_log w) (umask w) (clock w) (ticks w)
              (nonce w)
  | Exports n =>
      mkWorld (encrypted_dir w)
              (match e with
               | Some x => <[n := x]> (exports_dir w)
               | None => delete n (exports_dir w)
               end)
              (activity_log w) (umask w) (clock w) (ticks w) (nonce w)
  | ActivityLog =>
      mkWorld (encrypted_dir w) (exports_dir w) e (umask w) (clock w)
              (ticks w) (nonce w)
  end.

(** The exceptions the methods can meet. *)
Inductive exn : Type :=
| OSError | JSONDecodeError | KeyError | TypeError | AttributeError
| ValueError | UnicodeError | OverflowError | InvalidToken | BinasciiError.

Inductive result (A : Type) : Type :=
| Ok (a : A)
| Raise (e : exn).
Arguments Ok {A} a.
Arguments Raise {A} e.

(** A computation: it returns or raises, and leaves a state either way. *)
Definition M (A : Type) : Type := World -> result A * World.

Definition ret {A : Type} (a : A) : M A := fun w => (Ok a, w).

Definition raise {A : Type} (e : exn) : M A := fun w => (Raise e, w).

Definition bind {A B : Type} (m : M A) (k : A -> M B) : M B :=
  fun w =>
    match m w with
    | (Ok a, w') => k a w'
    | (Raise e, w') => (Raise e, w')
    end.

(** [try: m except Exception as e: h e] *)
Definition try_except {A : Type} (m : M A) (h : exn -> M A) : M A :=
  fun w =>
    match m w with
    | (Ok a, w') => (Ok a, w')
    | (Raise e, w') => h e w'
    end.

(** An operation of a library that returns or raises [e]. *)
Definition lift {A : Type} (e : exn) (o : option A) : M A :=
  match o with
  | Some a => ret a
  | None => raise e
  end.

Declare Scope py_scope.
Delimit Scope py_scope with py.
Notation "'let*' x := m 'in' k" := (bind m (fun x => k))
  (at level 10, x name, m at level 100, k at level 200, only parsing)
  : py_scope.
Local Open Scope py_scope.

(** [for x in xs: body x] *)
Fixpoint for_each {A : Type} (xs : list A) (body : A -> M unit) : M unit :=
  match xs with
  | [] => ret tt
  | x :: r => let* _ := body x in for_each r body
  end.

(** [for x in xs: acc = body(acc, x)] for a loop that carries a value. *)
Fixpoint for_fold {A S : Type} (xs : list A) (body : S -> A -> M S) (acc : S)
  : M S :=
  match xs with
  | [] => ret acc
  | x :: r => let* acc' := body acc x in for_fold r body acc'
  end.

(** [for x in xs: acc = body(acc, x)] inside a [try] whose handler reads
    the variable the loop updates: the passes run until one raises, and
    the loop gives the value reached, with the exception when there was
    one. *)
Fixpoint for_fold_reached {A S : Type} (xs : list A) (body : S -> A -> M S)
    (acc : S) : M (S * option exn) :=
  match xs with
  | [] => ret (acc, None)
  | x :: r =>
      fun w =>
        match body acc x w with
        | (Ok acc', w') => for_fold_reached r body acc' w'
        | (Raise e, w') => (Ok (acc, Some e), w')
        end
  end.

(** Owner permission bits.  The process owns every file of the store and
    does not run as root. *)
Definition readable (mode : N) : bool := N.testbit mode 8.
Definition writable (mode : N) : bool := N.testbit mode 7.

(** [datetime.now()] *)
Definition datetime_now : M datetime :=
  fun w =>
    (Ok (clock w (ticks w)),
     mkWorld (encrypted_dir w) (exports_dir w) (activity_log w) (umask w)
             (clock w) (S (ticks w)) (nonce w)).

(** The time the file system stamps on a write: the clock now, without
    taking a reading away from the program. *)
Definition fs_time (w : World) : datetime := clock w (ticks w).

(** [os.path.exists(p)] *)
Definition os_path_exists (p : path) : M bool :=
  fun w => (Ok (bool_decide (is_Some (lookup_path p w))), w).

(** [with open(p, 'r') as f: json.load(f)] *)
Definition load_json (p : path) : M json :=
  fun w =>
    match lookup_path p w with
    | Some (File c mode _) =>
        if readable mode then
          match c with
          | Json v => (Ok v, w)
          | NotJson _ => (Raise JSONDecodeError, w)
          end
        else (Raise OSError, w)
    | Some (Dir _ _) => (Raise OSError, w)
    | None => (Raise OSError, w)
    end.

(** [s] holds the character [c]. *)
Definition has_char (c : N) (s : pystr) : bool := existsb (N.eqb c) s.

(** [os.fsencode] of one character of a file name: UTF-8, with the
    code points U+DC80..U+DCFF, which [os.listdir] puts in the place of
    bytes it could not decode, given back as those bytes; any other
    surrogate is [UnicodeEncodeError]. *)
Definition fsencode_cp (c : N) : option bytes :=
  if (0xDC80 <=? c)%N && (c <=? 0xDCFF)%N then Some [byte_of (c - 0xDC00)]
  else utf8_encode_cp c.

(** [os.fsencode(name)] *)
Fixpoint os_fsencode (name : pystr) : option bytes :=
  match name with
  | [] => Some []
  | c :: r =>
      match fsencode_cp c, os_fsencode r with
      | Some cb, Some rb => Some (cb ++ rb)
      | _, _ => None
      end
  end.

(** The longest file name the file system takes, in bytes ([NAME_MAX] of
    the Linux file systems). *)
Definition NAME_MAX : nat := 255.

(** What [open(dir + "/" + name, 'w')] raises when the directory has no
    entry [name], [None] when it creates the file: a name that cannot be
    encoded or holds a NUL never reaches the file system
    ([UnicodeEncodeError], [ValueError]), a name with a ['/'] leads through
    a sub-directory that is not there, and a name of more than [NAME_MAX]
    bytes is refused (both [OSError]). *)
Definition create_error (name : pystr) : option exn :=
  match os_fsencode name with
  | None => Some UnicodeError
  | Some b =>
      if has_char 0 name then Some ValueError
      else if has_char 0x2F name then Some OSError
      else if (NAME_MAX <? length b)%nat then Some OSError
      else None
  end.

(** The same for a path of the store; the name of the audit log is
    fixed. *)
Definition new_file_error (p : path) : option exn :=
  match p with
  | Encrypted n => create_error n
  | Exports n => create_error n
  | ActivityLog => None
  end.

(** [with open(p, 'w') as f: json.dump(v, f, indent=2)] *)
Definition dump_json (p : path) (v : json) : M unit :=
  fun w =>
    match lookup_path p w with
    | Some (File _ mode _) =>
        if writable mode
        then (Ok tt, set_path p (Some (File (Json v) mode (fs_time w))) w)
        else (Raise OSError, w)
    | Some (Dir _ _) => (Raise OSError, w)
    | None =>
        match new_file_error p with
        | Some e => (Raise e, w)
        | None =>
            (Ok tt,
             set_path p
               (Some (File (Json v) (N.ldiff 438 (umask w)) (fs_time w))) w)
        end
    end.

(** [print(text)] for a text that holds data.  The standard output encodes
    as UTF-8 and is strict, as Python sets it up in a UTF-8 locale, so a
    text [str.encode] rejects raises [UnicodeEncodeError]; what is printed
    is no part of the state. *)
Definition print_text (text : pystr) : M unit :=
  let* _ := lift UnicodeError (str_encode text) in ret tt.

(** [os.chmod(p, mode)] *)
Definition os_chmod (p : path) (mode : N) : M unit :=
  fun w =>
    match lookup_path p w with
    | Some (File c _ t) => (Ok tt, set_path p (Some (File c mode t)) w)
    | Some (Dir _ t) => (Ok tt, set_path p (Some (Dir mode t)) w)
    | None => (Raise OSError, w)
    end.

(** [os.remove(p)]: removes a regular file, raises on a directory and on a
    missing path. *)
Definition os_remove (p : path) : M unit :=
  fun w =>
    match lookup_path p w with
    | Some (File _ _ _) => (Ok tt, set_path p None w)
    | Some (Dir _ _) => (Raise OSError, w)
    | None => (Raise OSError, w)
    end.

(** [datetime.fromtimestamp(os.stat(p).st_mtime)] *)
Definition stat_mtime (p : path) : M datetime :=
  fun w =>
    match lookup_path p w with
    | Some (File _ _ t) => (Ok t, w)
    | Some (Dir _ t) => (Ok t, w)
    | None => (Raise OSError, w)
    end.

(** [os.listdir("data/encrypted")]; the order is the file system's. *)
Definition listdir_encrypted : M (list pystr) :=
  fun w => (Ok (map fst (map_to_list (encrypted_dir w))), w).

(** [os.listdir("data/exports")] *)
Definition listdir_exports : M (list pystr) :=
  fun w => (Ok (map fst (map_to_list (exports_dir w))), w).

(** *** Python operations on JSON values *)

(** [v[k]] for a [str] key. *)
Definition getitem (v : json) (k : pystr) : M json :=
  match v with
  | JDict kv => lift KeyError (dict_get k kv)
  | _ => raise TypeError
  end.

(** [v[k] = x] *)
Definition setitem (v : json) (k : pystr) (x : json) : M json :=
  match v with
  | JDict kv => ret (JDict (dict_set k x kv))
  | _ => raise TypeError
  end.

(** [v.get(k, dflt)] *)
Definition get (v : json) (k : pystr) (dflt : json) : M json :=
  match v with
  | JDict kv => ret (default dflt (dict_get k kv))
  | _ => raise AttributeError
  end.

(** [k in v], for the containers [.copy()] accepts. *)
Definition contains (k : pystr) (v : json) : M bool :=
  match v with
  | JDict kv => ret (bool_decide (is_Some (dict_get k kv)))
  | JList l => ret (existsb (is_str k) l)
  | _ => raise TypeError
  end.

(** [v.copy()] *)
Definition copy (v : json) : M json :=
  match v with
  | JDict _ | JList _ => ret v
  | _ => raise AttributeError
  end.

(** [len(v)] *)
Definition len (v : json) : M Z :=
  match v with
  | JStr s => ret (Z.of_nat (length s))
  | JList l => ret (Z.of_nat (length l))
  | JDict kv => ret (Z.of_nat (length kv))
  | _ => raise TypeError
  end.

(** A value used where only a [str] has the method or is accepted. *)
Definition as_str (e : exn) (v : json) : M pystr :=
  match v with
  | JStr s => ret s
  | _ => raise e
  end.

(** [v.append(x)] *)
Definition append (v x : json) : M json :=
  match v with
  | JList l => ret (JList (l ++ [x]))
  | _ => raise AttributeError
  end.

(** [v[-n:]] *)
Definition slice_last (n : nat) (v : json) : M json :=
  match v with
  | JList l => ret (JList (last_n n l))
  | JStr s => ret (JStr (last_n n s))
  | _ => raise TypeError
  end.

(** [Fernet(key)] for the key of this installation.  [fernet_encrypt] takes
    the number of the call, from which the IV and the time stamp of the
    token are drawn; [fernet_decrypt] gives [None] for [InvalidToken]. *)
Class Cipher : Type := {
  fernet_encrypt : nat -> bytes -> bytes;
  fernet_decrypt : bytes -> option bytes
}.

(** The other library services the class is built on: [hashlib.sha256],
    [datetime.fromisoformat], [json.dumps]/[json.loads] on strings, and
    [str] of an exception. *)
Class Libs : Type := {
  sha256_hexdigest : bytes -> pystr;
  fromisoformat : pystr -> option datetime;
  json_dumps : json -> pystr;
  json_loads : pystr -> option json;
  str_of_exn : exn -> pystr
}.

(** [Fernet.decrypt] accepts what [Fernet.encrypt] produced with the same
    key and gives the message back; a token is never empty (it starts with
    a version byte). *)
Class FernetInverse (C : Cipher) : Prop := {
  fernet_inverse : forall (iv : nat) (m : bytes),
    fernet_decrypt (fernet_encrypt iv m) = Some m;
  fernet_token_nonempty : forall (iv : nat) (m : bytes),
    fernet_encrypt iv m <> []
}.

End Store.

(** ** The [DataHandler] class *)

Module Handler.
Import PyText PyTime PyJson Store.

Local Open Scope py_scope.

(** [CandidateInfo] of [app.py]; [__post_init__] makes [tech_stack] a list. *)
Record CandidateInfo : Type := mkCandidate {
  full_name : pystr;
  email : pystr;
  phone : pystr;
  years_experience : pystr;
  desired_positions : pystr;
  current_location : pystr;
  tech_stack : list pystr
}.

(** ["data/encrypted/candidate_{session_id}.json"] *)
Definition record_name (session_id : pystr) : pystr :=
  lit "candidate_" ++ session_id ++ lit ".json".

(** ["export_{session_id}_"] *)
Definition export_pattern (session_id : pystr) : pystr :=
  lit "export_" ++ session_id ++ lit "_".

(** ["export_{session_id}_{stamp}.json"] *)
Definition export_name (session_id stamp : pystr) : pystr :=
  export_pattern session_id ++ stamp ++ lit ".json".

(** [min(dates)] for a non-empty list, first element apart; [None] is the
    [TypeError] of a comparison. *)
Fixpoint min_from (cur : datetime) (l : list datetime) : option datetime :=
  match l with
  | [] => Some cur
  | x :: r =>
      match dt_lt x cur with
      | Some true => min_from x r
      | Some false => min_from cur r
      | None => None
      end
  end.

(** [max(dates)] *)
Fixpoint max_from (cur : datetime) (l : list datetime) : option datetime :=
  match l with
  | [] => Some cur
  | x :: r =>
      match dt_gt x cur with
      | Some true => max_from x r
      | Some false => max_from cur r
      | None => None
      end
  end.

Section DataHandler.
Context {CS : Cipher} {LB : Libs}.

(** [self.cipher_suite.encrypt(m)] *)
Definition cipher_suite_encrypt (m : bytes) : M bytes :=
  fun w =>
    (Ok (fernet_encrypt (nonce w) m),
     mkWorld (encrypted_dir w) (exports_dir w) (activity_log w) (umask w)
             (clock w) (ticks w) (S (nonce w))).

(** [self.cipher_suite.decrypt(t)] *)
Definition cipher_suite_decrypt (t : bytes) : M bytes :=
  lift InvalidToken (fernet_decrypt t).

(** [_encrypt_data]: on any exception the data comes back unencrypted. *)
Definition _encrypt_data (data : pystr) : M pystr :=
  try_except
    (let* raw := lift UnicodeError (str_encode data) in
     let* encrypted_data := cipher_suite_encrypt raw in
     lift UnicodeError (bytes_decode (b64encode encrypted_data)))
    (fun _ => ret data).

(** [_decrypt_data]: on any exception the argument comes back as it is.  The
    argument is whatever the record file holds under the key, so a value
    that is no [str] fails at [.encode()] and is returned. *)
Definition _decrypt_data (encrypted_data : json) : M json :=
  try_except
    (let* s := as_str AttributeError encrypted_data in
     let* raw := lift UnicodeError (str_encode s) in
     let* decoded_data := lift BinasciiError (b64decode raw) in
     let* decrypted_data := cipher_suite_decrypt decoded_data in
     let* text := lift UnicodeError (bytes_decode decrypted_data) in
     ret (JStr text))
    (fun _ => ret encrypted_data).

(** [hash_email]: [hashlib.sha256(email.encode()).hexdigest()[:16]] *)
Definition hash_email (email : pystr) : M pystr :=
  let* raw := lift UnicodeError (str_encode email) in
  ret (take 16 (sha256_hexdigest raw)).

(** [hash_phone]: [hashlib.sha256(phone.encode()).hexdigest()[:12]] *)
Definition hash_phone (phone : pystr) : M pystr :=
  let* raw := lift UnicodeError (str_encode phone) in
  ret (take 12 (sha256_hexdigest raw)).

(** [_log_data_activity]: the whole log is read, extended, cut to its last
    1000 entries and written back; any exception is swallowed. *)
Definition _log_data_activity (activity : pystr) (session_id : json)
    (metadata : json) : M unit :=
  try_except
    (let* now := datetime_now in
     let log_entry :=
       JDict [(lit "timestamp", JStr (isoformat now));
              (lit "activity", JStr activity);
              (lit "session_id", session_id);
              (lit "metadata",
               if truthy metadata then metadata else JDict [])] in
     let* present := os_path_exists ActivityLog in
     let* log_data :=
       (if present then load_json ActivityLog
        else ret (JDict [(lit "activities", JList [])])) in
     let* activities := getitem log_data (lit "activities") in
     let* activities := append activities log_entry in
     let* log_data := setitem log_data (lit "activities") activities in
     let* n := len activities in
     let* log_data :=
       (if (1000 <? n)%Z then
          let* kept := slice_last 1000 activities in
          setitem log_data (lit "activities") kept
        else ret log_data) in
     dump_json ActivityLog log_data)
    (fun _ => ret tt).

(** [self._encrypt_data(x) if x else None] *)
Definition encrypted_or_none (x : pystr) : M json :=
  if truthy (JStr x) then
    let* c := _encrypt_data x in ret (JStr c)
  else ret JNull.

(** [self.hash_email(x) if x else None], and the same for [hash_phone]. *)
Definition hashed_or_none (hash : pystr -> M pystr) (x : pystr) : M json :=
  if truthy (JStr x) then
    let* h := hash x in ret (JStr h)
  else ret JNull.

(** [self._decrypt_data(d[k]) if d.get(k) else None] *)
Definition decrypted_or_none (d : json) (k : pystr) : M json :=
  let* probe := get d k JNull in
  if truthy probe then
    let* c := getitem d k in _decrypt_data c
  else ret JNull.

(** [save_candidate_data]; [conversation_history] is [None] or a list. *)
Definition save_candidate_data (candidate_info : CandidateInfo)
    (session_id : pystr) (conversation_history : option (list json))
    : M bool :=
  let history := from_option JList JNull conversation_history in
  try_except
    (let* timestamp := datetime_now in
     let* full_name_encrypted :=
       encrypted_or_none (full_name candidate_info) in
     let* email_encrypted := encrypted_or_none (email candidate_info) in
     let* phone_encrypted := encrypted_or_none (phone candidate_info) in
     let* current_location_encrypted :=
       encrypted_or_none (current_location candidate_info) in
     let* email_hash := hashed_or_none hash_email (email candidate_info) in
     let* phone_hash := hashed_or_none hash_phone (phone candidate_info) in
     let encrypted_data :=
       [(lit "session_id", JStr session_id);
        (lit "timestamp", JStr (isoformat timestamp));
        (lit "data_version", JStr (lit "1.0"));
        (lit "privacy_compliant", JBool true);
        (lit "candidate_info",
         JDict [(lit "full_name_encrypted", full_name_encrypted);
                (lit "email_encrypted", email_encrypted);
                (lit "phone_encrypted", phone_encrypted);
                (lit "current_location_encrypted",
                 current_location_encrypted);
                (lit "years_experience",
                 JStr (years_experience candidate_info));
                (lit "desired_positions",
                 JStr (desired_positions candidate_info));
                (lit "tech_stack",
                 JList (map JStr (tech_stack candidate_info)))]);
        (lit "privacy_hashes",
         JDict [(lit "email_hash", email_hash);
                (lit "phone_hash", phone_hash)]);
        (lit "metadata",
         JDict [(lit "ip_address_hash", JNull);
                (lit "user_agent_hash", JNull);
                (lit "session_duration", JNull);
                (lit "completion_status",
                 JStr (if truthy history then lit "complete"
                       else lit "incomplete"))])] in
     let* encrypted_data :=
       (if truthy history then
          let* c := _encrypt_data (json_dumps history) in
          ret (dict_set (lit "conversation_history_encrypted") (JStr c)
                        encrypted_data)
        else ret encrypted_data) in
     let filename := Encrypted (record_name session_id) in
     let* _ := dump_json filename (JDict encrypted_data) in
     let* _ := os_chmod filename 384 in
     let* _ :=
       _log_data_activity (lit "SAVE") (JStr session_id)
         (JDict [(lit "has_personal_info",
                  JBool (truthy (JStr (full_name candidate_info))));
                 (lit "has_contact_info",
                  JBool (truthy (JStr (email candidate_info))));
                 (lit "tech_stack_count",
                  JInt (Z.of_nat (length (tech_stack candidate_info))))]) in
     ret true)
    (fun _ => ret false).

(** [load_candidate_data]; the result is [None] or the decrypted record. *)
Definition load_candidate_data (session_id : pystr) : M (option json) :=
  try_except
    (let filename := Encrypted (record_name session_id) in
     let* present := os_path_exists filename in
     if negb present then ret None
     else
       let* encrypted_data := load_json filename in
       let* decrypted_data := copy encrypted_data in
       let* has_info := contains (lit "candidate_info") encrypted_data in
       let* decrypted_data :=
         (if has_info then
            let* candidate_info :=
              getitem encrypted_data (lit "candidate_info") in
            let* full_name :=
              decrypted_or_none candidate_info (lit "full_name_encrypted") in
            let* email :=
              decrypted_or_none candidate_info (lit "email_encrypted") in
            let* phone :=
              decrypted_or_none candidate_info (lit "phone_encrypted") in
            let* current_location :=
              decrypted_or_none candidate_info
                                (lit "current_location_encrypted") in
            let* years_experience :=
              get candidate_info (lit "years_experience") JNull in
            let* desired_positions :=
              get candidate_info (lit "desired_positions") JNull in
            let* tech_stack :=
              get candidate_info (lit "tech_stack") (JList []) in
            setitem decrypted_data (lit "candidate_info")
              (JDict [(lit "full_name", full_name);
                      (lit "email", email);
                      (lit "phone", phone);
                      (lit "current_location", current_location);
                      (lit "years_experience", years_experience);
                      (lit "desired_positions", desired_positions);
                      (lit "tech_stack", tech_stack)])
          else ret decrypted_data) in
       let* has_history :=
         contains (lit "conversation_history_encrypted") encrypted_data in
       let* decrypted_data :=
         (if has_history then
            let* blob :=
              getitem encrypted_data
                      (lit "conversation_history_encrypted") in
            let* decrypted_history := _decrypt_data blob in
            let* text := as_str TypeError decrypted_history in
            let* history := lift JSONDecodeError (json_loads text) in
            setitem decrypted_data (lit "conversation_history") history
          else ret decrypted_data) in
       let* _ := _log_data_activity (lit "LOAD") (JStr session_id) JNull in
       ret (Some decrypted_data))
    (fun _ => ret None).

(** [export_candidate_data]; the result is [None] or the path written. *)
Definition export_candidate_data (session_id : pystr)
    (export_format : pystr) : M (option pystr) :=
  try_except
    (let* loaded := load_candidate_data session_id in
     match loaded with
     | None => ret None
     | Some data =>
         if negb (truthy data) then ret None
         else
           let* exported_at := datetime_now in
           let* personal_information :=
             get data (lit "candidate_info") (JDict []) in
           let* history := get data (lit "conversation_history") (JList []) in
           let* total_messages := len history in
           let* metadata := get data (lit "metadata") (JDict []) in
           let* completion_status :=
             get metadata (lit "completion_status") (JStr (lit "unknown")) in
           let export_data :=
             JDict
               [(lit "export_info",
                 JDict [(lit "exported_at", JStr (isoformat exported_at));
                        (lit "session_id", JStr session_id);
                        (lit "format", JStr export_format);
                        (lit "gdpr_compliant", JBool true)]);
                (lit "personal_information", personal_information);
                (lit "conversation_summary",
                 JDict [(lit "total_messages", JInt total_messages);
                        (lit "completion_status", completion_status)]);
                (lit "privacy_notice",
                 JDict [(lit "data_controller",
                         JStr (lit "TalentScout Recruitment Agency"));
                        (lit "purpose",
                         JStr (lit
                           "Initial candidate screening and recruitment"));
                        (lit "retention_period",
                         JStr (lit "30 days from collection"));
                        (lit "rights",
                         JStr (lit
  "You have the right to access, rectify, erase, and port your data"))])] in
           let* stamp := datetime_now in
           let export_file :=
             export_name session_id (strftime_Ymd_HMS stamp) in
           let* _ := dump_json (Exports export_file) export_data in
           let* _ :=
             _log_data_activity (lit "EXPORT") (JStr session_id)
               (JDict [(lit "format", JStr export_format)]) in
           ret (Some (lit "data/exports/" ++ export_file))
     end)
    (fun _ => ret None).

(** The body of the export loop of [delete_candidate_data]. *)
Definition remove_export (session_id : pystr) (export_file : pystr)
    : M unit :=
  if startswith export_file (export_pattern session_id)
  then os_remove (Exports export_file)
  else ret tt.

(** [delete_candidate_data] *)
Definition delete_candidate_data (session_id : pystr) (reason : pystr)
    : M bool :=
  try_except
    (let filename := Encrypted (record_name session_id) in
     let* present := os_path_exists filename in
     if present then
       let* _ :=
         _log_data_activity (lit "DELETE") (JStr session_id)
           (JDict [(lit "reason", JStr reason)]) in
       let* _ := os_remove filename in
       let* names := listdir_exports in
       let* _ := for_each names (remove_export session_id) in
       ret true
     else ret false)
    (fun _ => ret false).

(** The body of the record loop of [cleanup_old_data] for one file name,
    with its own [try]: it returns the new [deleted_count].  The handler
    prints the file name, which comes from [os.listdir] and is data; the
    rest of the line is the message of a built-in exception, which holds
    escapes for the characters [print] could not write.  The other
    handlers of the class print such a message only and are left out. *)
Definition cleanup_record (retention_days : Z) (cutoff_date : datetime)
    (deleted_count : Z) (filename : pystr) : M Z :=
  if startswith filename (lit "candidate_") && endswith filename (lit ".json")
  then
    try_except
      (let filepath := Encrypted filename in
       let* data := load_json filepath in
       let* stamp := getitem data (lit "timestamp") in
       let* stamp := as_str TypeError stamp in
       let* file_date := lift ValueError (fromisoformat stamp) in
       let* older := lift TypeError (dt_lt file_date cutoff_date) in
       if older then
         let* session_id := get data (lit "session_id") (JStr (lit "unknown")) in
         let* now := datetime_now in
         let* age := lift TypeError (sub_dt_days now file_date) in
         let* _ :=
           _log_data_activity (lit "AUTO_DELETE") session_id
             (JDict [(lit "retention_days", JInt retention_days);
                     (lit "file_age_days", JInt age)]) in
         let* _ := os_remove filepath in
         ret (deleted_count + 1)%Z
       else ret deleted_count)
      (fun _ =>
         let* _ := print_text (lit "Error processing file " ++ filename) in
         ret deleted_count)
  else ret deleted_count.

(** The body of the export loop of [cleanup_old_data]. *)
Definition cleanup_export (cutoff_date : datetime) (filename : pystr)
    : M unit :=
  if startswith filename (lit "export_") then
    let filepath := Exports filename in
    let* file_date := stat_mtime filepath in
    let* older := lift TypeError (dt_lt file_date cutoff_date) in
    if older then os_remove filepath else ret tt
  else ret tt.

(** [cleanup_old_data].  The cutoff is computed before the [try], so its
    [OverflowError] leaves the method.  Both loops stand in the [try]; its
    handler returns [deleted_count] as it is when the exception arrives.
    A pass of the record loop raises only from its own handler, when the
    file name cannot be printed: the sweep then ends with the count
    reached and the export loop is not run. *)
Definition cleanup_old_data (retention_days : Z) : M Z :=
  let* now := datetime_now in
  let* cutoff_date := lift OverflowError (sub_days now retention_days) in
  let* names := listdir_encrypted in
  let* reached :=
    for_fold_reached names (cleanup_record retention_days cutoff_date) 0%Z in
  match reached with
  | (deleted_count, Some _) => ret deleted_count
  | (deleted_count, None) =>
      try_except
        (let* exports := listdir_exports in
         let* _ := for_each exports (cleanup_export cutoff_date) in
         ret deleted_count)
        (fun _ => ret deleted_count)
  end.

(** The body of the date loop of [get_privacy_report], with its bare
    [except: continue]. *)
Definition report_date (dates : list datetime) (filename : pystr)
    : M (list datetime) :=
  try_except
    (let* data := load_json (Encrypted filename) in
     let* stamp := getitem data (lit "timestamp") in
     let* stamp := as_str TypeError stamp in
     let* d := lift ValueError (fromisoformat stamp) in
     ret (dates ++ [d]))
    (fun _ => ret dates).

(** [get_privacy_report] *)
Definition get_privacy_report : M json :=
  try_except
    (let* generated_at := datetime_now in
     let* names := listdir_encrypted in
     let files := filter (fun f => startswith f (lit "candidate_") = true)
                         names in
     let* dates := for_fold files report_date [] in
     let* oldest_newest :=
       match dates with
       | [] => ret (JNull, JNull)
       | d :: r =>
           let* lo := lift TypeError (min_from d r) in
           let* hi := lift TypeError (max_from d r) in
           ret (JStr (isoformat lo), JStr (isoformat hi))
       end in
     let* present := os_path_exists ActivityLog in
     let* recent_activities :=
       (if present then
          let* log_data := load_json ActivityLog in
          let* activities := getitem log_data (lit "activities") in
          slice_last 10 activities
        else ret (JList [])) in
     ret (JDict
       [(lit "generated_at", JStr (isoformat generated_at));
        (lit "data_summary",
         JDict [(lit "total_records", JInt (Z.of_nat (length files)));
                (lit "encrypted_records", JInt (Z.of_nat (length files)));
                (lit "oldest_record", fst oldest_newest);
                (lit "newest_record", snd oldest_newest)]);
        (lit "compliance_status",
         JDict [(lit "encryption_enabled", JBool true);
                (lit "retention_policy_active", JBool true);
                (lit "audit_logging_enabled", JBool true);
                (lit "gdpr_compliant", JBool true)]);
        (lit "recent_activities", recent_activities)]))
    (fun e => ret (JDict [(lit "error", JStr (str_of_exn e))])).

End DataHandler.

End Handler.

(** ** Views of the state used in the statements *)

Module Views.
Import PyText PyTime PyJson Store Handler.

(** The state after one more reading of the clock. *)
Definition tick (w : World) : World :=
  mkWorld (encrypted_dir w) (exports_dir w) (activity_log w) (umask w)
          (clock w) (S (ticks w)) (nonce w).

(** The state after one more call of [Fernet.encrypt]. *)
Definition bump_nonce (w : World) : World :=
  mkWorld (encrypted_dir w) (exports_dir w) (activity_log w) (umask w)
          (clock w) (ticks w) (S (nonce w)).

(** What [_encrypt_data] returns for [x] at call number [iv]: the base64
    text of the token, or [x] itself when [x.encode()] raises. *)
Definition enc_text {CS : Cipher} (iv : nat) (x : pystr) : pystr :=
  match str_encode x with
  | Some raw => map Byte.to_N (b64encode (fernet_encrypt iv raw))
  | None => x
  end.

(** The state [_encrypt_data] leaves. *)
Definition after_encrypt (x : pystr) (w : World) : World :=
  match str_encode x with
  | Some _ => bump_nonce w
  | None => w
  end.

(** The entries of the audit log, when the log file holds a document of the
    form [{"activities": [...]}]. *)
Definition log_entries (w : World) : option (list json) :=
  match activity_log w with
  | Some (File (Json (JDict kv)) _ _) =>
      match dict_get (lit "activities") kv with
      | Some (JList l) => Some l
      | _ => None
      end
  | _ => None
  end.

(** The log file can be read and rewritten. *)
Definition log_usable (w : World) : Prop :=
  match activity_log w with
  | Some (File _ mode _) => readable mode = true /\ writable mode = true
  | _ => False
  end.

(** The entry [_log_data_activity] builds at clock reading [now]. *)
Definition log_entry (now : datetime) (activity : pystr) (session_id : json)
    (metadata : json) : json :=
  JDict [(lit "timestamp", JStr (isoformat now));
         (lit "activity", JStr activity);
         (lit "session_id", session_id);
         (lit "metadata", if truthy metadata then metadata else JDict [])].

(** The log file [_log_data_activity] leaves for [entry], in the state [w]
    reached after its reading of the clock: a fresh log, the old log with
    the entry appended and cut to its last 1000 entries, or, when anything
    raises on the way, the old log. *)
Definition log_step (entry : json) (w : World) : option fs_entry :=
  match activity_log w with
  | None =>
      Some (File (Json (JDict [(lit "activities", JList [entry])]))
                 (N.ldiff 438 (umask w)) (fs_time w))
  | Some (File (Json (JDict kv)) mode t) =>
      match dict_get (lit "activities") kv with
      | Some (JList l) =>
          if readable mode && writable mode then
            Some (File
                    (Json (JDict (dict_set (lit "activities")
                                    (JList (last_n 1000 (l ++ [entry]))) kv)))
                    mode (fs_time w))
          else activity_log w
      | _ => activity_log w
      end
  | _ => activity_log w
  end.

(** One logged activity: kind, session id, metadata. *)
Definition activity : Type := pystr * json * json.

(** A sequence of calls of [_log_data_activity]. *)
Fixpoint log_all (acts : list activity) (w : World)
  : World :=
  match acts with
  | [] => w
  | (a, s, m) :: r => log_all r (snd (_log_data_activity a s m w))
  end.

(** The audit log holds at most 1000 entries. *)
Definition log_bounded (w : World) : Prop :=
  forall l, log_entries w = Some l -> (length l <= 1000)%nat.

(** What [load_candidate_data] returns for an identifying field: the text,
    or [None] for a field that was empty. *)
Definition plain_or_none (x : pystr) : json :=
  if truthy (JStr x) then JStr x else JNull.

(** What [save_candidate_data] stores for an identifying field: [null] for
    an empty one, else what [_encrypt_data] returned at some call. *)
Definition sealed {CS : Cipher} (x : pystr) (v : json) : Prop :=
  if truthy (JStr x) then exists iv, v = JStr (enc_text iv x) else v = JNull.

(** What [save_candidate_data] stores as the hash of [x]: [null] for an
    empty one, else the first [n] hex digits of its SHA-256. *)
Definition hashed {LB : Libs} (n : nat) (x : pystr) (v : json) : Prop :=
  if truthy (JStr x) then
    exists raw, str_encode x = Some raw /\
                v = JStr (take n (sha256_hexdigest raw))
  else v = JNull.

(** [hash_email]/[hash_phone] is not reached, or does not raise, for [x]. *)
Definition can_hash (x : pystr) : bool :=
  negb (truthy (JStr x)) || bool_decide (is_Some (str_encode x)).

(** [open(path, 'w')] succeeds for the record file of the session: it is
    a regular file the owner may write, or it is absent and its name is
    one the file system takes. *)
Definition can_write (session_id : pystr) (w : World) : bool :=
  match encrypted_dir w !! record_name session_id with
  | Some (File _ mode _) => writable mode
  | Some (Dir _ _) => false
  | None =>
      match create_error (record_name session_id) with
      | None => true
      | Some _ => false
      end
  end.

(** The document stored for a session, if its file holds one. *)
Definition record_doc (session_id : pystr) (w : World) : option json :=
  match encrypted_dir w !! record_name session_id with
  | Some (File (Json v) _ _) => Some v
  | _ => None
  end.

(** [v[k1][k2]...] through nested dictionaries. *)
Fixpoint lookup_in (keys : list pystr) (v : json) : option json :=
  match keys with
  | [] => Some v
  | k :: r =>
      match v with
      | JDict kv =>
          match dict_get k kv with
          | Some x => lookup_in r x
          | None => None
          end
      | _ => None
      end
  end.

(** The four identifying fields are filled in. *)
Definition valid_record (r : CandidateInfo) : Prop :=
  full_name r <> [] /\ email r <> [] /\ phone r <> [] /\
  current_location r <> [].

(** The transcript handed to [save_candidate_data], as the Python value. *)
Definition history_value (h : option (list json)) : json :=
  from_option JList JNull h.

(** The decrypted personal fields [load_candidate_data] builds. *)
Definition loaded_info (r : CandidateInfo) : json :=
  JDict [(lit "full_name", plain_or_none (full_name r));
         (lit "email", plain_or_none (email r));
         (lit "phone", plain_or_none (phone r));
         (lit "current_location", plain_or_none (current_location r));
         (lit "years_experience", JStr (years_experience r));
         (lit "desired_positions", JStr (desired_positions r));
         (lit "tech_stack", JList (map JStr (tech_stack r)))].

(** [w] after some calls of [Fernet.encrypt], [n] in all. *)
Definition with_nonce (n : nat) (w : World) : World :=
  mkWorld (encrypted_dir w) (exports_dir w) (activity_log w) (umask w)
          (clock w) (ticks w) n.

(** The document [save_candidate_data] builds before the transcript is
    added, from the values it computed. *)
Definition stored_doc (r : CandidateInfo) (session_id : pystr)
    (timestamp : datetime) (f1 f2 f3 f4 eh ph : json) (h : json)
    : list (pystr * json) :=
  [(lit "session_id", JStr session_id);
   (lit "timestamp", JStr (isoformat timestamp));
   (lit "data_version", JStr (lit "1.0"));
   (lit "privacy_compliant", JBool true);
   (lit "candidate_info",
    JDict [(lit "full_name_encrypted", f1);
           (lit "email_encrypted", f2);
           (lit "phone_encrypted", f3);
           (lit "current_location_encrypted", f4);
           (lit "years_experience", JStr (years_experience r));
           (lit "desired_positions", JStr (desired_positions r));
           (lit "tech_stack", JList (map JStr (tech_stack r)))]);
   (lit "privacy_hashes",
    JDict [(lit "email_hash", eh); (lit "phone_hash", ph)]);
   (lit "metadata",
    JDict [(lit "ip_address_hash", JNull);
           (lit "user_agent_hash", JNull);
           (lit "session_duration", JNull);
           (lit "completion_status",
            JStr (if truthy h then lit "complete" else lit "incomplete"))])].

(** The entry a non-empty transcript adds to the stored document. *)
Definition stored_transcript {CS : Cipher} {LB : Libs} (h : json)
    (extra : list (pystr * json)) : Prop :=
  if truthy h then
    exists iv,
      extra = [(lit "conversation_history_encrypted",
                JStr (enc_text iv (json_dumps h)))]
  else extra = [].

(** What [load_candidate_data] finds for the transcript: nothing when none
    was stored, else what [json.loads] makes of the stored text. *)
Definition transcript_loads {LB : Libs} (h : json) (hist : option json)
    : Prop :=
  if truthy h then
    exists v, json_loads (json_dumps h) = Some v /\ hist = Some v
  else hist = None.

(** The dictionary [load_candidate_data] returns for a stored document. *)
Definition loaded_doc (stored : list (pystr * json)) (info : json)
    (hist : option json) : list (pystr * json) :=
  let d := dict_set (lit "candidate_info") info stored in
  match hist with
  | Some v => dict_set (lit "conversation_history") v d
  | None => d
  end.

(** What a successful [save_candidate_data] leaves behind. *)
Definition saved {LB : Libs} (ci : CandidateInfo) (sid : pystr)
    (h : option (list json))
    (w w1 : World) (f1 f2 f3 f4 : json) (extra : list (pystr * json))
    : Prop :=
  exists eh ph t,
    hashed 16 (email ci) eh /\ hashed 12 (phone ci) ph /\
    encrypted_dir w1 !! record_name sid
    = Some (File (Json (JDict (stored_doc ci sid (clock w (ticks w))
                                 f1 f2 f3 f4 eh ph (history_value h)
                               ++ extra)))
                 384 t) /\
    (forall n, n <> record_name sid ->
               encrypted_dir w1 !! n = encrypted_dir w !! n) /\
    exports_dir w1 = exports_dir w /\
    clock w1 = clock w /\ umask w1 = umask w.

(** The transcript, when there is one, survives [json.dumps] and
    [json.loads]. *)
Definition transcript_round_trips {LB : Libs} (h : option (list json))
    : Prop :=
  truthy (history_value h) = true ->
  json_loads (json_dumps (history_value h)) = Some (history_value h).

(** What [load_candidate_data] then finds for the transcript. *)
Definition loaded_history (h : option (list json)) : option json :=
  if truthy (history_value h) then Some (history_value h) else None.


(** The file name [export_candidate_data] chooses when it starts in [w]:
    the third reading of the clock from there, to the second. *)
Definition export_file_at (session_id : pystr) (w : World) : pystr :=
  export_name session_id (strftime_Ymd_HMS (clock w (S (S (ticks w))))).

(** [datetime.now()] returns naive values. *)
Definition naive_clock (w : World) : Prop :=
  forall k, utcoffset (clock w k) = None.

(** The names the record loop of [cleanup_old_data] looks at. *)
Definition is_record_name (name : pystr) : bool :=
  startswith name (lit "candidate_") && endswith name (lit ".json").

(** The timestamp embedded in a record file, when the file can be read,
    parses as a JSON object, and holds a timestamp that
    [datetime.fromisoformat] accepts. *)
Definition file_date {LB : Libs} (e : fs_entry) : option datetime :=
  match e with
  | File (Json (JDict kv)) mode _ =>
      if readable mode then
        match dict_get (lit "timestamp") kv with
        | Some (JStr s) => fromisoformat s
        | _ => None
        end
      else None
  | _ => None
  end.

(** The embedded timestamp is strictly older than the cutoff. *)
Definition expired {LB : Libs} (cutoff : datetime) (e : fs_entry) : bool :=
  match file_date e with
  | Some d =>
      match dt_lt d cutoff with
      | Some true => true
      | _ => false
      end
  | None => false
  end.

(** The record loop removes the entry [name] of [m]. *)
Definition sweeps {LB : Libs} (cutoff : datetime)
    (m : gmap pystr fs_entry) (name : pystr) : bool :=
  match m !! name with
  | Some e => is_record_name name && expired cutoff e
  | None => false
  end.

(** A pass of the record loop over the entry [e] ends in its handler: the
    timestamp cannot be read, or cannot be compared with the cutoff
    because it carries a UTC offset. *)
Definition skipped {LB : Libs} (cutoff : datetime) (e : fs_entry) : bool :=
  match file_date e with
  | Some d =>
      match dt_lt d cutoff with
      | Some _ => false
      | None => true
      end
  | None => true
  end.

(** The handlers of the record loop can print the names of the files they
    skip. *)
Definition skipped_names_print {LB : Libs} (cutoff : datetime)
    (m : gmap pystr fs_entry) : Prop :=
  map_Forall (fun n e => is_record_name n = true ->
                         skipped cutoff e = true -> is_Some (str_encode n)) m.

#[global] Instance skipped_names_print_dec {LB : Libs} (cutoff : datetime)
  (m : gmap pystr fs_entry) : Decision (skipped_names_print cutoff m).
Proof. unfold skipped_names_print. apply _. Defined.

(** The part of a name before its first ['/']. *)
Fixpoint first_component (name : pystr) : pystr :=
  match name with
  | [] => []
  | c :: r => if (c =? 0x2F)%N then [] else c :: first_component r
  end.

(** The path [name], taken from the directory listed as [m], passes
    through a sub-directory of it: the name holds a ['/'] and what stands
    before the first one is a directory of [m].  Where such a path leads
    is not told by the state. *)
Definition enters_subdir (m : gmap pystr fs_entry) (name : pystr) : bool :=
  has_char 0x2F name
  && match m !! first_component name with
     | Some (Dir _ _) => true
     | _ => false
     end.

(** The files of the session are entries of the two directories
    themselves: neither the path of its record file nor the paths of its
    export files pass through a sub-directory. *)
Definition files_in_place (session_id : pystr) (w : World) : Prop :=
  enters_subdir (encrypted_dir w) (record_name session_id) = false /\
  enters_subdir (exports_dir w) (export_pattern session_id) = false.

(** No high surrogate of [s] is followed by a low one: [json.load] reads
    the text [json.dump] wrote for [s] back as [s]. *)
Fixpoint json_stable (s : pystr) : bool :=
  match s with
  | [] => true
  | c :: r =>
      negb ((0xD800 <=? c)%N && (c <=? 0xDBFF)%N
            && match r with
               | d :: _ => (0xDC00 <=? d)%N && (d <=? 0xDFFF)%N
               | [] => false
               end)
      && json_stable r
  end.

(** Every string of the record is read back from JSON as it was
    written. *)
Definition stable_record (r : CandidateInfo) : Prop :=
  json_stable (full_name r) = true /\ json_stable (email r) = true /\
  json_stable (phone r) = true /\ json_stable (years_experience r) = true /\
  json_stable (desired_positions r) = true /\
  json_stable (current_location r) = true /\
  forallb json_stable (tech_stack r) = true.

(** The keys under which a stored record keeps encrypted content. *)
Definition encrypted_key (k : pystr) : bool :=
  bool_decide (k ∈ [lit "full_name_encrypted"; lit "email_encrypted";
                    lit "phone_encrypted"; lit "current_location_encrypted";
                    lit "conversation_history_encrypted"]).

(** [kv] with the values under encrypted keys blanked. *)
Definition redact_items (kv : list (pystr * json)) : list (pystr * json) :=
  map (fun '(k, v) => if encrypted_key k then (k, JNull) else (k, v)) kv.

(** A stored document with its encrypted content blanked: the encrypted
    personal fields inside [candidate_info] and the encrypted transcript. *)
Definition redact (v : json) : json :=
  match v with
  | JDict kv =>
      JDict (redact_items
               (map (fun '(k, x) =>
                       if decide (k = lit "candidate_info") then
                         (k, match x with
                             | JDict ci => JDict (redact_items ci)
                             | _ => x
                             end)
                       else (k, x)) kv))
  | _ => v
  end.

(** Two directory entries differ at most in encrypted content. *)
Definition same_cleartext (e1 e2 : fs_entry) : Prop :=
  match e1, e2 with
  | File (Json v1) m1 t1, File (Json v2) m2 t2 =>
      redact v1 = redact v2 /\ m1 = m2 /\ t1 = t2
  | _, _ => e1 = e2
  end.

(** Two stores hold the same records up to encrypted content, the same
    audit log, and show the same time. *)
Definition same_cleartext_store (w1 w2 : World) : Prop :=
  (forall name,
     option_Forall2 same_cleartext (encrypted_dir w1 !! name)
                    (encrypted_dir w2 !! name)) /\
  activity_log w1 = activity_log w2 /\
  clock w1 (ticks w1) = clock w2 (ticks w2).

(** [w] with another [data/exports]. *)
Definition with_exports (m : gmap pystr fs_entry) (w : World) : World :=
  mkWorld (encrypted_dir w) m (activity_log w) (umask w) (clock w) (ticks w)
          (nonce w).

(** [w] with another [data/encrypted]. *)
Definition with_encrypted (m : gmap pystr fs_entry) (w : World) : World :=
  mkWorld m (exports_dir w) (activity_log w) (umask w) (clock w) (ticks w)
          (nonce w).

(** The directory left when the names of [names] that satisfy [sel] have
    been removed one after the other. *)
Fixpoint purge (sel : pystr -> bool) (names : list pystr)
    (m : gmap pystr fs_entry) : gmap pystr fs_entry :=
  match names with
  | [] => m
  | n :: r => purge sel r (if sel n then delete n m else m)
  end.

Definition is_file (e : fs_entry) : bool :=
  match e with File _ _ _ => true | Dir _ _ => false end.

(** Every entry of [m] whose name satisfies [sel] is a regular file. *)
Definition all_files (sel : pystr -> bool) (m : gmap pystr fs_entry) : Prop :=
  map_Forall (fun n e => sel n = true -> is_file e = true) m.

#[global] Instance all_files_dec (sel : pystr -> bool)
  (m : gmap pystr fs_entry) : Decision (all_files sel m).
Proof. unfold all_files. apply _. Defined.

(** The export artifacts of a session: the names [delete_candidate_data]
    matches. *)
Definition is_export_of (session_id : pystr) (name : pystr) : bool :=
  startswith name (export_pattern session_id).

End Views.

(** ** Sample states and library doubles *)

Module Samples.
Import PyText PyTime PyJson Store Handler Views.


(** A clock that advances by one second per reading. *)
Definition second_clock (n : nat) : datetime :=
  mkdt 2024 3 1 12 0 (Z.of_nat n) 0 None.

(** The store right after [DataHandler()] on an empty [data/]. *)
Definition empty_world (clk : nat -> datetime) : World :=
  mkWorld ∅ ∅ None 18 clk 0 0.

Definition noon : datetime := mkdt 2024 3 1 12 0 0 0 None.

(** A stored record for session [s1] and, among the exports, a directory
    whose name starts with [export_s1_]. *)
Definition world_with_export_dir : World :=
  mkWorld
    {[ record_name (lit "s1") :=
         File (Json (JDict [(lit "session_id", JStr (lit "s1"));
                            (lit "timestamp",
                             JStr (lit "2024-03-01T12:00:00"))]))
              384 noon ]}
    {[ export_name (lit "s1") (lit "20240301_120000") :=
         File (Json (JDict [])) 420 noon;
       lit "export_s1_archive" := Dir 493 noon ]}
    None 18 second_clock 0 0.

(** A stand-in for [Fernet(key)]: a version byte, a byte drawn from the
    call number, and the message with every byte masked. *)
Definition mask (b : byte) : byte := byte_of (N.lxor (Byte.to_N b) 90).

#[global] Instance sample_cipher : Cipher := {|
  fernet_encrypt iv m :=
    byte_of 128 :: byte_of (N.of_nat iv mod 256) :: map mask m;
  fernet_decrypt t :=
    match t with
    | v :: _ :: body =>
        if (Byte.to_N v =? 128)%N then Some (map mask body) else None
    | _ => None
    end
|}.

Definition digit (c : N) : option Z :=
  if ((48 <=? c) && (c <=? 57))%N then Some (Z.of_N c - 48)%Z else None.

Fixpoint digits (s : pystr) (acc : Z) : option Z :=
  match s with
  | [] => Some acc
  | c :: r =>
      match digit c with
      | Some d => digits r (acc * 10 + d)%Z
      | None => None
      end
  end.

(** A parser for the strings [isoformat] writes for a naive value:
    [YYYY-MM-DDTHH:MM:SS], with or without [.ffffff]. *)
Definition iso_basic (s : pystr) : option datetime :=
  match s with
  | y1 :: y2 :: y3 :: y4 :: 45%N :: m1 :: m2 :: 45%N :: d1 :: d2 :: 84%N
    :: h1 :: h2 :: 58%N :: i1 :: i2 :: 58%N :: s1 :: s2 :: rest =>
      match digits [y1; y2; y3; y4] 0, digits [m1; m2] 0, digits [d1; d2] 0,
            digits [h1; h2] 0, digits [i1; i2] 0, digits [s1; s2] 0 with
      | Some y, Some m, Some d, Some hh, Some mi, Some ss =>
          match rest with
          | [] => Some (mkdt y m d hh mi ss 0 None)
          | [46%N; u1; u2; u3; u4; u5; u6] =>
              match digits [u1; u2; u3; u4; u5; u6] 0 with
              | Some us => Some (mkdt y m d hh mi ss us None)
              | None => None
              end
          | _ => None
          end
      | _, _, _, _, _, _ => None
      end
  | _ => None
  end.

(** Stand-ins for the other libraries: a digest made of the length of the
    message, the parser above, and a serializer that knows the empty
    list. *)
#[global] Instance sample_libs : Libs := {|
  sha256_hexdigest b := zpad 64 (Z.of_nat (length b));
  fromisoformat := iso_basic;
  json_dumps v := lit "[]";
  json_loads s := if decide (s = lit "[]") then Some (JList []) else None;
  str_of_exn e := lit "error"
|}.

(** The candidate of the specification's scenario. *)
Definition sample_candidate : CandidateInfo :=
  mkCandidate (lit "Ada Lovelace") (lit "a@b.com") (lit "555-123-4567")
              (lit "3") (lit "Backend Engineer") (lit "London")
              [lit "Python"; lit "Docker"].

(** A candidate who gave no e-mail address and no location. *)
Definition sparse_candidate : CandidateInfo :=
  mkCandidate (lit "Ada Lovelace") [] (lit "555-123-4567")
              (lit "3") (lit "Backend Engineer") []
              [lit "Python"; lit "Docker"].


(** A store whose audit log holds exactly 1000 entries. *)
Definition world_with_full_log : World :=
  mkWorld ∅ ∅
    (Some (File (Json (JDict [(lit "activities",
                               JList (repeat (JInt 0) 1000))]))
                420 noon))
    18 second_clock 0 0.

(** A store on 1 March 2024 with a record of 16 January (45 days old), a
    record of 20 February (10 days old), a record file that is no JSON and
    a record without timestamp. *)
Definition world_with_records : World :=
  mkWorld
    {[ record_name (lit "old") :=
         File (Json (JDict [(lit "session_id", JStr (lit "old"));
                            (lit "timestamp",
                             JStr (lit "2024-01-16T12:00:00"))]))
              384 noon;
       record_name (lit "new") :=
         File (Json (JDict [(lit "session_id", JStr (lit "new"));
                            (lit "timestamp",
                             JStr (lit "2024-02-20T12:00:00"))]))
              384 noon;
       record_name (lit "bad") := File (NotJson (lit "{")) 384 noon;
       record_name (lit "nots") :=
         File (Json (JDict [(lit "session_id", JStr (lit "nots"))]))
              384 noon ]}
    ∅ None 18 second_clock 0 0.

(** A store with one record whose encrypted fields hold [secret]. *)
Definition world_with_secret (secret : pystr) : World :=
  mkWorld
    {[ record_name (lit "s1") :=
         File (Json (JDict
                 [(lit "session_id", JStr (lit "s1"));
                  (lit "timestamp", JStr (lit "2024-02-20T12:00:00"));
                  (lit "candidate_info",
                   JDict [(lit "full_name_encrypted", JStr secret);
                          (lit "email_encrypted", JStr secret);
                          (lit "years_experience", JStr (lit "3"))]);
                  (lit "conversation_history_encrypted", JStr secret)]))
              384 noon ]}
    ∅ None 18 second_clock 0 0.

End Samples.

(** ** Effects of a method, and sequences of audit entries *)

Module Effects.
Import PyText PyTime PyJson Store Handler Views.

(** The computation [m] leaves the part [f] of the state as it found it,
    whether it returns or raises. *)
Definition preserves {A S : Type} (f : World -> S) (m : M A) : Prop :=
  forall w, f (snd (m w)) = f w.

(** A string [str.encode] accepts: every member is a code point and none
    is a surrogate. *)
Definition encodable (x : pystr) : Prop :=
  Forall (fun c => (c < 0xD800 \/ 0xE000 <= c) /\ c < 0x110000)%N x.

(** The entries a sequence of calls of [_log_data_activity] builds, the
    first one at the reading [t] of the clock. *)
Fixpoint entries_from (clk : nat -> datetime) (t : nat) (acts : list activity)
  : list json :=
  match acts with
  | [] => []
  | (a, s, m) :: r => log_entry (clk t) a s m :: entries_from clk (S t) r
  end.

(** The entries of the audit log, none when there is no log file yet. *)
Definition log_list (w : World) : list json := default [] (log_entries w).

(** The log takes entries: there is no log file yet and the umask leaves
    the owner the right to read and write the file that will be created, or
    the log file holds [{"activities": [...]}] and the owner may read and
    write it. *)
Definition log_ready (w : World) : Prop :=
  match activity_log w with
  | None =>
      readable (N.ldiff 438 (umask w)) = true /\
      writable (N.ldiff 438 (umask w)) = true
  | Some _ => is_Some (log_entries w) /\ log_usable w
  end.

(** The [activity] field of an audit entry. *)
Definition activity_of (entry : json) : option json :=
  lookup_in [lit "activity"] entry.

(** The modification time of a directory entry. *)
Definition mtime_of (e : fs_entry) : datetime :=
  match e with
  | File _ _ t => t
  | Dir _ t => t
  end.

(** The export loop of [cleanup_old_data] removes the entry [name] of [m]:
    the name starts with [export_] and the modification time is strictly
    older than the cutoff. *)
Definition old_export (cutoff : datetime) (m : gmap pystr fs_entry)
    (name : pystr) : bool :=
  match m !! name with
  | Some e =>
      startswith name (lit "export_")
      && match dt_lt (mtime_of e) cutoff with
         | Some true => true
         | _ => false
         end
  | None => false
  end.

(** A record file [json.load] cannot give a document for: a directory, a
    file the owner may not read, or text that is no JSON. *)
Definition unloadable (e : fs_entry) : Prop :=
  match e with
  | File (Json _) mode _ => readable mode = false
  | _ => True
  end.

(** The number of messages of the transcript handed to
    [save_candidate_data]. *)
Definition transcript_length (h : option (list json)) : Z :=
  match h with
  | Some l => Z.of_nat (length l)
  | None => 0
  end.

(** The metadata of the SAVE entry [save_candidate_data] logs. *)
Definition save_metadata (ci : CandidateInfo) : json :=
  JDict [(lit "has_personal_info", JBool (truthy (JStr (full_name ci))));
         (lit "has_contact_info", JBool (truthy (JStr (email ci))));
         (lit "tech_stack_count", JInt (Z.of_nat (length (tech_stack ci))))].


(** The document [export_candidate_data] writes. *)
Definition export_doc (exported_at : datetime)
    (session_id export_format : pystr) (personal_information : json)
    (total_messages : Z) (completion_status : json) : json :=
  JDict
    [(lit "export_info",
      JDict [(lit "exported_at", JStr (isoformat exported_at));
             (lit "session_id", JStr session_id);
             (lit "format", JStr export_format);
             (lit "gdpr_compliant", JBool true)]);
     (lit "personal_information", personal_information);
     (lit "conversation_summary",
      JDict [(lit "total_messages", JInt total_messages);
             (lit "completion_status", completion_status)]);
     (lit "privacy_notice",
      JDict [(lit "data_controller",
              JStr (lit "TalentScout Recruitment Agency"));
             (lit "purpose",
              JStr (lit "Initial candidate screening and recruitment"));
             (lit "retention_period", JStr (lit "30 days from collection"));
             (lit "rights",
              JStr (lit
  "You have the right to access, rectify, erase, and port your data"))])].

(** The names [get_privacy_report] counts: every entry of
    [data/encrypted] whose name starts with [candidate_]. *)
Definition report_files (w : World) : list pystr :=
  filter (fun f => startswith f (lit "candidate_") = true)
         (map fst (map_to_list (encrypted_dir w))).

(** The timestamps [get_privacy_report] collects from them. *)
Definition report_dates {LB : Libs} (w : World) : list datetime :=
  omap (fun n => encrypted_dir w !! n ≫= file_date) (report_files w).

(** The entries [get_privacy_report] takes its recent activities from:
    none when there is no log file, the list under [activities] when the
    log file can be read and holds one. *)
Definition recent_source (w : World) : option (list json) :=
  match activity_log w with
  | None => Some []
  | Some (File (Json (JDict kv)) mode _) =>
      if readable mode then
        match dict_get (lit "activities") kv with
        | Some (JList l) => Some l
        | _ => None
        end
      else None
  | Some _ => None
  end.

(** The report [get_privacy_report] returns when nothing raises. *)
Definition report_doc (generated_at : datetime) (records : Z)
    (oldest newest recent : json) : json :=
  JDict
    [(lit "generated_at", JStr (isoformat generated_at));
     (lit "data_summary",
      JDict [(lit "total_records", JInt records);
             (lit "encrypted_records", JInt records);
             (lit "oldest_record", oldest);
             (lit "newest_record", newest)]);
     (lit "compliance_status",
      JDict [(lit "encryption_enabled", JBool true);
             (lit "retention_policy_active", JBool true);
             (lit "audit_logging_enabled", JBool true);
             (lit "gdpr_compliant", JBool true)]);
     (lit "recent_activities", recent)].

(** The fields [datetime._cmp] compares, in its order. *)
Definition cmp_key (d : datetime) : list Z :=
  [year d; month d; day d; hour d; minute d; second d; microsecond d].

(** Comparison of two lists of numbers, the first difference deciding. *)
Fixpoint lex_compare (a b : list Z) : comparison :=
  match a, b with
  | x :: a', y :: b' =>
      match (x ?= y)%Z with
      | Eq => lex_compare a' b'
      | c => c
      end
  | _, _ => Eq
  end.

(** From [w] to [w'] the audit log took the entries [new], in this order,
    and is ready for more. *)
Definition appended (new : list json) (w w' : World) : Prop :=
  log_list w' = last_n 1000 (log_list w ++ new) /\
  log_ready w' /\ log_bounded w'.

End Effects.

(** ** The encryption key and the construction of the handler *)

Module Install.
Import PyText PyTime PyJson Store Handler Views.

(** [data/.encryption_key]: a regular file of bytes with its permission
    bits, or a directory in its place. *)
Inductive key_entry : Type :=
| KeyFile (content : bytes) (mode : N)
| KeyDir.

(** The data directory as the scripts see it: the store the methods of
    [DataHandler] work on, the key file, and the report
    [privacy_maintenance.py] writes.  [data/], [data/encrypted] and
    [data/exports] are directories in every state.  [keys_drawn] counts
    the calls of [Fernet.generate_key]. *)
Record Disk : Type := mkDisk {
  store : World;
  key_file : option key_entry;
  maintenance_report_file : option fs_entry;
  keys_drawn : nat
}.

(** A computation on the data directory. *)
Definition IO (A : Type) : Type := Disk -> result A * Disk.

Definition io_ret {A : Type} (a : A) : IO A := fun d => (Ok a, d).

Definition io_bind {A B : Type} (m : IO A) (k : A -> IO B) : IO B :=
  fun d =>
    match m d with
    | (Ok a, d') => k a d'
    | (Raise e, d') => (Raise e, d')
    end.

Definition io_lift {A : Type} (e : exn) (o : option A) : IO A :=
  fun d =>
    match o with
    | Some a => (Ok a, d)
    | None => (Raise e, d)
    end.

(** A method of [DataHandler], or an operation on values, run on the
    store of the data directory. *)
Definition in_store {A : Type} (m : M A) : IO A :=
  fun d =>
    let (r, w') := m (store d) in
    (r, mkDisk w' (key_file d) (maintenance_report_file d) (keys_drawn d)).

Declare Scope io_scope.
Delimit Scope io_scope with io.
Notation "'let+' x := m 'in' k" := (io_bind m (fun x => k))
  (at level 10, x name, m at level 100, k at level 200, only parsing)
  : io_scope.
Local Open Scope io_scope.

(** The [cryptography] package: [Fernet.generate_key()], by the number of
    the call, and [Fernet(key)], which is [None] for the [ValueError] of a
    key that is not 32 url-safe base64-encoded bytes. *)
Class KeyLib : Type := {
  generate_key : nat -> bytes;
  fernet_of_key : bytes -> option Cipher
}.

(** [os.makedirs(dir, exist_ok=True)] on a directory that exists. *)
Definition os_makedirs (dir : pystr) : IO unit := io_ret tt.

(** [os.path.exists(key_file)] *)
Definition key_file_exists : IO bool :=
  fun d => (Ok (bool_decide (is_Some (key_file d))), d).

(** [with open(key_file, 'rb') as f: return f.read()] *)
Definition read_key_file : IO bytes :=
  fun d =>
    match key_file d with
    | Some (KeyFile content mode) =>
        if readable mode then (Ok content, d) else (Raise OSError, d)
    | Some KeyDir => (Raise OSError, d)
    | None => (Raise OSError, d)
    end.

(** [with open(key_file, 'wb') as f: f.write(key)] *)
Definition write_key_file (key : bytes) : IO unit :=
  fun d =>
    match key_file d with
    | Some (KeyFile _ mode) =>
        if writable mode
        then (Ok tt,
              mkDisk (store d) (Some (KeyFile key mode))
                     (maintenance_report_file d) (keys_drawn d))
        else (Raise OSError, d)
    | Some KeyDir => (Raise OSError, d)
    | None =>
        (Ok tt,
         mkDisk (store d)
                (Some (KeyFile key (N.ldiff 438 (umask (store d)))))
                (maintenance_report_file d) (keys_drawn d))
    end.

(** [os.chmod(key_file, mode)] *)
Definition chmod_key_file (mode : N) : IO unit :=
  fun d =>
    match key_file d with
    | Some (KeyFile content _) =>
        (Ok tt,
         mkDisk (store d) (Some (KeyFile content mode))
                (maintenance_report_file d) (keys_drawn d))
    | Some KeyDir => (Ok tt, d)
    | None => (Raise OSError, d)
    end.

Section DataHandler.
Context {KL : KeyLib}.

(** [Fernet.generate_key()] *)
Definition Fernet_generate_key : IO bytes :=
  fun d =>
    (Ok (generate_key (keys_drawn d)),
     mkDisk (store d) (key_file d) (maintenance_report_file d)
            (S (keys_drawn d))).

(** [_get_or_create_encryption_key] *)
Definition _get_or_create_encryption_key : IO bytes :=
  let+ present := key_file_exists in
  if present then read_key_file
  else
    let+ key := Fernet_generate_key in
    let+ _ := write_key_file key in
    let+ _ := chmod_key_file 384 in
    io_ret key.

(** [DataHandler.__init__] with the default [data_dir]: what it builds is
    the key and the cipher made of it. *)
Definition __init__ : IO (bytes * Cipher) :=
  let+ _ := os_makedirs (lit "data") in
  let+ _ := os_makedirs (lit "data/encrypted") in
  let+ _ := os_makedirs (lit "data/exports") in
  let+ encryption_key := _get_or_create_encryption_key in
  let+ cipher_suite := io_lift ValueError (fernet_of_key encryption_key) in
  io_ret (encryption_key, cipher_suite).

End DataHandler.

End Install.

(** ** [app.py]: the session methods of [HiringAssistant] *)

Module App.
Import PyText PyTime PyJson Store Handler.


Section HiringAssistant.
Context {CS : Cipher} {LB : Libs}.




End HiringAssistant.

End App.

(** ** [scripts/privacy_maintenance.py] *)

Module Maintenance.
Import PyText PyTime PyJson Store Handler Views Install.

Local Open Scope io_scope.

(** [Config]: the setting the script reads. *)
Record Config : Type := mkConfig {
  DATA_RETENTION_DAYS : Z
}.

(** [print(...)]: the values in the text are computed before the call; the
    text goes to the standard output, which is taken to accept it and is
    no part of the state. *)
Definition print (values : list json) : IO unit := io_ret tt.

(** [with open('data/maintenance_report.json', 'w') as f:
       json.dump(v, f, indent=2)] *)
Definition dump_maintenance_report (v : json) : IO unit :=
  fun d =>
    match maintenance_report_file d with
    | Some (File _ mode _) =>
        if writable mode
        then (Ok tt,
              mkDisk (store d) (key_file d)
                     (Some (File (Json v) mode (fs_time (store d))))
                     (keys_drawn d))
        else (Raise OSError, d)
    | Some (Dir _ _) => (Raise OSError, d)
    | None =>
        (Ok tt,
         mkDisk (store d) (key_file d)
                (Some (File (Json v) (N.ldiff 438 (umask (store d)))
                            (fs_time (store d))))
                (keys_drawn d))
    end.

Section Main.
Context {LB : Libs} {KL : KeyLib}.

(** [main] *)
Definition main (config : Config) : IO unit :=
  let+ _ := print [] in
  let+ _ := print [] in
  let+ data_handler := __init__ in
  let+ _ := print [] in
  let+ report := in_store get_privacy_report in
  let+ summary := in_store (getitem report (lit "data_summary")) in
  let+ total_records := in_store (getitem summary (lit "total_records")) in
  let+ _ := print [total_records] in
  let+ summary := in_store (getitem report (lit "data_summary")) in
  let+ encrypted_records :=
    in_store (getitem summary (lit "encrypted_records")) in
  let+ _ := print [encrypted_records] in
  let+ summary := in_store (getitem report (lit "data_summary")) in
  let+ oldest_record := in_store (getitem summary (lit "oldest_record")) in
  let+ _ :=
    (if truthy oldest_record then
       let+ summary := in_store (getitem report (lit "data_summary")) in
       let+ oldest_record :=
         in_store (getitem summary (lit "oldest_record")) in
       print [oldest_record]
     else io_ret tt) in
  let+ _ := print [JInt (DATA_RETENTION_DAYS config)] in
  let+ deleted_count :=
    in_store (cleanup_old_data (DATA_RETENTION_DAYS config)) in
  let+ _ := print [JInt deleted_count] in
  let+ now := in_store datetime_now in
  let maintenance_report :=
    JDict [(lit "maintenance_date", JStr (isoformat now));
           (lit "deleted_records", JInt deleted_count);
           (lit "privacy_report", report)] in
  let+ _ := dump_maintenance_report maintenance_report in
  let+ _ := print [] in
  print [].

End Main.

End Maintenance.

(** ** More sample states *)

Module MoreSamples.
Import PyText PyTime PyJson Store Handler Views Effects Install App
  Maintenance Samples.

(** A store whose audit log was cut off in the middle of a write. *)
Definition world_with_corrupt_log : World :=
  mkWorld ∅ ∅ (Some (File (NotJson (lit "{")) 420 noon)) 18 second_clock 0 0.

(** A candidate whose e-mail address holds a lone surrogate. *)
Definition surrogate_email_candidate : CandidateInfo :=
  mkCandidate (lit "Ada Lovelace") [0xD800%N] (lit "555-123-4567")
              (lit "3") (lit "Backend Engineer") (lit "London")
              [lit "Python"; lit "Docker"].

(** A transcript of one message. *)
Definition sample_transcript : list json :=
  [JDict [(lit "role", JStr (lit "user")); (lit "content", JStr (lit "hi"))]].

(** Library doubles as [sample_libs], with a serializer that writes the
    transcript above for a list that is not empty, and reads it back. *)
Definition transcript_libs : Libs := {|
  sha256_hexdigest b := zpad 64 (Z.of_nat (length b));
  fromisoformat := iso_basic;
  json_dumps v :=
    match v with
    | JList (_ :: _) => lit "[{'role': 'user', 'content': 'hi'}]"
    | _ => lit "[]"
    end;
  json_loads s :=
    if decide (s = lit "[{'role': 'user', 'content': 'hi'}]")
    then Some (JList sample_transcript)
    else if decide (s = lit "[]") then Some (JList []) else None;
  str_of_exn e := lit "error"
|}.

(** Sessions [s1] and [s1_b], each with a record and an export. *)
Definition world_with_nested_ids : World :=
  mkWorld
    {[ record_name (lit "s1") :=
         File (Json (JDict [(lit "session_id", JStr (lit "s1"));
                            (lit "timestamp",
                             JStr (lit "2024-03-01T12:00:00"))]))
              384 noon;
       record_name (lit "s1_b") :=
         File (Json (JDict [(lit "session_id", JStr (lit "s1_b"));
                            (lit "timestamp",
                             JStr (lit "2024-03-01T12:00:00"))]))
              384 noon ]}
    {[ export_name (lit "s1") (lit "20240301_120000") :=
         File (Json (JDict [])) 420 noon;
       export_name (lit "s1_b") (lit "20240301_120000") :=
         File (Json (JDict [])) 420 noon ]}
    None 18 second_clock 0 0.

(** A directory where the record of session [s1] should be. *)
Definition world_with_record_dir : World :=
  mkWorld {[ record_name (lit "s1") := Dir 493 noon ]} ∅ None 18
          second_clock 0 0.

(** 1 January 2024, noon. *)
Definition new_year : datetime := mkdt 2024 1 1 12 0 0 0 None.

(** A store on 1 March 2024 whose export area holds an export written on
    1 January, an export written today, and a file of another name
    written on 1 January. *)
Definition world_with_old_exports : World :=
  mkWorld ∅
    {[ export_name (lit "a") (lit "20240101_120000") :=
         File (Json (JDict [])) 420 new_year;
       export_name (lit "b") (lit "20240301_120000") :=
         File (Json (JDict [])) 420 noon;
       lit "notes.txt" := File (NotJson (lit "keep")) 420 new_year ]}
    None 18 second_clock 0 0.

(** A store on 1 March 2024 with one record file that is no JSON, under a
    name [os.listdir] could not decode (the byte 0xFF, listed as U+DCFF),
    and an export written on 1 January. *)
Definition world_with_undecodable_name : World :=
  mkWorld
    {[ lit "candidate_" ++ [0xDCFF%N] ++ lit ".json" :=
         File (NotJson (lit "{")) 384 noon ]}
    {[ export_name (lit "a") (lit "20240101_120000") :=
         File (Json (JDict [])) 420 new_year ]}
    None 18 second_clock 0 0.

(** A stand-in for the [cryptography] package: the keys drawn are 44
    bytes that tell the number of the call, and [Fernet] takes any key of
    44 bytes. *)
#[global] Instance sample_keys : KeyLib := {|
  generate_key n := repeat (byte_of (65 + N.of_nat n mod 26)) 44;
  fernet_of_key k :=
    if (length k =? 44)%nat then Some sample_cipher else None
|}.

(** A data directory before the first start: nothing stored, no key. *)
Definition fresh_disk : Disk :=
  mkDisk (empty_world second_clock) None None 0.

(** A data directory whose key file was left empty. *)
Definition disk_with_empty_key : Disk :=
  mkDisk (empty_world second_clock) (Some (KeyFile [] 384)) None 0.

(** A data directory with a key, the records of the sweep scenario, and no
    audit log yet. *)
Definition disk_with_records : Disk :=
  mkDisk world_with_records
         (Some (KeyFile (repeat (byte_of 65) 44) 384)) None 1.

(** A data directory with a key, the records of the sweep scenario, and an
    audit log that is no JSON. *)
Definition disk_with_corrupt_log : Disk :=
  mkDisk (mkWorld (encrypted_dir world_with_records) ∅
                  (Some (File (NotJson (lit "{")) 420 noon)) 18 second_clock
                  0 0)
         (Some (KeyFile (repeat (byte_of 65) 44) 384)) None 1.


End MoreSamples.

(** ** Facts about text and bytes *)

Module PyTextFacts.
Import PyText.

Local Open Scope N_scope.

Lemma byte_of_to_N (b : byte) : byte_of (Byte.to_N b) = b.
Proof. unfold byte_of. now rewrite Byte.of_to_N. Qed.

Lemma to_N_byte_of (n : N) : n < 256 -> Byte.to_N (byte_of n) = n.
Proof.
  intros Hn. unfold byte_of.
  destruct (Byte.of_N n) as [b|] eqn:E.
  - simpl. now apply Byte.to_of_N.
  - apply Byte.of_N_None_iff in E. lia.
Qed.

Lemma to_N_lt_256 (b : byte) : Byte.to_N b < 256.
Proof. pose proof (Byte.to_N_bounded b). lia. Qed.

(** Decide every comparison in the goal from the arithmetic context. *)
Ltac decide_tests :=
  repeat match goal with
  | |- context [?a <? ?b] =>
      destruct (N.ltb_spec a b); try lia
  | |- context [?a <=? ?b] =>
      destruct (N.leb_spec a b); try lia
  | |- context [?a =? ?b] =>
      destruct (N.eqb_spec a b); try lia
  end.

Lemma bytes_decode_cp (c : N) (cb rest : bytes) :
  utf8_encode_cp c = Some cb ->
  bytes_decode (cb ++ rest) = cons_cp c (bytes_decode rest).
Proof.
  unfold utf8_encode_cp.
  destruct (N.ltb_spec c 0x80).
  { intros [= <-]. cbn [app bytes_decode].
    rewrite to_N_byte_of by lia. decide_tests. reflexivity. }
  destruct (N.ltb_spec c 0x800).
  { intros [= <-]. cbn [app bytes_decode]. unfold is_cont.
    rewrite !to_N_byte_of by lia. decide_tests. cbn [andb].
    f_equal. lia. }
  destruct (N.ltb_spec c 0x10000).
  { destruct (N.leb_spec 0xD800 c); destruct (N.ltb_spec c 0xE000);
      cbn [andb]; try discriminate;
      intros [= <-]; cbn [app bytes_decode]; unfold is_cont;
      rewrite !to_N_byte_of by lia;
      replace ((0xE0 + c / 4096 - 0xE0) * 4096
               + (0x80 + (c / 64) mod 64 - 0x80) * 64
               + (0x80 + c mod 64 - 0x80)) with c by lia;
      decide_tests; reflexivity. }
  destruct (N.ltb_spec c 0x110000); [|discriminate].
  intros [= <-]. cbn [app bytes_decode]. unfold is_cont.
  rewrite !to_N_byte_of by lia.
  replace ((0xF0 + c / 262144 - 0xF0) * 262144
           + (0x80 + (c / 4096) mod 64 - 0x80) * 4096
           + (0x80 + (c / 64) mod 64 - 0x80) * 64
           + (0x80 + c mod 64 - 0x80)) with c by lia.
  decide_tests. reflexivity.
Qed.

(** [s.encode().decode() == s] whenever [s.encode()] does not raise. *)
Lemma bytes_decode_str_encode (s : pystr) (b : bytes) :
  str_encode s = Some b -> bytes_decode b = Some s.
Proof.
  revert b. induction s as [|c s IH]; intros b.
  - intros [= <-]. reflexivity.
  - cbn [str_encode].
    destruct (utf8_encode_cp c) as [cb|] eqn:Ec; [|discriminate].
    destruct (str_encode s) as [r|]; [|discriminate].
    intros [= <-]. rewrite (bytes_decode_cp _ _ _ Ec), (IH r eq_refl).
    reflexivity.
Qed.

(** ASCII bytes decode to the code points of the same values, and those
    encode back to the same bytes. *)
Lemma bytes_decode_ascii (b : bytes) :
  ascii_bytes b -> bytes_decode b = Some (map Byte.to_N b).
Proof.
  induction 1 as [|x b Hx _ IH]; [reflexivity|].
  cbn [bytes_decode map]. decide_tests. now rewrite IH.
Qed.

Lemma str_encode_ascii (b : bytes) :
  ascii_bytes b -> str_encode (map Byte.to_N b) = Some b.
Proof.
  induction 1 as [|x b Hx _ IH]; [reflexivity|].
  cbn [str_encode map]. rewrite IH. unfold utf8_encode_cp.
  decide_tests. now rewrite byte_of_to_N.
Qed.

Lemma b64_char_ascii (i : N) : Byte.to_N (b64_char i) < 128.
Proof.
  unfold b64_char. decide_tests; rewrite to_N_byte_of by lia; lia.
Qed.

Lemma b64_value_char (i : N) : i < 64 -> b64_value (b64_char i) = Some i.
Proof.
  intros Hi. unfold b64_char.
  decide_tests; unfold b64_value; rewrite !to_N_byte_of by lia;
    decide_tests; cbn [andb]; f_equal; lia.
Qed.

Lemma b64_char_not_pad (i : N) : (Byte.to_N (b64_char i) =? 61) = false.
Proof.
  unfold b64_char.
  destruct (N.ltb_spec i 26); [|destruct (N.ltb_spec i 52);
    [|destruct (N.ltb_spec i 62); [|destruct (N.eqb_spec i 62)]]];
    rewrite to_N_byte_of by lia; apply N.eqb_neq; lia.
Qed.

Lemma b64encode_ascii (b : bytes) : ascii_bytes (b64encode b).
Proof.
  assert (Hpad : Byte.to_N b64_pad < 128) by (vm_compute; reflexivity).
  assert (H : forall n (b : bytes), (length b < n)%nat -> ascii_bytes (b64encode b)).
  { induction n as [|n IH]; intros b' Hlen; [lia|].
    destruct b' as [|a0 [|a1 [|a2 rest]]]; cbn [b64encode].
    - constructor.
    - repeat constructor; auto using b64_char_ascii.
    - repeat constructor; auto using b64_char_ascii.
    - repeat (constructor; [apply b64_char_ascii|]).
      apply IH. cbn [length] in Hlen. lia. }
  apply (H (S (length b))). lia.
Qed.

(** One full quad decodes to the three bytes it was made from. *)
Lemma a2b_loop_quad (a0 a1 a2 : byte) (rest out : bytes) :
  let x := Byte.to_N a0 in
  let y := Byte.to_N a1 in
  let z := Byte.to_N a2 in
  a2b_loop (b64_char (x / 4) :: b64_char ((x mod 4) * 16 + y / 16)
            :: b64_char ((y mod 16) * 4 + z / 64) :: b64_char (z mod 64)
            :: rest) 0 0 0 out
  = a2b_loop rest 0 0 0 (out ++ [a0; a1; a2]).
Proof.
  intros x y z.
  pose proof (to_N_lt_256 a0). pose proof (to_N_lt_256 a1).
  pose proof (to_N_lt_256 a2).
  cbn [a2b_loop]. rewrite !b64_char_not_pad.
  rewrite !b64_value_char by (subst x y z; lia).
  cbn [N.eqb Pos.eqb].
  replace (x / 4 * 4 + ((x mod 4) * 16 + y / 16) / 16) with x by lia.
  replace (((x mod 4) * 16 + y / 16) mod 16 * 16
           + ((y mod 16) * 4 + z / 64) / 4) with y by lia.
  replace (((y mod 16) * 4 + z / 64) mod 4 * 64 + z mod 64) with z by lia.
  subst x y z. rewrite !byte_of_to_N, <- !app_assoc. reflexivity.
Qed.

Lemma a2b_loop_encode (n : nat) (b out : bytes) :
  (length b < n)%nat ->
  a2b_loop (b64encode b) 0 0 0 out = Some (out ++ b).
Proof.
  revert b out. induction n as [|n IH]; intros b out Hlen; [lia|].
  destruct b as [|a0 [|a1 [|a2 rest]]].
  - cbn. now rewrite app_nil_r.
  - pose proof (to_N_lt_256 a0).
    cbn [b64encode a2b_loop]. rewrite !b64_char_not_pad.
    rewrite !b64_value_char by lia. cbn [N.eqb Pos.eqb].
    replace (Byte.to_N a0 / 4 * 4 + (Byte.to_N a0 mod 4) * 16 / 16)
      with (Byte.to_N a0) by lia.
    rewrite byte_of_to_N. reflexivity.
  - pose proof (to_N_lt_256 a0). pose proof (to_N_lt_256 a1).
    cbn [b64encode a2b_loop]. rewrite !b64_char_not_pad.
    rewrite !b64_value_char by lia. cbn [N.eqb Pos.eqb].
    replace (Byte.to_N a0 / 4 * 4
             + ((Byte.to_N a0 mod 4) * 16 + Byte.to_N a1 / 16) / 16)
      with (Byte.to_N a0) by lia.
    replace (((Byte.to_N a0 mod 4) * 16 + Byte.to_N a1 / 16) mod 16 * 16
             + (Byte.to_N a1 mod 16) * 4 / 4)
      with (Byte.to_N a1) by lia.
    rewrite !byte_of_to_N, <- app_assoc. reflexivity.
  - cbn [b64encode]. rewrite a2b_loop_quad.
    rewrite IH by (cbn [length] in Hlen; lia).
    now rewrite <- app_assoc.
Qed.

(** [b64decode(b64encode(b)) == b] *)
Lemma b64decode_b64encode (b : bytes) : b64decode (b64encode b) = Some b.
Proof.
  unfold b64decode. now rewrite (a2b_loop_encode (S (length b))) by lia.
Qed.

End PyTextFacts.

(** ** Encryption and decryption of one field *)

Module CryptoFacts.
Import PyText PyTime PyJson Store Handler Views PyTextFacts Samples.

Section WithCipher.
Context {CS : Cipher}.

(** [_encrypt_data] always returns: the token text, or its argument. *)
Lemma _encrypt_data_run (x : pystr) (w : World) :
  _encrypt_data x w = (Ok (enc_text (nonce w) x), after_encrypt x w).
Proof.
  unfold _encrypt_data, enc_text, after_encrypt, try_except, bind, lift.
  destruct (str_encode x) as [raw|]; cbn; [|reflexivity].
  rewrite (bytes_decode_ascii _ (b64encode_ascii _)). reflexivity.
Qed.

(** [_decrypt_data] never raises and leaves the state alone. *)
Lemma _decrypt_data_total (v : json) (w : World) :
  exists v', _decrypt_data v w = (Ok v', w).
Proof.
  unfold _decrypt_data, cipher_suite_decrypt, try_except, bind, lift, as_str.
  destruct v; cbn; eauto.
  destruct (str_encode s); cbn; eauto.
  destruct (b64decode l); cbn; eauto.
  destruct (fernet_decrypt l0); cbn; eauto.
  destruct (bytes_decode l1); cbn; eauto.
Qed.

(** Decrypting what [_encrypt_data] returned gives the field back, also when
    encryption had failed and returned the field itself. *)
Lemma _decrypt_enc_text `{!FernetInverse CS} (iv : nat) (x : pystr)
    (w : World) :
  _decrypt_data (JStr (enc_text iv x)) w = (Ok (JStr x), w).
Proof.
  unfold _decrypt_data, cipher_suite_decrypt, enc_text, try_except, bind,
    lift, as_str.
  destruct (str_encode x) as [raw|] eqn:E; cbn.
  - rewrite (str_encode_ascii _ (b64encode_ascii _)). cbn.
    rewrite b64decode_b64encode. cbn.
    rewrite fernet_inverse. cbn.
    rewrite (bytes_decode_str_encode _ _ E). reflexivity.
  - rewrite E. reflexivity.
Qed.

(** C7.  With the key fixed, [_decrypt_data(_encrypt_data(x))] is [x]: for
    every string [x], the empty one included, [_encrypt_data] returns some
    text [c], and [_decrypt_data] maps [c] back to [x] in whatever state it
    is called. *)
Theorem decrypt_encrypt_identity `{!FernetInverse CS} (x : pystr)
    (w : World) :
  exists c w1,
    _encrypt_data x w = (Ok c, w1) /\
    forall w2, _decrypt_data (JStr c) w2 = (Ok (JStr x), w2).
Proof.
  exists (enc_text (nonce w) x), (after_encrypt x w). split.
  - apply _encrypt_data_run.
  - intros w2. apply _decrypt_enc_text.
Qed.

End WithCipher.

Lemma mask_mask (b : byte) : mask (mask b) = b.
Proof. destruct b; reflexivity. Qed.

(** The stand-in cipher obeys the law assumed of [Fernet]. *)
Lemma sample_cipher_inverse : FernetInverse sample_cipher.
Proof.
  split.
  - intros iv m. cbn [fernet_encrypt fernet_decrypt sample_cipher].
    change (Byte.to_N (byte_of 128) =? 128)%N with true. cbv iota.
    f_equal. induction m as [|b m IH]; [reflexivity|].
    cbn [map]. now rewrite mask_mask, IH.
  - intros iv m. cbn. discriminate.
Qed.

(** C7 at an e-mail address, with the stand-in cipher. *)
Lemma decrypt_encrypt_identity_witness :
  FernetInverse sample_cipher /\
  exists c w1,
    _encrypt_data (lit "a@b.com") (empty_world second_clock) = (Ok c, w1) /\
    forall w2, _decrypt_data (JStr c) w2 = (Ok (JStr (lit "a@b.com")), w2).
Proof.
  split; [exact sample_cipher_inverse|].
  exact (@decrypt_encrypt_identity sample_cipher sample_cipher_inverse
           (lit "a@b.com") (empty_world second_clock)).
Defined.

End CryptoFacts.

(** ** The audit log *)

Module LogFacts.
Import PyText PyTime PyJson Store Handler Views Samples.

Lemma dict_get_set_eq (k : pystr) (v : json) (kv : list (pystr * json)) :
  dict_get k (dict_set k v kv) = Some v.
Proof.
  induction kv as [|[k' v'] r IH]; cbn.
  - now rewrite decide_True.
  - destruct (decide (k = k')); cbn.
    + now rewrite decide_True.
    + now rewrite decide_False.
Qed.

Lemma dict_get_set_ne (k k' : pystr) (v : json) (kv : list (pystr * json)) :
  k <> k' -> dict_get k (dict_set k' v kv) = dict_get k kv.
Proof.
  intros Hne. induction kv as [|[k0 v0] r IH]; cbn.
  - now rewrite decide_False.
  - destruct (decide (k' = k0)) as [->|]; cbn.
    + now rewrite !decide_False.
    + destruct (decide (k = k0)); [reflexivity|apply IH].
Qed.

Lemma dict_set_set (k : pystr) (v1 v2 : json) (kv : list (pystr * json)) :
  dict_set k v2 (dict_set k v1 kv) = dict_set k v2 kv.
Proof.
  induction kv as [|[k' v'] r IH]; cbn.
  - now rewrite decide_True.
  - destruct (decide (k = k')); cbn.
    + now rewrite decide_True.
    + rewrite decide_False by assumption. now rewrite IH.
Qed.

Lemma last_n_all {A : Type} (n : nat) (l : list A) :
  (length l <= n)%nat -> last_n n l = l.
Proof.
  intros H. unfold last_n. replace (length l - n)%nat with 0%nat by lia.
  reflexivity.
Qed.

Lemma length_last_n {A : Type} (n : nat) (l : list A) :
  (length (last_n n l) <= n)%nat.
Proof. unfold last_n. rewrite length_drop. lia. Qed.

Lemma last_n_snoc_full {A : Type} (n : nat) (l : list A) (x : A) :
  (0 < n)%nat -> length l = n -> last_n n (l ++ [x]) = drop 1 l ++ [x].
Proof.
  intros Hn H. unfold last_n. rewrite length_app. cbn [length].
  replace (length l + 1 - n)%nat with 1%nat by lia.
  destruct l; [cbn in H; lia|reflexivity].
Qed.

(** Reduce the projections of an explicit state. *)
Ltac wsimpl :=
  cbn [encrypted_dir exports_dir activity_log umask clock ticks nonce].

(** Make every state of the goal an explicit record. *)
Ltac wexpand :=
  unfold tick, bump_nonce, with_exports, with_encrypted, set_path,
    lookup_path, fs_time;
  cbv beta iota zeta; wsimpl.

(** Reduce the matches that became decided. *)
Ltac msimpl := cbv beta iota zeta; wsimpl.

(** Unfold the monad and the operations on values. *)
Ltac mrun :=
  unfold getitem, setitem, get, append, len, slice_last, as_str, copy,
    contains;
  unfold lift; unfold bind, try_except; unfold ret, raise;
  msimpl.

(** [_log_data_activity] never raises; it takes one reading of the clock and
    touches nothing but the log file. *)
Lemma _log_data_activity_run (a : pystr) (s m : json) (w : World) :
  _log_data_activity a s m w
  = (Ok tt,
     set_path ActivityLog
       (log_step (log_entry (clock w (ticks w)) a s m) (tick w)) (tick w)).
Proof.
  unfold _log_data_activity, datetime_now, os_path_exists, load_json,
    dump_json, log_step, fs_time.
  mrun. unfold tick, set_path, lookup_path. msimpl.
  fold (log_entry (clock w (ticks w)) a s m).
  set (entry := log_entry _ a s m).
  destruct (activity_log w) as [[c mode t|mode t]|] eqn:Elog.
  - rewrite bool_decide_eq_true_2 by eauto. msimpl.
    destruct c as [raw|v].
    { now destruct (readable mode). }
    destruct v as [| | | | |kv]; try now destruct (readable mode).
    destruct (dict_get (lit "activities") kv) as [acts|] eqn:Eacts;
      [|destruct (readable mode); msimpl; now rewrite ?Eacts].
    destruct acts as [| | | |l|];
      try (destruct (readable mode); msimpl; now rewrite ?Eacts).
    destruct (readable mode); [|reflexivity].
    msimpl. rewrite Eacts. cbn [andb]. msimpl.
    destruct (1000 <? Z.of_nat (length (l ++ [entry])))%Z eqn:Elen; msimpl.
    + rewrite dict_set_set. now destruct (writable mode).
    + apply Z.ltb_ge in Elen. rewrite last_n_all by lia.
      now destruct (writable mode).
  - rewrite bool_decide_eq_true_2 by eauto. reflexivity.
  - rewrite bool_decide_eq_false_2 by (intros [? [=]]). msimpl.
    cbn [dict_get dict_set app]. rewrite !decide_True by reflexivity.
    msimpl.
    cbn [dict_set app length]. rewrite !decide_True by reflexivity.
    reflexivity.
Qed.

(** After a successful append the log is the old one with the entry added,
    cut to its last 1000 entries. *)
Lemma log_entries_appended (a : pystr) (s m : json) (w : World)
    (l : list json) :
  log_entries w = Some l -> log_usable w ->
  log_entries (snd (_log_data_activity a s m w))
  = Some (last_n 1000 (l ++ [log_entry (clock w (ticks w)) a s m])).
Proof.
  intros Hl Hu. rewrite _log_data_activity_run. cbn [snd].
  unfold log_entries, log_usable, log_step in *.
  cbn [set_path activity_log tick] in *.
  destruct (activity_log w) as [[[raw|[| | | | |kv]] mode t|mode t]|];
    try discriminate.
  destruct (dict_get (lit "activities") kv) as [[| | | |l0|]|];
    try discriminate.
  injection Hl as ->. destruct Hu as [-> ->]. cbn [andb].
  now rewrite dict_get_set_eq.
Qed.

(** One call keeps the bound. *)
Lemma log_bounded_step (a : pystr) (s m : json) (w : World) :
  log_bounded w -> log_bounded (snd (_log_data_activity a s m w)).
Proof.
  intros Hb l. rewrite _log_data_activity_run. cbn [snd].
  specialize (Hb l). revert Hb.
  unfold log_entries, log_step. cbn [set_path activity_log tick].
  destruct (activity_log w) as [[[raw|[| | | | |kv]] mode t|mode t]|];
    try (intros _; discriminate); try (intros Hb; exact Hb).
  - destruct (dict_get (lit "activities") kv) as [[| | | |l0|]|] eqn:E;
      try (rewrite E; intros Hb; exact Hb).
    destruct (readable mode && writable mode).
    + rewrite dict_get_set_eq. intros _ [= <-]. apply length_last_n.
    + rewrite E. intros Hb; exact Hb.
  - intros _. cbn [dict_get]. rewrite decide_True by reflexivity.
    intros [= <-]. cbn. lia.
Qed.

Lemma log_bounded_all (acts : list activity) (w : World) :
  log_bounded w -> log_bounded (log_all acts w).
Proof.
  revert w. induction acts as [|[[a s] m] r IH]; intros w Hb; [exact Hb|].
  cbn [log_all]. apply IH, log_bounded_step, Hb.
Qed.

(** C4.  The audit log never holds more than 1000 entries.  Starting from a
    log within the bound, every sequence of logged activities leaves it
    within the bound; and appending to a log of exactly 1000 entries leaves
    exactly 1000: the oldest entry is gone and the new one is the last. *)
Theorem audit_log_capped (acts : list activity) (w : World) :
  log_bounded w ->
  let w' := log_all acts w in
  log_bounded w' /\
  forall (a : pystr) (s m : json) (l : list json),
    log_entries w' = Some l -> length l = 1000%nat -> log_usable w' ->
    let entry := log_entry (clock w' (ticks w')) a s m in
    let l' := drop 1 l ++ [entry] in
    log_entries (snd (_log_data_activity a s m w')) = Some l' /\
    length l' = 1000%nat /\ last l' = Some entry.
Proof.
  intros Hb w'. split; [now apply log_bounded_all|].
  intros a s m l Hl Hlen Hu entry l'.
  rewrite (log_entries_appended a s m w' l Hl Hu).
  fold entry. rewrite last_n_snoc_full by (auto; lia).
  split; [reflexivity|]. split.
  - subst l'. rewrite length_app, length_drop. cbn [length]. lia.
  - subst l'. apply last_snoc.
Qed.

(** C4 at a log of exactly 1000 entries. *)
Lemma audit_log_capped_witness :
  log_bounded world_with_full_log /\
  let w' := log_all [] world_with_full_log in
  log_bounded w' /\
  forall (a : pystr) (s m : json) (l : list json),
    log_entries w' = Some l -> length l = 1000%nat -> log_usable w' ->
    let entry := log_entry (clock w' (ticks w')) a s m in
    let l' := drop 1 l ++ [entry] in
    log_entries (snd (_log_data_activity a s m w')) = Some l' /\
    length l' = 1000%nat /\ last l' = Some entry.
Proof.
  assert (Hb : log_bounded world_with_full_log).
  { intros l H. vm_compute in H. injection H as <-. vm_compute. lia. }
  split; [exact Hb|].
  exact (audit_log_capped [] world_with_full_log Hb).
Defined.

End LogFacts.

(** ** Erasure *)

Module DeleteFacts.
Import PyText PyTime PyJson Store Handler Views LogFacts Samples.

Lemma purge_lookup (sel : pystr -> bool) (names : list pystr)
    (m : gmap pystr fs_entry) (k : pystr) :
  purge sel names m !! k
  = if decide (k ∈ names /\ sel k = true) then None else m !! k.
Proof.
  revert m. induction names as [|n r IH]; intros m.
  - cbn [purge]. rewrite decide_False; [reflexivity|].
    intros [H _]. inversion H.
  - cbn [purge]. rewrite IH.
    destruct (decide (k ∈ r /\ sel k = true)) as [[Hin Hs]|Hn].
    + rewrite decide_True; [reflexivity|]. split; [now right|assumption].
    + destruct (decide (k = n)) as [->|Hne].
      * destruct (sel n) eqn:Es.
        -- rewrite lookup_delete_eq. rewrite decide_True; [reflexivity|].
           split; [left|reflexivity].
        -- rewrite decide_False; [reflexivity|]. intros [_ H]. congruence.
      * rewrite decide_False.
        -- destruct (sel n); [now rewrite lookup_delete_ne|reflexivity].
        -- intros [Hin Hs]. apply elem_of_cons in Hin as [?|?]; tauto.
Qed.

(** The names a directory lists are its keys, each once. *)
Lemma listing_NoDup (m : gmap pystr fs_entry) :
  NoDup (map fst (map_to_list m)).
Proof. apply (NoDup_fst_map_to_list m). Qed.

Lemma listing_elem (m : gmap pystr fs_entry) (n : pystr) :
  n ∈ map fst (map_to_list m) <-> is_Some (m !! n).
Proof.
  rewrite list_elem_of_fmap. split.
  - intros [[k e] [-> H]]. apply elem_of_map_to_list in H. eauto.
  - intros [e H]. exists (n, e). split; [reflexivity|].
    now apply elem_of_map_to_list.
Qed.

(** The export loop of [delete_candidate_data] touches [data/exports]
    only. *)
Lemma remove_exports_frame (sid : pystr) (names : list pystr) (w : World) :
  encrypted_dir (snd (for_each names (remove_export sid) w))
  = encrypted_dir w /\
  activity_log (snd (for_each names (remove_export sid) w)) = activity_log w.
Proof.
  revert w. induction names as [|n r IH]; intros w; [now cbn|].
  cbn [for_each]. unfold bind, remove_export at 1 3.
  destruct (startswith n (export_pattern sid)).
  - unfold os_remove. cbn [lookup_path].
    destruct (exports_dir w !! n) as [[c mode t|mode t]|]; cbn [snd];
      try (split; reflexivity).
    destruct (IH (set_path (Exports n) None w)) as [H1 H2].
    split; [rewrite H1|rewrite H2]; reflexivity.
  - unfold ret at 1 2. apply IH.
Qed.

(** The loop removes every export of the session when all of them are
    regular files. *)
Lemma remove_exports_ok (sid : pystr) (names : list pystr) (w : World) :
  NoDup names ->
  (forall n, n ∈ names -> is_export_of sid n = true ->
     exists c mode t, exports_dir w !! n = Some (File c mode t)) ->
  for_each names (remove_export sid) w
  = (Ok tt, with_exports (purge (is_export_of sid) names (exports_dir w)) w).
Proof.
  revert w. induction names as [|n r IH]; intros w Hnd Hf.
  - cbn. unfold ret. now destruct w.
  - apply NoDup_cons in Hnd as [Hn Hnd].
    cbn [for_each purge]. unfold bind, remove_export at 1.
    fold (is_export_of sid n).
    destruct (is_export_of sid n) eqn:Es.
    + destruct (Hf n) as (c & mode & t & E); [now left|assumption|].
      unfold os_remove. cbn [lookup_path]. rewrite E.
      rewrite IH; [reflexivity|assumption|].
      intros k Hk Hs. cbn [set_path exports_dir].
      rewrite lookup_delete_ne by (intros ->; contradiction).
      apply Hf; [now right|assumption].
    + unfold ret at 1. rewrite IH; [reflexivity|assumption|].
      intros k Hk Hs. apply Hf; [now right|assumption].
Qed.

(** The loop raises when one export of the session cannot be removed. *)
Lemma remove_exports_fail (sid : pystr) (names : list pystr) (w : World)
    (n : pystr) (mode : N) (t : datetime) :
  n ∈ names -> is_export_of sid n = true ->
  exports_dir w !! n = Some (Dir mode t) ->
  exists e w', for_each names (remove_export sid) w = (Raise e, w').
Proof.
  revert w. induction names as [|n0 r IH]; intros w Hin Hs Hd.
  - inversion Hin.
  - cbn [for_each]. unfold bind, remove_export at 1.
    fold (is_export_of sid n0).
    destruct (decide (n = n0)) as [<-|Hne].
    + rewrite Hs. unfold os_remove. cbn [lookup_path]. rewrite Hd. eauto.
    + apply elem_of_cons in Hin as [?|Hin]; [contradiction|].
      destruct (is_export_of sid n0).
      * unfold os_remove. cbn [lookup_path].
        destruct (exports_dir w !! n0) as [[c m0 t0|m0 t0]|]; eauto.
        destruct (IH (set_path (Exports n0) None w)) as (e & w' & E);
          [assumption|assumption| |].
        { cbn [set_path exports_dir]. now rewrite lookup_delete_ne. }
        rewrite E. eauto.
      * unfold ret at 1. now apply IH.
Qed.

(** [delete_candidate_data] when the record file is there: the DELETE entry
    is logged, the record removed, then the exports; the result tells
    whether the export loop came through. *)
Lemma delete_present (sid reason : pystr) (w : World) (c : fcontent)
    (mode : N) (t : datetime) :
  encrypted_dir w !! record_name sid = Some (File c mode t) ->
  delete_candidate_data sid reason w
  = let w1 := snd (_log_data_activity (lit "DELETE") (JStr sid)
                     (JDict [(lit "reason", JStr reason)]) w) in
    let w2 := set_path (Encrypted (record_name sid)) None w1 in
    match for_each (map fst (map_to_list (exports_dir w)))
                   (remove_export sid) w2 with
    | (Ok _, w3) => (Ok true, w3)
    | (Raise _, w3) => (Ok false, w3)
    end.
Proof.
  intros E. unfold delete_candidate_data, os_path_exists, listdir_exports,
    os_remove.
  mrun. wexpand. rewrite E.
  rewrite bool_decide_eq_true_2 by eauto. msimpl.
  rewrite _log_data_activity_run. cbn [snd]. wexpand. rewrite E. msimpl.
  destruct (for_each _ _ _) as [[[]|e] w3]; reflexivity.
Qed.

Lemma not_all_files (sel : pystr -> bool) (m : gmap pystr fs_entry) :
  ~ all_files sel m ->
  exists n mode t, m !! n = Some (Dir mode t) /\ sel n = true.
Proof.
  intros H. apply map_not_Forall in H; [|apply _].
  destruct H as (n & e & Hn & Hp).
  destruct (sel n) eqn:Es; [|exfalso; apply Hp; discriminate].
  destruct e as [c mode t|mode t]; [exfalso; now apply Hp|].
  eauto.
Qed.

(** The result of [delete_candidate_data] when the record file is there. *)
Lemma delete_present_result (sid reason : pystr) (w : World)
    (c : fcontent) (mode : N) (t : datetime) :
  encrypted_dir w !! record_name sid = Some (File c mode t) ->
  exists (b : bool) (w' : World),
    delete_candidate_data sid reason w = (Ok b, w') /\
    encrypted_dir w' !! record_name sid = None /\
    activity_log w'
    = log_step (log_entry (clock w (ticks w)) (lit "DELETE") (JStr sid)
                  (JDict [(lit "reason", JStr reason)])) (tick w) /\
    (b = true <-> all_files (is_export_of sid) (exports_dir w)) /\
    (b = true ->
     forall n, exports_dir w' !! n
               = if is_export_of sid n then None else exports_dir w !! n).
Proof.
  intros E. rewrite (delete_present _ _ _ _ _ _ E).
  rewrite _log_data_activity_run. cbn [snd]. cbv zeta.
  set (w2 := set_path (Encrypted (record_name sid)) None _).
  assert (Henc : encrypted_dir w2 !! record_name sid = None).
  { subst w2. wexpand. apply lookup_delete_eq. }
  assert (Hexp : exports_dir w2 = exports_dir w) by reflexivity.
  assert (Hlog : activity_log w2
                 = log_step (log_entry (clock w (ticks w)) (lit "DELETE")
                     (JStr sid) (JDict [(lit "reason", JStr reason)]))
                     (tick w)) by reflexivity.
  clearbody w2.
  destruct (decide (all_files (is_export_of sid) (exports_dir w)))
    as [Hall|Hnot].
  - rewrite remove_exports_ok.
    + exists true, (with_exports
        (purge (is_export_of sid) (map fst (map_to_list (exports_dir w)))
               (exports_dir w2)) w2).
      split; [reflexivity|]. split; [exact Henc|]. split; [exact Hlog|].
      split; [tauto|]. intros _ n. cbn [with_exports exports_dir].
      rewrite purge_lookup, Hexp.
      destruct (is_export_of sid n) eqn:Es.
      * destruct (decide _) as [|Hn]; [reflexivity|].
        destruct (exports_dir w !! n) eqn:En; [|reflexivity].
        exfalso. apply Hn. split; [|reflexivity].
        apply listing_elem. eauto.
      * rewrite decide_False; [reflexivity|]. intros [_ H]. discriminate.
    + apply listing_NoDup.
    + intros n Hin Hs. rewrite Hexp.
      apply listing_elem in Hin as [e He].
      specialize (Hall n e He Hs). destruct e; [eauto|discriminate].
  - destruct (not_all_files _ _ Hnot) as (n & mo & tt0 & Hn & Hs).
    destruct (remove_exports_fail sid (map fst (map_to_list (exports_dir w)))
                w2 n mo tt0) as (e & w' & Hrun).
    + apply listing_elem. eauto.
    + exact Hs.
    + now rewrite Hexp.
    + pose proof (remove_exports_frame sid
                    (map fst (map_to_list (exports_dir w))) w2) as [F1 F2].
      rewrite Hrun in F1, F2. cbn [snd] in F1, F2. rewrite Hrun.
      exists false, w'. split; [reflexivity|].
      split; [now rewrite F1|]. split; [now rewrite F2|].
      split; [|discriminate]. split; [discriminate|contradiction].
Qed.

(** C3, as the code has it.  For a session whose record file is stored,
    [delete_candidate_data] logs the DELETE entry and removes the record in
    every case; it returns success exactly when every export artifact of
    the session is a regular file, and then all of them are removed.  When
    one of them cannot be removed the result is failure. *)
Theorem delete_succeeds_iff_exports_removed (sid reason : pystr) (w : World)
    (c : fcontent) (mode : N) (t : datetime) :
  encrypted_dir w !! record_name sid = Some (File c mode t) ->
  exists (b : bool) (w' : World),
    delete_candidate_data sid reason w = (Ok b, w') /\
    encrypted_dir w' !! record_name sid = None /\
    activity_log w'
    = log_step (log_entry (clock w (ticks w)) (lit "DELETE") (JStr sid)
                  (JDict [(lit "reason", JStr reason)])) (tick w) /\
    (b = true <-> all_files (is_export_of sid) (exports_dir w)) /\
    (b = true ->
     forall n, exports_dir w' !! n
               = if is_export_of sid n then None else exports_dir w !! n).
Proof. apply delete_present_result. Qed.

(** C3, the claim as the specification words it, fails: session [s1] has a
    stored record and an export entry that cannot be removed; the call
    removes the record and returns failure. *)
Lemma delete_reports_failure_after_removal :
  let w := Samples.world_with_export_dir in
  let r := delete_candidate_data (lit "s1") (lit "user_request") w in
  is_Some (encrypted_dir w !! record_name (lit "s1")) /\
  fst r = Ok false /\
  encrypted_dir (snd r) !! record_name (lit "s1") = None.
Proof.
  cbv zeta. split; [|split].
  - eexists. vm_compute. reflexivity.
  - vm_compute. reflexivity.
  - vm_compute. reflexivity.
Qed.



(** C3, as the code has it, on the store whose export area holds a
    directory for the session. *)
Lemma delete_succeeds_iff_exports_removed_witness :
  exists c mode t (b : bool) (w' : World),
    encrypted_dir world_with_export_dir !! record_name (lit "s1")
    = Some (File c mode t) /\
    delete_candidate_data (lit "s1") (lit "user_request")
      world_with_export_dir = (Ok b, w') /\
    encrypted_dir w' !! record_name (lit "s1") = None /\
    (b = true <->
     all_files (is_export_of (lit "s1")) (exports_dir world_with_export_dir)).
Proof.
  eexists _, _, _.
  assert (H : encrypted_dir world_with_export_dir !! record_name (lit "s1")
              = Some (File (Json (JDict
                   [(lit "session_id", JStr (lit "s1"));
                    (lit "timestamp", JStr (lit "2024-03-01T12:00:00"))]))
                   384 noon)) by (vm_compute; reflexivity).
  destruct (delete_succeeds_iff_exports_removed (lit "s1")
              (lit "user_request") world_with_export_dir _ _ _ H)
    as (b & w' & E & Hgone & _ & Hiff & _).
  exists b, w'. split; [exact H|]. split; [exact E|].
  split; [exact Hgone|exact Hiff].
Defined.

End DeleteFacts.

(** ** Saving and loading a record *)

Module SaveFacts.
Import PyText PyTime PyJson Store Handler Views PyTextFacts CryptoFacts
  LogFacts.

Lemma dict_get_head (k : pystr) (v : json) (r : list (pystr * json)) :
  dict_get k ((k, v) :: r) = Some v.
Proof. cbn. now rewrite decide_True. Qed.

Lemma dict_get_skip (k k' : pystr) (v : json) (r : list (pystr * json)) :
  k <> k' -> dict_get k ((k', v) :: r) = dict_get k r.
Proof. intros H. cbn. now rewrite decide_False. Qed.

Lemma dict_get_nil (k : pystr) : dict_get k [] = None.
Proof. reflexivity. Qed.

Lemma dict_set_head (k : pystr) (v x : json) (r : list (pystr * json)) :
  dict_set k x ((k, v) :: r) = (k, x) :: r.
Proof. cbn. now rewrite decide_True. Qed.

Lemma dict_set_skip (k k' : pystr) (v x : json) (r : list (pystr * json)) :
  k <> k' -> dict_set k x ((k', v) :: r) = (k', v) :: dict_set k x r.
Proof. intros H. cbn. now rewrite decide_False. Qed.

Lemma dict_set_nil (k : pystr) (x : json) : dict_set k x [] = [(k, x)].
Proof. reflexivity. Qed.

(** Two different literals of the source. *)
Ltac lit_neq := let H := fresh in intros H; vm_compute in H; discriminate H.

(** Look a literal key up in, or store it into, a dictionary whose keys are
    literals. *)
Ltac dict_simpl :=
  repeat first
    [ rewrite dict_get_head
    | rewrite dict_get_skip by lit_neq
    | rewrite dict_get_nil
    | rewrite dict_set_head
    | rewrite dict_set_skip by lit_neq
    | rewrite dict_set_nil ].

Lemma dict_get_app (k : pystr) (a b : list (pystr * json)) :
  dict_get k (a ++ b)
  = match dict_get k a with Some v => Some v | None => dict_get k b end.
Proof.
  induction a as [|[k' v] r IH]; [reflexivity|]. cbn.
  destruct (decide (k = k')); [reflexivity|apply IH].
Qed.

Section WithLibs.
Context {CS : Cipher} {LB : Libs}.

Lemma with_nonce_same (w : World) : with_nonce (nonce w) w = w.
Proof. now destruct w. Qed.

Lemma _encrypt_data_nonce (x : pystr) (w : World) :
  exists n, _encrypt_data x w = (Ok (enc_text (nonce w) x), with_nonce n w).
Proof.
  rewrite _encrypt_data_run. unfold after_encrypt.
  destruct (str_encode x).
  - exists (S (nonce w)). reflexivity.
  - exists (nonce w). now rewrite with_nonce_same.
Qed.

Lemma encrypted_or_none_run (x : pystr) (w : World) :
  exists v n, sealed x v /\ encrypted_or_none x w = (Ok v, with_nonce n w).
Proof.
  unfold encrypted_or_none, sealed.
  destruct (truthy (JStr x)).
  - unfold bind. destruct (_encrypt_data_nonce x w) as [n ->].
    unfold ret. eauto.
  - unfold ret. exists JNull, (nonce w). now rewrite with_nonce_same.
Qed.

Ltac step_encrypt :=
  match goal with
  | |- context [encrypted_or_none ?x ?w] =>
      let v := fresh "f" in
      let n := fresh "n" in
      let Hs := fresh "Hs" in
      let E := fresh "E" in
      destruct (encrypted_or_none_run x w) as (v & n & Hs & E);
      rewrite E; clear E; unfold with_nonce; msimpl
  end.

Lemma stored_doc_add_transcript (ci : CandidateInfo) (sid : pystr)
    (ts : datetime) (f1 f2 f3 f4 eh ph hv v : json) :
  dict_set (lit "conversation_history_encrypted") v
           (stored_doc ci sid ts f1 f2 f3 f4 eh ph hv)
  = stored_doc ci sid ts f1 f2 f3 f4 eh ph hv
    ++ [(lit "conversation_history_encrypted", v)].
Proof. unfold stored_doc. dict_simpl. reflexivity. Qed.

Lemma hashed_or_none_run (hash : pystr -> M pystr) (n : nat) (x : pystr)
    (w : World) :
  (forall y w0, hash y w0
     = match str_encode y with
       | Some raw => (Ok (take n (sha256_hexdigest raw)), w0)
       | None => (Raise UnicodeError, w0)
       end) ->
  (can_hash x = true /\
   exists v, hashed n x v /\ hashed_or_none hash x w = (Ok v, w)) \/
  (can_hash x = false /\
   exists e, hashed_or_none hash x w = (Raise e, w)).
Proof.
  intros Hh. unfold hashed_or_none, hashed, can_hash. mrun.
  destruct (truthy (JStr x)); cbn [negb orb]; [|left; eauto].
  rewrite Hh. destruct (str_encode x).
  - left. rewrite bool_decide_eq_true_2 by eauto.
    split; [reflexivity|]. eexists. split; [|reflexivity]. eauto.
  - right. rewrite bool_decide_eq_false_2 by (intros [? [=]]). eauto.
Qed.

Lemma hash_email_run (y : pystr) (w0 : World) :
  hash_email y w0
  = match str_encode y with
    | Some raw => (Ok (take 16 (sha256_hexdigest raw)), w0)
    | None => (Raise UnicodeError, w0)
    end.
Proof. unfold hash_email. mrun. now destruct (str_encode y). Qed.

Lemma hash_phone_run (y : pystr) (w0 : World) :
  hash_phone y w0
  = match str_encode y with
    | Some raw => (Ok (take 12 (sha256_hexdigest raw)), w0)
    | None => (Raise UnicodeError, w0)
    end.
Proof. unfold hash_phone. mrun. now destruct (str_encode y). Qed.

(** [save_candidate_data] never raises.  It returns [True] exactly when
    hashing the e-mail address and the phone number does not raise and the
    record file can be written; the identifying fields are stored sealed
    whatever [_encrypt_data] met. *)
Lemma save_run (ci : CandidateInfo) (sid : pystr) (h : option (list json))
    (w : World) :
  exists (b : bool) (w1 : World) f1 f2 f3 f4 extra,
    save_candidate_data ci sid h w = (Ok b, w1) /\
    b = can_hash (email ci) && can_hash (phone ci) && can_write sid w /\
    sealed (full_name ci) f1 /\ sealed (email ci) f2 /\
    sealed (phone ci) f3 /\ sealed (current_location ci) f4 /\
    stored_transcript (history_value h) extra /\
    (b = true -> saved ci sid h w w1 f1 f2 f3 f4 extra).
Proof.
  unfold save_candidate_data, datetime_now.
  fold (history_value h). mrun.
  do 4 step_encrypt.
  match goal with |- context [hashed_or_none hash_email ?x ?w] =>
    destruct (hashed_or_none_run hash_email 16 x w hash_email_run)
      as [(-> & eh & Heh & E)|(-> & e & E)];
    rewrite E; clear E; msimpl end.
  2:{ cbn [andb].
      assert (Hx : exists extra, stored_transcript (history_value h) extra).
      { unfold stored_transcript.
        destruct (truthy _);
          [eexists; exists 0%nat; reflexivity|exists []; reflexivity]. }
      destruct Hx as [extra Hx].
      eexists false, _, f, f0, f1, f2, extra.
      repeat split; try assumption; try reflexivity. discriminate. }
  match goal with |- context [hashed_or_none hash_phone ?x ?w] =>
    destruct (hashed_or_none_run hash_phone 12 x w hash_phone_run)
      as [(-> & ph & Hph & E)|(-> & e & E)];
    rewrite E; clear E; msimpl end.
  2:{ cbn [andb].
      assert (Hx : exists extra, stored_transcript (history_value h) extra).
      { unfold stored_transcript.
        destruct (truthy _);
          [eexists; exists 0%nat; reflexivity|exists []; reflexivity]. }
      destruct Hx as [extra Hx].
      eexists false, _, f, f0, f1, f2, extra.
      repeat split; try assumption; try reflexivity. discriminate. }
  cbn [andb].
  fold (stored_doc ci sid (clock w (ticks w)) f f0 f1 f2 eh ph
          (history_value h)).
  set (doc := stored_doc _ _ _ _ _ _ _ _ _ _).
  assert (Hfin : forall (extra : list (pystr * json)) (n' : nat),
    stored_transcript (history_value h) extra ->
    exists (b : bool) (w1 : World),
    (let (r, w') :=
       let (r, w') :=
         dump_json (Encrypted (record_name sid)) (JDict (doc ++ extra))
           (mkWorld (encrypted_dir w) (exports_dir w) (activity_log w)
                    (umask w) (clock w) (S (ticks w)) n') in
       match r with
       | Ok _ =>
           let (r0, w'0) := os_chmod (Encrypted (record_name sid)) 384 w' in
           match r0 with
           | Ok _ =>
               let (r1, w'1) :=
                 _log_data_activity (lit "SAVE") (JStr sid)
                   (JDict
                      [(lit "has_personal_info",
                        JBool (truthy (JStr (full_name ci))));
                       (lit "has_contact_info",
                        JBool (truthy (JStr (email ci))));
                       (lit "tech_stack_count",
                        JInt (Z.of_nat (length (tech_stack ci))))]) w'0 in
               match r1 with
               | Ok _ => (Ok true, w'1)
               | Raise e => (Raise e, w'1)
               end
           | Raise e => (Raise e, w'0)
           end
       | Raise e => (Raise e, w')
       end in
     match r with
     | Ok a => (Ok a, w')
     | Raise _ => (Ok false, w')
     end) = (Ok b, w1) /\
    b = can_write sid w /\
    (b = true -> saved ci sid h w w1 f f0 f1 f2 extra)).
  { intros extra n' Hextra.
    unfold dump_json, os_chmod, can_write. wexpand. cbn [new_file_error].
    destruct (encrypted_dir w !! record_name sid) as [[c mode t|mode t]|];
      [destruct (writable mode)| |destruct (create_error (record_name sid))];
      msimpl;
      try (eexists false, _; repeat split; [discriminate]);
      rewrite lookup_insert_eq; msimpl;
      rewrite _log_data_activity_run; cbn [snd]; wexpand;
      (eexists true, _; split; [reflexivity|]; split; [reflexivity|]);
      intros _; exists eh, ph; eexists; wsimpl;
      (repeat split; try assumption; try reflexivity;
       [subst doc; apply lookup_insert_eq
       |intros k Hk; now rewrite !lookup_insert_ne by congruence]). }
  assert (Hadd : forall v,
    dict_set (lit "conversation_history_encrypted") v doc
    = doc ++ [(lit "conversation_history_encrypted", v)]).
  { intros v. subst doc. apply stored_doc_add_transcript. }
  clearbody doc.
  destruct (truthy (history_value h)) eqn:Eh; msimpl.
  - match goal with |- context [_encrypt_data ?x ?w0] =>
      destruct (_encrypt_data_nonce x w0) as [n' ->] end.
    unfold with_nonce. msimpl. rewrite Hadd.
    match goal with |- context [doc ++ ?e] =>
      assert (Hx : stored_transcript (history_value h) e)
        by (unfold stored_transcript; rewrite Eh; eauto);
      destruct (Hfin e n' Hx) as (b & w1 & E & Hb & Hsv);
      exists b, w1, f, f0, f1, f2, e
    end.
    repeat split; assumption.
  - assert (Hx : stored_transcript (history_value h) [])
      by (unfold stored_transcript; now rewrite Eh).
    destruct (Hfin [] n2 Hx) as (b & w1 & E & Hb & Hsv).
    rewrite app_nil_r in E.
    exists b, w1, f, f0, f1, f2, []. repeat split; assumption.
Qed.

End WithLibs.

Section WithInverse.
Context {CS : Cipher} {LB : Libs} {FI : FernetInverse CS}.

Lemma b64encode_nonempty (b : bytes) : b <> [] -> b64encode b <> [].
Proof. destruct b as [|a0 [|a1 [|a2 r]]]; cbn; congruence. Qed.

Lemma enc_text_nonempty (iv : nat) (x : pystr) : x <> [] -> enc_text iv x <> [].
Proof.
  intros Hx. unfold enc_text. destruct (str_encode x); [|assumption].
  intros H. apply map_eq_nil in H.
  apply (b64encode_nonempty (fernet_encrypt iv l)); [|assumption].
  apply fernet_token_nonempty.
Qed.

Lemma truthy_str (x : pystr) : truthy (JStr x) = true <-> x <> [].
Proof. destruct x; cbn; split; congruence. Qed.

(** A sealed field decrypts to the field, and an empty one to [None]. *)
Lemma decrypted_or_none_sealed (kv : list (pystr * json)) (k x : pystr)
    (f : json) (w : World) :
  dict_get k kv = Some f -> sealed x f ->
  decrypted_or_none (JDict kv) k w = (Ok (plain_or_none x), w).
Proof.
  intros Hk Hs. unfold decrypted_or_none, sealed, plain_or_none in *. mrun.
  rewrite Hk. cbn [default from_option]. unfold id. destruct (truthy (JStr x)) eqn:Ex.
  - destruct Hs as [iv ->]. apply truthy_str in Ex.
    pose proof (enc_text_nonempty iv x Ex) as Hne.
    apply truthy_str in Hne. rewrite Hne. msimpl.
    now rewrite _decrypt_enc_text.
  - subst f. reflexivity.
Qed.

Lemma stored_get_info (ci : CandidateInfo) (sid : pystr) (ts : datetime)
    (f1 f2 f3 f4 eh ph hv : json) (extra : list (pystr * json)) :
  dict_get (lit "candidate_info")
           (stored_doc ci sid ts f1 f2 f3 f4 eh ph hv ++ extra)
  = Some (JDict [(lit "full_name_encrypted", f1);
                 (lit "email_encrypted", f2);
                 (lit "phone_encrypted", f3);
                 (lit "current_location_encrypted", f4);
                 (lit "years_experience", JStr (years_experience ci));
                 (lit "desired_positions", JStr (desired_positions ci));
                 (lit "tech_stack", JList (map JStr (tech_stack ci)))]).
Proof. rewrite dict_get_app. unfold stored_doc. dict_simpl. reflexivity. Qed.

Lemma stored_get_blob (ci : CandidateInfo) (sid : pystr) (ts : datetime)
    (f1 f2 f3 f4 eh ph hv : json) (extra : list (pystr * json)) :
  dict_get (lit "conversation_history_encrypted")
           (stored_doc ci sid ts f1 f2 f3 f4 eh ph hv ++ extra)
  = dict_get (lit "conversation_history_encrypted") extra.
Proof. rewrite dict_get_app. unfold stored_doc. dict_simpl. reflexivity. Qed.

Ltac step_decrypt :=
  match goal with
  | |- context [decrypted_or_none (JDict ?kv) ?k ?w] =>
      erewrite (decrypted_or_none_sealed kv k _ _ w);
      [|dict_simpl; reflexivity|eassumption]; msimpl
  end.

Lemma load_of_stored (ci : CandidateInfo) (sid : pystr) (ts : datetime)
    (f1 f2 f3 f4 eh ph hv : json) (extra : list (pystr * json))
    (hist : option json) (mode : N) (t : datetime) (w : World) :
  encrypted_dir w !! record_name sid
  = Some (File (Json (JDict (stored_doc ci sid ts f1 f2 f3 f4 eh ph hv
                             ++ extra))) mode t) ->
  readable mode = true ->
  sealed (full_name ci) f1 -> sealed (email ci) f2 ->
  sealed (phone ci) f3 -> sealed (current_location ci) f4 ->
  stored_transcript hv extra -> transcript_loads hv hist ->
  load_candidate_data sid w
  = (Ok (Some (JDict (loaded_doc
                        (stored_doc ci sid ts f1 f2 f3 f4 eh ph hv ++ extra)
                        (loaded_info ci) hist))),
     snd (_log_data_activity (lit "LOAD") (JStr sid) JNull w)).
Proof.
  intros E Hr H1 H2 H3 H4 Hx Hh.
  unfold load_candidate_data, os_path_exists, load_json.
  mrun. wexpand. rewrite E. rewrite bool_decide_eq_true_2 by eauto.
  cbn [negb]. msimpl. rewrite ?E. msimpl. rewrite Hr. msimpl.
  rewrite stored_get_info, stored_get_blob.
  rewrite bool_decide_eq_true_2 by eauto. msimpl.
  do 4 step_decrypt. dict_simpl. cbn [default from_option]. unfold id.
  fold (loaded_info ci).
  unfold stored_transcript, transcript_loads, loaded_doc in *.
  destruct (truthy hv).
  - destruct Hx as [iv ->]. destruct Hh as (v & Hv & ->).
    dict_simpl. rewrite bool_decide_eq_true_2 by eauto. msimpl.
    rewrite _decrypt_enc_text. msimpl. rewrite Hv. msimpl.
    destruct (_log_data_activity _ _ _ w) as [[[]|e] w2] eqn:El;
      [reflexivity|].
    rewrite _log_data_activity_run in El. discriminate.
  - subst extra hist. dict_simpl.
    rewrite bool_decide_eq_false_2 by (intros [? [=]]). msimpl.
    destruct (_log_data_activity _ _ _ w) as [[[]|e] w2] eqn:El;
      [reflexivity|].
    rewrite _log_data_activity_run in El. discriminate.
Qed.
End WithInverse.

End SaveFacts.

(** ** Round trip of a record, empty fields, and failures of a save *)

Module RoundTrip.
Import PyText PyTime PyJson Store Handler Views PyTextFacts CryptoFacts
  LogFacts SaveFacts Samples.

(** Look a path of literal keys up in a stored or a loaded document. *)
Ltac doc_lookup :=
  cbn [lookup_in loaded_doc];
  repeat first [rewrite dict_get_set_eq | rewrite dict_get_set_ne by lit_neq];
  rewrite ?dict_get_app; unfold stored_doc, loaded_info; dict_simpl;
  cbn [lookup_in]; dict_simpl.

Section WithInverse.
Context {CS : Cipher} {LB : Libs} {FI : FernetInverse CS}.

(** A record that was saved loads again: the stored document holds the
    sealed fields, and [load_candidate_data] returns it with the personal
    fields decrypted. *)
Lemma save_then_load (ci : CandidateInfo) (sid : pystr)
    (h : option (list json)) (hist : option json) (w : World) :
  fst (save_candidate_data ci sid h w) = Ok true ->
  transcript_loads (history_value h) hist ->
  let w1 := snd (save_candidate_data ci sid h w) in
  exists f1 f2 f3 f4 eh ph extra,
    sealed (full_name ci) f1 /\ sealed (email ci) f2 /\
    sealed (phone ci) f3 /\ sealed (current_location ci) f4 /\
    hashed 16 (email ci) eh /\ hashed 12 (phone ci) ph /\
    stored_transcript (history_value h) extra /\
    let stored := stored_doc ci sid (clock w (ticks w)) f1 f2 f3 f4 eh ph
                             (history_value h) ++ extra in
    record_doc sid w1 = Some (JDict stored) /\
    fst (load_candidate_data sid w1)
    = Ok (Some (JDict (loaded_doc stored (loaded_info ci) hist))).
Proof.
  intros Hok Hh.
  destruct (save_run ci sid h w)
    as (b & w1 & f1 & f2 & f3 & f4 & extra & E & Hb & H1 & H2 & H3 & H4
        & Hx & Hsaved).
  rewrite E in *. cbn [fst snd] in *. injection Hok as ->.
  destruct (Hsaved eq_refl) as (eh & ph & t & Heh & Hph & Hrec & _).
  exists f1, f2, f3, f4, eh, ph, extra.
  repeat (split; [assumption|]). cbv zeta. split.
  - unfold record_doc. now rewrite Hrec.
  - erewrite load_of_stored; [reflexivity|exact Hrec|reflexivity|eassumption..].
Qed.

Lemma sealed_empty (f : json) : sealed [] f -> f = JNull.
Proof. intros H. exact H. Qed.

Lemma hashed_empty (n : nat) (v : json) : hashed n [] v -> v = JNull.
Proof. intros H. exact H. Qed.

Lemma plain_or_none_filled (x : pystr) : x <> [] -> plain_or_none x = JStr x.
Proof. intros H. unfold plain_or_none. now destruct x. Qed.


(** C1.  A valid record saved for a session, with no transcript, loads
    again equal in every field: the four identifying fields come back
    decrypted to their values, the plain fields come back unchanged, and
    the completion status, stored and loaded, is "incomplete".  A valid
    record has its four identifying fields filled in, and its strings are
    text as JSON carries it: none holds a high surrogate followed by a low
    one, which a JSON file gives back as one character. *)
Theorem load_after_save_roundtrip (ci : CandidateInfo) (sid : pystr)
    (w : World) :
  valid_record ci ->
  stable_record ci ->
  fst (save_candidate_data ci sid None w) = Ok true ->
  let w1 := snd (save_candidate_data ci sid None w) in
  exists stored data,
    record_doc sid w1 = Some stored /\
    fst (load_candidate_data sid w1) = Ok (Some data) /\
    lookup_in [lit "candidate_info"] data
    = Some (JDict [(lit "full_name", JStr (full_name ci));
                   (lit "email", JStr (email ci));
                   (lit "phone", JStr (phone ci));
                   (lit "current_location", JStr (current_location ci));
                   (lit "years_experience", JStr (years_experience ci));
                   (lit "desired_positions", JStr (desired_positions ci));
                   (lit "tech_stack", JList (map JStr (tech_stack ci)))]) /\
    lookup_in [lit "metadata"; lit "completion_status"] stored
    = Some (JStr (lit "incomplete")) /\
    lookup_in [lit "metadata"; lit "completion_status"] data
    = Some (JStr (lit "incomplete")).
Proof.
  intros (Hn & He & Hp & Hl) _ Hok w1.
  destruct (save_then_load ci sid None None w Hok eq_refl)
    as (f1 & f2 & f3 & f4 & eh & ph & extra & _ & _ & _ & _ & _ & _ & Hx
        & Hrec & Hload).
  cbv zeta in Hrec, Hload. fold w1 in Hrec, Hload.
  eexists _, _. split; [exact Hrec|]. split; [exact Hload|].
  split; [doc_lookup; now rewrite !plain_or_none_filled|].
  split; doc_lookup; reflexivity.
Qed.

(** C10.  An identifying field that is the empty string is stored as
    [null], not encrypted, and loads as [None]; the hash of an empty e-mail
    address or phone number is stored as [null] too. *)
Theorem empty_field_stored_as_null (ci : CandidateInfo) (sid : pystr)
    (h : option (list json)) (hist : option json) (w : World) :
  fst (save_candidate_data ci sid h w) = Ok true ->
  transcript_loads (history_value h) hist ->
  let w1 := snd (save_candidate_data ci sid h w) in
  exists stored data,
    record_doc sid w1 = Some stored /\
    fst (load_candidate_data sid w1) = Ok (Some data) /\
    (full_name ci = [] ->
     lookup_in [lit "candidate_info"; lit "full_name_encrypted"] stored
     = Some JNull /\
     lookup_in [lit "candidate_info"; lit "full_name"] data = Some JNull) /\
    (email ci = [] ->
     lookup_in [lit "candidate_info"; lit "email_encrypted"] stored
     = Some JNull /\
     lookup_in [lit "candidate_info"; lit "email"] data = Some JNull /\
     lookup_in [lit "privacy_hashes"; lit "email_hash"] stored
     = Some JNull) /\
    (phone ci = [] ->
     lookup_in [lit "candidate_info"; lit "phone_encrypted"] stored
     = Some JNull /\
     lookup_in [lit "candidate_info"; lit "phone"] data = Some JNull /\
     lookup_in [lit "privacy_hashes"; lit "phone_hash"] stored
     = Some JNull) /\
    (current_location ci = [] ->
     lookup_in [lit "candidate_info"; lit "current_location_encrypted"] stored
     = Some JNull /\
     lookup_in [lit "candidate_info"; lit "current_location"] data
     = Some JNull).
Proof.
  intros Hok Hh w1.
  destruct (save_then_load ci sid h hist w Hok Hh)
    as (f1 & f2 & f3 & f4 & eh & ph & extra & H1 & H2 & H3 & H4 & Heh & Hph
        & Hx & Hrec & Hload).
  cbv zeta in Hrec, Hload. fold w1 in Hrec, Hload.
  eexists _, _. split; [exact Hrec|]. split; [exact Hload|].
  split; [|split; [|split]]; intros Hempty.
  - rewrite Hempty in H1. apply sealed_empty in H1 as ->.
    split; [doc_lookup; reflexivity|].
    destruct hist; doc_lookup; now rewrite Hempty.
  - rewrite Hempty in H2, Heh.
    apply sealed_empty in H2 as ->. apply hashed_empty in Heh as ->.
    split; [doc_lookup; reflexivity|].
    split; [destruct hist; doc_lookup; now rewrite Hempty
           |doc_lookup; reflexivity].
  - rewrite Hempty in H3, Hph.
    apply sealed_empty in H3 as ->. apply hashed_empty in Hph as ->.
    split; [doc_lookup; reflexivity|].
    split; [destruct hist; doc_lookup; now rewrite Hempty
           |doc_lookup; reflexivity].
  - rewrite Hempty in H4. apply sealed_empty in H4 as ->.
    split; [doc_lookup; reflexivity|].
    destruct hist; doc_lookup; now rewrite Hempty.
Qed.

End WithInverse.

Section WithLibs.
Context {CS : Cipher} {LB : Libs}.


End WithLibs.



(** C1 at the candidate of the specification's scenario. *)
Lemma load_after_save_roundtrip_witness :
  FernetInverse sample_cipher /\
  valid_record sample_candidate /\
  stable_record sample_candidate /\
  fst (save_candidate_data sample_candidate (lit "s1") None
         (empty_world second_clock)) = Ok true /\
  let w1 := snd (save_candidate_data sample_candidate (lit "s1") None
                   (empty_world second_clock)) in
  exists stored data,
    record_doc (lit "s1") w1 = Some stored /\
    fst (load_candidate_data (lit "s1") w1) = Ok (Some data) /\
    lookup_in [lit "candidate_info"] data
    = Some (JDict [(lit "full_name", JStr (full_name sample_candidate));
                   (lit "email", JStr (email sample_candidate));
                   (lit "phone", JStr (phone sample_candidate));
                   (lit "current_location",
                    JStr (current_location sample_candidate));
                   (lit "years_experience",
                    JStr (years_experience sample_candidate));
                   (lit "desired_positions",
                    JStr (desired_positions sample_candidate));
                   (lit "tech_stack",
                    JList (map JStr (tech_stack sample_candidate)))]) /\
    lookup_in [lit "metadata"; lit "completion_status"] stored
    = Some (JStr (lit "incomplete")) /\
    lookup_in [lit "metadata"; lit "completion_status"] data
    = Some (JStr (lit "incomplete")).
Proof.
  assert (Hv : valid_record sample_candidate)
    by (repeat split; vm_compute; discriminate).
  assert (Hst : stable_record sample_candidate)
    by (repeat split; vm_compute; reflexivity).
  assert (Hs : fst (save_candidate_data sample_candidate (lit "s1") None
                      (empty_world second_clock)) = Ok true)
    by (vm_compute; reflexivity).
  split; [exact sample_cipher_inverse|]. split; [exact Hv|].
  split; [exact Hst|]. split; [exact Hs|].
  exact (@load_after_save_roundtrip sample_cipher sample_libs
           sample_cipher_inverse sample_candidate (lit "s1")
           (empty_world second_clock) Hv Hst Hs).
Defined.

(** C10 at a candidate without e-mail address and location. *)
Lemma empty_field_stored_as_null_witness :
  fst (save_candidate_data sparse_candidate (lit "s2") None
         (empty_world second_clock)) = Ok true /\
  transcript_loads (history_value None) None /\
  exists stored data,
    record_doc (lit "s2")
      (snd (save_candidate_data sparse_candidate (lit "s2") None
              (empty_world second_clock))) = Some stored /\
    fst (load_candidate_data (lit "s2")
           (snd (save_candidate_data sparse_candidate (lit "s2") None
                   (empty_world second_clock)))) = Ok (Some data) /\
    lookup_in [lit "candidate_info"; lit "email_encrypted"] stored
    = Some JNull /\
    lookup_in [lit "candidate_info"; lit "email"] data = Some JNull /\
    lookup_in [lit "privacy_hashes"; lit "email_hash"] stored = Some JNull.
Proof.
  assert (Hs : fst (save_candidate_data sparse_candidate (lit "s2") None
                      (empty_world second_clock)) = Ok true)
    by (vm_compute; reflexivity).
  split; [exact Hs|]. split; [reflexivity|].
  destruct (@empty_field_stored_as_null sample_cipher sample_libs
              sample_cipher_inverse sparse_candidate (lit "s2") None None
              (empty_world second_clock) Hs eq_refl)
    as (stored & data & Hrec & Hload & _ & Hemail & _).
  exists stored, data. split; [exact Hrec|]. split; [exact Hload|].
  exact (Hemail eq_refl).
Defined.

End RoundTrip.

(** ** Export and erasure of a saved session *)

Module ExportFacts.
Import PyText PyTime PyJson Store Handler Views PyTextFacts CryptoFacts
  LogFacts DeleteFacts SaveFacts RoundTrip Samples.

Lemma startswith_app (p r : pystr) : startswith (p ++ r) p = true.
Proof.
  induction p as [|x p IH]; [now destruct r|].
  cbn. now rewrite N.eqb_refl, IH.
Qed.



Section WithInverse.
Context {CS : Cipher} {LB : Libs} {FI : FernetInverse CS}.

Lemma dict_set_nonempty (k : pystr) (v : json) (kv : list (pystr * json)) :
  truthy (JDict (dict_set k v kv)) = true.
Proof.
  destruct kv as [|[k' v'] r]; cbn; [reflexivity|].
  now destruct (decide (k = k')).
Qed.

Lemma loaded_doc_truthy (stored : list (pystr * json)) (info : json)
    (hist : option json) :
  truthy (JDict (loaded_doc stored info hist)) = true.
Proof. unfold loaded_doc. destruct hist; apply dict_set_nonempty. Qed.



End WithInverse.



End ExportFacts.

(** ** The retention sweep *)

Module SweepFacts.
Import PyText PyTime PyJson Store Handler Views LogFacts DeleteFacts Samples.

Section WithLibs.
Context {LB : Libs}.

Lemma dt_lt_naive (d cutoff : datetime) :
  utcoffset cutoff = None -> dt_lt d cutoff = Some true ->
  utcoffset d = None.
Proof.
  unfold dt_lt, dt_cmp. intros ->. now destruct (utcoffset d).
Qed.

Lemma sub_dt_days_naive (a b : datetime) :
  utcoffset a = None -> utcoffset b = None ->
  exists n, sub_dt_days a b = Some n.
Proof. unfold sub_dt_days. intros -> ->. eauto. Qed.

Lemma str_encode_app (a b : pystr) :
  str_encode (a ++ b)
  = match str_encode a, str_encode b with
    | Some x, Some y => Some (x ++ y)
    | _, _ => None
    end.
Proof.
  induction a as [|c a IH]; cbn [app str_encode].
  - now destruct (str_encode b).
  - rewrite IH.
    destruct (utf8_encode_cp c), (str_encode a), (str_encode b);
      try reflexivity.
    now rewrite app_assoc.
Qed.

(** The line the handler of the record loop prints can be written exactly
    when the file name can. *)
Lemma print_file_name_run (name : pystr) (w : World) :
  print_text (lit "Error processing file " ++ name) w
  = match str_encode name with
    | Some _ => (Ok tt, w)
    | None => (Raise UnicodeError, w)
    end.
Proof.
  unfold print_text. mrun. rewrite str_encode_app.
  destruct (str_encode (lit "Error processing file ")) as [p|] eqn:Ep;
    [|vm_compute in Ep; discriminate Ep].
  now destruct (str_encode name).
Qed.

Lemma expired_not_skipped (cutoff : datetime) (e : fs_entry) :
  expired cutoff e = true -> skipped cutoff e = false.
Proof.
  unfold expired, skipped. destruct (file_date e); [|discriminate].
  now destruct (dt_lt d cutoff) as [[|]|].
Qed.

(** One pass of the record loop.  A record file whose timestamp is expired
    is logged, removed and counted; one whose timestamp cannot be read or
    compared is left, and the pass raises when its name cannot be printed;
    any other entry is left. *)
Lemma cleanup_record_pass (days : Z) (cutoff : datetime) (cnt : Z)
    (name : pystr) (w : World) (e : fs_entry) :
  naive_clock w -> utcoffset cutoff = None ->
  encrypted_dir w !! name = Some e ->
  if is_record_name name && expired cutoff e then
    exists s age,
      cleanup_record days cutoff cnt name w
      = (Ok (cnt + 1)%Z,
         set_path (Encrypted name) None
           (snd (_log_data_activity (lit "AUTO_DELETE") s
                   (JDict [(lit "retention_days", JInt days);
                           (lit "file_age_days", JInt age)]) (tick w))))
  else if is_record_name name && skipped cutoff e then
    cleanup_record days cutoff cnt name w
    = (match str_encode name with
       | Some _ => Ok cnt
       | None => Raise UnicodeError
       end, w)
  else cleanup_record days cutoff cnt name w = (Ok cnt, w).
Proof.
  intros Hclk Hcut He.
  unfold cleanup_record, is_record_name, expired, skipped, file_date.
  destruct (startswith name (lit "candidate_") && endswith name (lit ".json"));
    cbn [andb]; [|reflexivity].
  unfold load_json. mrun. wexpand. rewrite He.
  assert (Hskip :
    (let (r, w') := print_text (lit "Error processing file " ++ name) w in
     match r with
     | Ok _ => (Ok cnt, w')
     | Raise e0 => (Raise e0, w')
     end)
    = (match str_encode name with
       | Some _ => Ok cnt
       | None => Raise UnicodeError
       end, w))
    by (rewrite print_file_name_run; now destruct (str_encode name)).
  destruct e as [c mode t|mode t]; [|exact Hskip].
  destruct c as [raw|v]; [destruct (readable mode); exact Hskip|].
  destruct v as [| | | | |kv]; try (destruct (readable mode); exact Hskip).
  destruct (readable mode); [|exact Hskip]. msimpl.
  destruct (dict_get (lit "timestamp") kv) as [[| | |s| |]|]; try exact Hskip.
  msimpl.
  destruct (fromisoformat s) as [d|]; [|exact Hskip]. msimpl.
  destruct (dt_lt d cutoff) as [[|]|] eqn:Elt; [|reflexivity|exact Hskip].
  clear Hskip.
  msimpl. cbn [default from_option]. unfold datetime_now. msimpl.
  destruct (sub_dt_days_naive (clock w (ticks w)) d (Hclk _)
              (dt_lt_naive _ _ Hcut Elt)) as [age ->]. msimpl.
  fold (tick w).
  exists (default (JStr (lit "unknown")) (dict_get (lit "session_id") kv)), age.
  destruct (_log_data_activity _ _ _ (tick w)) as [[[]|ex] w2] eqn:El.
  2:{ rewrite _log_data_activity_run in El. discriminate El. }
  cbn [snd]. unfold os_remove.
  assert (Hw2 : encrypted_dir w2 = encrypted_dir w).
  { rewrite _log_data_activity_run in El. injection El as <-. reflexivity. }
  cbn [lookup_path]. unfold set_path. rewrite Hw2, He. reflexivity.
Qed.

Lemma sub_days_offset (d c : datetime) (n : Z) :
  sub_days d n = Some c -> utcoffset c = utcoffset d.
Proof.
  unfold sub_days. destruct (999999999 <? Z.abs n)%Z; [discriminate|].
  destruct (_ && _); [|discriminate].
  destruct (_ord2ymd _) as [[y m] dd]. now intros [= <-].
Qed.

(** The record loop: the listed names are looked at one after the other,
    until the listing ends or a pass raises.  [done] are the names whose
    pass ended, [rest] is empty or starts with the name whose pass
    raised. *)
Lemma cleanup_loop (days : Z) (cutoff : datetime) (m0 : gmap pystr fs_entry)
    (names : list pystr) (w : World) (cnt : Z) :
  naive_clock w -> utcoffset cutoff = None -> NoDup names ->
  (forall n, n ∈ names -> is_Some (m0 !! n)) ->
  (forall n, n ∈ names -> encrypted_dir w !! n = m0 !! n) ->
  exists w' done rest stop,
    for_fold_reached names (cleanup_record days cutoff) cnt w
    = (Ok ((cnt + Z.of_nat (length (filter
                                      (fun n => sweeps cutoff m0 n = true)
                                      done)))%Z, stop), w') /\
    names = done ++ rest /\
    match stop with
    | None => rest = []
    | Some _ =>
        exists n e r,
          rest = n :: r /\ m0 !! n = Some e /\ is_record_name n = true /\
          skipped cutoff e = true /\ str_encode n = None
    end /\
    encrypted_dir w' = purge (sweeps cutoff m0) done (encrypted_dir w) /\
    exports_dir w' = exports_dir w /\
    clock w' = clock w.
Proof.
  revert w cnt. induction names as [|n r IH]; intros w cnt Hclk Hcut Hnd Hin Hm.
  - exists w, [], [], None. cbn. unfold ret. rewrite Z.add_0_r.
    repeat split; reflexivity.
  - apply NoDup_cons in Hnd as [Hn Hnd].
    destruct (Hin n) as [e He]; [now left|].
    assert (Hwn : encrypted_dir w !! n = Some e)
      by (rewrite Hm; [exact He|now left]).
    pose proof (cleanup_record_pass days cutoff cnt n w e Hclk Hcut Hwn)
      as Hone.
    assert (Hsw : sweeps cutoff m0 n = is_record_name n && expired cutoff e)
      by (unfold sweeps; now rewrite He).
    rewrite <- Hsw in Hone.
    assert (Hin' : forall k, k ∈ r -> is_Some (m0 !! k))
      by (intros k Hk; apply Hin; now right).
    assert (Hm' : forall k, k ∈ r -> encrypted_dir w !! k = m0 !! k)
      by (intros k Hk; apply Hm; now right).
    cbn [for_fold_reached].
    destruct (sweeps cutoff m0 n) eqn:Es.
    + destruct Hone as (s & age & ->).
      set (w1 := snd (_log_data_activity (lit "AUTO_DELETE") s _ (tick w))).
      assert (Henc1 : encrypted_dir w1 = encrypted_dir w)
        by (subst w1; rewrite _log_data_activity_run; reflexivity).
      assert (Hexp1 : exports_dir w1 = exports_dir w)
        by (subst w1; rewrite _log_data_activity_run; reflexivity).
      assert (Hc1 : clock w1 = clock w)
        by (subst w1; rewrite _log_data_activity_run; reflexivity).
      destruct (IH (set_path (Encrypted n) None w1) (cnt + 1)%Z)
        as (w' & dn & rs & stop & E' & Hsplit & Hstop & Henc' & Hexp' & Hc').
      * intros k. cbn [set_path clock]. rewrite Hc1. apply Hclk.
      * exact Hcut.
      * exact Hnd.
      * exact Hin'.
      * intros k Hk. cbn [set_path encrypted_dir]. rewrite Henc1.
        rewrite lookup_delete_ne by (intros ->; contradiction).
        now apply Hm'.
      * exists w', (n :: dn), rs, stop. rewrite E'.
        rewrite filter_cons, decide_True by exact Es. cbn [length purge].
        rewrite Es.
        split; [do 3 f_equal; lia|].
        split; [now rewrite Hsplit|]. split; [exact Hstop|].
        split; [rewrite Henc'; cbn [set_path encrypted_dir];
                now rewrite Henc1|].
        split; [rewrite Hexp'; exact Hexp1|rewrite Hc'; exact Hc1].
    + destruct (is_record_name n && skipped cutoff e) eqn:Esk.
      * rewrite Hone. destruct (str_encode n) as [b|] eqn:Eb.
        -- destruct (IH w cnt Hclk Hcut Hnd Hin' Hm')
             as (w' & dn & rs & stop & E' & Hsplit & Hrest).
           exists w', (n :: dn), rs, stop. rewrite E'.
           rewrite filter_cons, decide_False by (rewrite Es; discriminate).
           cbn [purge]. rewrite Es.
           split; [reflexivity|]. split; [now rewrite Hsplit|exact Hrest].
        -- exists w, [], (n :: r), (Some UnicodeError).
           cbn [filter length purge]. rewrite Z.add_0_r.
           apply andb_prop in Esk as [Hrn Hsk].
           split; [reflexivity|]. split; [reflexivity|].
           split; [exists n, e, r; repeat split; assumption|].
           repeat split; reflexivity.
      * rewrite Hone.
        destruct (IH w cnt Hclk Hcut Hnd Hin' Hm')
          as (w' & dn & rs & stop & E' & Hsplit & Hrest).
        exists w', (n :: dn), rs, stop. rewrite E'.
        rewrite filter_cons, decide_False by (rewrite Es; discriminate).
        cbn [purge]. rewrite Es.
        split; [reflexivity|]. split; [now rewrite Hsplit|exact Hrest].
Qed.

(** The record loop runs to the end of the listing when the names of the
    files it skips can be printed. *)
Lemma cleanup_loop_all (days : Z) (cutoff : datetime)
    (m0 : gmap pystr fs_entry) (names : list pystr) (w : World) (cnt : Z) :
  naive_clock w -> utcoffset cutoff = None -> NoDup names ->
  (forall n, n ∈ names -> is_Some (m0 !! n)) ->
  (forall n, n ∈ names -> encrypted_dir w !! n = m0 !! n) ->
  skipped_names_print cutoff m0 ->
  exists w',
    for_fold_reached names (cleanup_record days cutoff) cnt w
    = (Ok ((cnt + Z.of_nat (length (filter
                                      (fun n => sweeps cutoff m0 n = true)
                                      names)))%Z, None), w') /\
    encrypted_dir w' = purge (sweeps cutoff m0) names (encrypted_dir w) /\
    exports_dir w' = exports_dir w /\
    clock w' = clock w.
Proof.
  intros Hclk Hcut Hnd Hin Hm Hp.
  destruct (cleanup_loop days cutoff m0 names w cnt Hclk Hcut Hnd Hin Hm)
    as (w' & dn & rs & stop & E & Hsplit & Hstop & Hrest).
  destruct stop as [x|].
  - destruct Hstop as (n & e & r & _ & He & Hrn & Hsk & Hnone).
    destruct (Hp n e He Hrn Hsk) as [b Hb]. congruence.
  - subst rs. rewrite app_nil_r in Hsplit. subst dn.
    exists w'. split; [exact E|exact Hrest].
Qed.

(** A loop keeps what each pass keeps. *)
Lemma for_each_frame {A B : Type} (f : World -> B) (body : A -> M unit) :
  (forall x w, f (snd (body x w)) = f w) ->
  forall xs w, f (snd (for_each xs body w)) = f w.
Proof.
  intros H xs. induction xs as [|x r IH]; intros w; [reflexivity|].
  cbn [for_each]. unfold bind. specialize (H x w).
  destruct (body x w) as [[u|e] w1]; cbn [snd] in *.
  - now rewrite IH.
  - exact H.
Qed.

Lemma cleanup_export_frame (cutoff : datetime) (n : pystr) (w : World) :
  encrypted_dir (snd (cleanup_export cutoff n w)) = encrypted_dir w.
Proof.
  unfold cleanup_export.
  destruct (startswith n (lit "export_")); [|reflexivity].
  unfold stat_mtime, os_remove. mrun. wexpand.
  destruct (exports_dir w !! n) as [[c mode t|mode t]|] eqn:E;
    try reflexivity;
    destruct (dt_lt t cutoff) as [[|]|]; msimpl; rewrite ?E; reflexivity.
Qed.

(** [cleanup_old_data] when the cutoff is representable and the names of
    the files the record loop skips can be printed. *)
Lemma cleanup_run (retention_days : Z) (w : World) (cutoff : datetime) :
  naive_clock w ->
  sub_days (clock w (ticks w)) retention_days = Some cutoff ->
  skipped_names_print cutoff (encrypted_dir w) ->
  exists w1 w',
    for_fold_reached (map fst (map_to_list (encrypted_dir w)))
      (cleanup_record retention_days cutoff) 0%Z (tick w)
    = (Ok (Z.of_nat
             (length (filter
                        (fun n => sweeps cutoff (encrypted_dir w) n = true)
                        (map fst (map_to_list (encrypted_dir w))))), None),
       w1) /\
    exports_dir w1 = exports_dir w /\ clock w1 = clock w /\
    w' = snd (for_each (map fst (map_to_list (exports_dir w1)))
                (cleanup_export cutoff) w1) /\
    cleanup_old_data retention_days w
    = (Ok (Z.of_nat
             (length (filter
                        (fun n => sweeps cutoff (encrypted_dir w) n = true)
                        (map fst (map_to_list (encrypted_dir w)))))), w') /\
    (forall name,
       encrypted_dir w' !! name
       = if sweeps cutoff (encrypted_dir w) name then None
         else encrypted_dir w !! name).
Proof.
  intros Hclk Hcut Hp.
  assert (Hnaive : utcoffset cutoff = None)
    by (rewrite (sub_days_offset _ _ _ Hcut); apply Hclk).
  destruct (cleanup_loop_all retention_days cutoff (encrypted_dir w)
              (map fst (map_to_list (encrypted_dir w))) (tick w) 0)
    as (w1 & E1 & Henc & Hexp & Hc).
  { exact Hclk. }
  { exact Hnaive. }
  { apply listing_NoDup. }
  { intros n Hn. now apply listing_elem. }
  { reflexivity. }
  { exact Hp. }
  rewrite Z.add_0_l in E1.
  exists w1, (snd (for_each (map fst (map_to_list (exports_dir w1)))
                     (cleanup_export cutoff) w1)).
  split; [exact E1|]. split; [exact Hexp|]. split; [exact Hc|].
  split; [reflexivity|].
  pose proof (for_each_frame encrypted_dir (cleanup_export cutoff)
                (cleanup_export_frame cutoff)
                (map fst (map_to_list (exports_dir w1))) w1) as Hfr.
  split.
  - unfold cleanup_old_data, datetime_now, listdir_encrypted,
      listdir_exports.
    mrun. rewrite Hcut. msimpl. fold (tick w). rewrite E1. msimpl.
    now destruct (for_each _ (cleanup_export cutoff) w1) as [[u|e] w2].
  - intros name. rewrite Hfr, Henc, purge_lookup.
    cbn [tick encrypted_dir].
    destruct (sweeps cutoff (encrypted_dir w) name) eqn:Es.
    + destruct (decide _) as [|Hn]; [reflexivity|].
      destruct (encrypted_dir w !! name) eqn:El; [|reflexivity].
      exfalso. apply Hn. split; [apply listing_elem; eauto|reflexivity].
    + rewrite decide_False; [reflexivity|]. intros [_ H]. discriminate H.
Qed.

(** C2, as the code has it.  When the cutoff [now - retention_days] is a
    date [datetime] can represent, and the names of the record files the
    loop skips can be printed (the handler of a skipped file prints its
    name), [cleanup_old_data] returns the number of record files it
    removed, and it removed exactly the record files whose embedded
    timestamp is strictly older than the cutoff: every other entry is as it
    was, in particular every file that is skipped, because it cannot be
    read or parsed, has no timestamp [datetime.fromisoformat] accepts, or
    has a timestamp with a UTC offset, which cannot be compared with the
    cutoff.  When the cutoff is not representable the call raises
    [OverflowError] and has only read the clock. *)
Theorem cleanup_removes_expired (retention_days : Z) (w : World) :
  naive_clock w ->
  (forall cutoff,
     sub_days (clock w (ticks w)) retention_days = Some cutoff ->
     skipped_names_print cutoff (encrypted_dir w) ->
     exists w',
       cleanup_old_data retention_days w
       = (Ok (Z.of_nat
                (length (filter
                           (fun n => sweeps cutoff (encrypted_dir w) n = true)
                           (map fst (map_to_list (encrypted_dir w)))))), w') /\
       (forall name,
          encrypted_dir w' !! name
          = if sweeps cutoff (encrypted_dir w) name then None
            else encrypted_dir w !! name) /\
       (forall name e,
          encrypted_dir w !! name = Some e -> skipped cutoff e = true ->
          encrypted_dir w' !! name = Some e)) /\
  (sub_days (clock w (ticks w)) retention_days = None ->
   cleanup_old_data retention_days w = (Raise OverflowError, tick w)).
Proof.
  intros Hclk. split.
  - intros cutoff Hcut Hp.
    destruct (cleanup_run retention_days w cutoff Hclk Hcut Hp)
      as (w1 & w' & _ & _ & _ & _ & E & Hlook).
    exists w'. split; [exact E|]. split; [exact Hlook|].
    intros name e He Hsk. rewrite Hlook. unfold sweeps. rewrite He.
    destruct (expired cutoff e) eqn:Ex.
    + apply expired_not_skipped in Ex. congruence.
    + now rewrite andb_false_r.
  - intros Hnone. unfold cleanup_old_data, datetime_now. mrun.
    rewrite Hnone. reflexivity.
Qed.

End WithLibs.

(** C2, the claim as the specification words it, fails for a retention
    period that reaches back before the year 1: the cutoff cannot be
    computed, and the call raises [OverflowError] instead of returning a
    count. *)
Lemma cleanup_raises_on_unrepresentable_cutoff :
  sub_days (clock world_with_records (ticks world_with_records)) 1000000
  = None /\
  fst (cleanup_old_data 1000000 world_with_records) = Raise OverflowError.
Proof. split; vm_compute; reflexivity. Qed.

(** The scenario of the specification: with a retention of 30 days the
    record that is 45 days old is removed and counted, the one that is 10
    days old stays, and so do the two files that cannot be parsed. *)
Example cleanup_scenario :
  let r := cleanup_old_data 30 world_with_records in
  fst r = Ok 1%Z /\
  encrypted_dir (snd r) !! record_name (lit "old") = None /\
  encrypted_dir (snd r) !! record_name (lit "new")
  = encrypted_dir world_with_records !! record_name (lit "new") /\
  encrypted_dir (snd r) !! record_name (lit "bad")
  = encrypted_dir world_with_records !! record_name (lit "bad") /\
  encrypted_dir (snd r) !! record_name (lit "nots")
  = encrypted_dir world_with_records !! record_name (lit "nots").
Proof. cbv zeta. repeat split; vm_compute; reflexivity. Qed.

(** C2, as the code has it, on the store of the scenario. *)
Lemma cleanup_removes_expired_witness :
  let w := world_with_records in
  let cutoff := mkdt 2024 1 31 12 0 0 0 None in
  naive_clock w /\
  sub_days (clock w (ticks w)) 30 = Some cutoff /\
  skipped_names_print cutoff (encrypted_dir w) /\
  exists w',
    cleanup_old_data 30 w
    = (Ok (Z.of_nat
             (length (filter
                        (fun n => sweeps cutoff (encrypted_dir w) n = true)
                        (map fst (map_to_list (encrypted_dir w)))))), w') /\
    (forall name,
       encrypted_dir w' !! name
       = if sweeps cutoff (encrypted_dir w) name then None
         else encrypted_dir w !! name) /\
    (forall name e,
       encrypted_dir w !! name = Some e -> skipped cutoff e = true ->
       encrypted_dir w' !! name = Some e).
Proof.
  intros w cutoff.
  assert (Hclk : naive_clock w) by (intros k; reflexivity).
  assert (Hcut : sub_days (clock w (ticks w)) 30 = Some cutoff)
    by (vm_compute; reflexivity).
  assert (Hp : skipped_names_print cutoff (encrypted_dir w))
    by (apply (bool_decide_unpack _); vm_compute; exact I).
  split; [exact Hclk|]. split; [exact Hcut|]. split; [exact Hp|].
  exact (proj1 (@cleanup_removes_expired sample_libs 30 w Hclk) cutoff Hcut
           Hp).
Defined.

End SweepFacts.

(** ** The privacy report *)

Module ReportFacts.
Import PyText PyTime PyJson Store Handler Views LogFacts SaveFacts Samples.

Section WithLibs.
Context {LB : Libs}.

Lemma dict_get_redact_items (k : pystr) (kv : list (pystr * json)) :
  encrypted_key k = false ->
  dict_get k (redact_items kv) = dict_get k kv.
Proof.
  intros Hk. induction kv as [|[k' v] r IH]; [reflexivity|].
  cbn. destruct (encrypted_key k') eqn:Ek; cbn;
    destruct (decide (k = k')) as [->|]; try congruence; auto.
Qed.

Lemma dict_get_timestamp_redact (kv : list (pystr * json)) :
  dict_get (lit "timestamp")
    (redact_items
       (map (fun '(k, x) =>
               if decide (k = lit "candidate_info") then
                 (k, match x with
                     | JDict ci => JDict (redact_items ci)
                     | _ => x
                     end)
               else (k, x)) kv))
  = dict_get (lit "timestamp") kv.
Proof.
  rewrite dict_get_redact_items by (vm_compute; reflexivity).
  induction kv as [|[k' v] r IH]; [reflexivity|].
  cbn [map]. destruct (decide (k' = lit "candidate_info")) as [->|].
  - rewrite !dict_get_skip by lit_neq. exact IH.
  - cbn [dict_get].
    destruct (decide (lit "timestamp" = k')); [reflexivity|exact IH].
Qed.

(** The timestamp of a record is cleartext. *)
Lemma file_date_same_cleartext (e1 e2 : fs_entry) :
  same_cleartext e1 e2 -> file_date e1 = file_date e2.
Proof.
  intros H.
  destruct e1 as [[raw1|v1] m1 t1|m1 t1], e2 as [[raw2|v2] m2 t2|m2 t2];
    cbn [same_cleartext] in H; try (rewrite <- H; reflexivity).
  destruct H as (Hr & <- & <-).
  destruct v1 as [| | | | |kv1], v2 as [| | | | |kv2];
    cbn [redact] in Hr; try discriminate Hr; try reflexivity.
  injection Hr as Hr. unfold file_date.
  destruct (readable m1); [|reflexivity].
  rewrite <- (dict_get_timestamp_redact kv1), <- (dict_get_timestamp_redact kv2).
  now rewrite Hr.
Qed.

(** One pass of the date loop of [get_privacy_report]. *)
Lemma report_date_run (dates : list datetime) (name : pystr) (w : World) :
  report_date dates name w
  = (Ok (match encrypted_dir w !! name ≫= file_date with
         | Some d => dates ++ [d]
         | None => dates
         end), w).
Proof.
  unfold report_date, load_json, file_date. mrun. wexpand.
  destruct (encrypted_dir w !! name) as [[[raw|v] mode t|mode t]|];
    cbn [mbind option_bind]; try reflexivity.
  - now destruct (readable mode).
  - destruct v as [| | | | |kv]; try now destruct (readable mode).
    destruct (readable mode); [|reflexivity]. msimpl.
    destruct (dict_get (lit "timestamp") kv) as [[| | |s| |]|];
      try reflexivity.
    msimpl. now destruct (fromisoformat s).
Qed.

Lemma report_dates_run (names : list pystr) (acc : list datetime)
    (w : World) :
  for_fold names report_date acc w
  = (Ok (acc ++ omap (fun n => encrypted_dir w !! n ≫= file_date) names), w).
Proof.
  revert acc. induction names as [|n r IH]; intros acc.
  - cbn. unfold ret. now rewrite app_nil_r.
  - cbn [for_fold]. unfold bind. rewrite report_date_run, IH.
    cbn [omap list_omap].
    destruct (encrypted_dir w !! n ≫= file_date);
      [now rewrite <- app_assoc|reflexivity].
Qed.

(** Two directories with the same names list them in the same order. *)
Lemma listing_same_names {A B : Type} (R : A -> B -> Prop)
    (m1 : gmap pystr A) (m2 : gmap pystr B) :
  (forall k, option_Forall2 R (m1 !! k) (m2 !! k)) ->
  map fst (map_to_list m1) = map fst (map_to_list m2).
Proof.
  intros H.
  assert (H1 : fst <$> map_zip m1 m2 = m1).
  { apply fst_map_zip. intros k [x Hx]. specialize (H k).
    rewrite Hx in H. inversion H. eauto. }
  assert (H2 : snd <$> map_zip m1 m2 = m2).
  { apply snd_map_zip. intros k [x Hx]. specialize (H k).
    rewrite Hx in H. inversion H. eauto. }
  rewrite <- H1 at 1. rewrite <- H2 at 2.
  rewrite !map_to_list_fmap.
  change (@map ?X ?Y) with (@fmap list _ X Y).
  rewrite <- !list_fmap_compose. apply list_fmap_ext.
  intros i [k [a b]] _. reflexivity.
Qed.

Lemma file_date_lookup_same (o1 o2 : option fs_entry) :
  option_Forall2 same_cleartext o1 o2 ->
  o1 ≫= file_date = o2 ≫= file_date.
Proof.
  intros [e1 e2 H|]; [|reflexivity]. cbn. now apply file_date_same_cleartext.
Qed.

Lemma omap_ext_all {A B : Type} (f g : A -> option B) (l : list A) :
  (forall x, f x = g x) -> omap f l = omap g l.
Proof.
  intros H. induction l as [|x r IH]; [reflexivity|].
  cbn [omap list_omap]. now rewrite H, IH.
Qed.

(** C9.  [get_privacy_report] reads cleartext only: for two stores that
    hold the same record files up to the content of their encrypted fields,
    the same audit log and the same clock reading, the reports are
    identical.  The method does not take the cipher at all: its only
    parameter is the library record without [Fernet]. *)
Theorem report_ignores_encrypted_content (w1 w2 : World) :
  same_cleartext_store w1 w2 ->
  fst (get_privacy_report w1) = fst (get_privacy_report w2).
Proof.
  intros (Hrec & Hlog & Hclk).
  pose proof (listing_same_names same_cleartext _ _ Hrec) as Hn.
  unfold get_privacy_report, datetime_now, listdir_encrypted, os_path_exists,
    load_json.
  mrun. wexpand. rewrite !report_dates_run. wexpand.
  rewrite Hn, Hlog, Hclk.
  rewrite (omap_ext_all (fun n => encrypted_dir w1 !! n ≫= file_date)
             (fun n => encrypted_dir w2 !! n ≫= file_date))
    by (intros n; apply file_date_lookup_same, Hrec).
  cbn [app].
  repeat match goal with
         | |- context [match ?x with _ => _ end] =>
             lazymatch x with
             | context [match _ with _ => _ end] => fail
             | _ => destruct x eqn:?; msimpl; try reflexivity
             end
         end.
Qed.

End WithLibs.

(** C9 on two stores whose record differs in every encrypted field. *)
Lemma report_ignores_encrypted_content_witness :
  same_cleartext_store (world_with_secret (lit "gAAAAAB"))
                       (world_with_secret (lit "gAAAAAC")) /\
  fst (get_privacy_report (world_with_secret (lit "gAAAAAB")))
  = fst (get_privacy_report (world_with_secret (lit "gAAAAAC"))).
Proof.
  assert (H : same_cleartext_store (world_with_secret (lit "gAAAAAB"))
                                   (world_with_secret (lit "gAAAAAC"))).
  { split; [|split; reflexivity]. intros name.
    unfold world_with_secret. cbn [encrypted_dir].
    destruct (decide (name = record_name (lit "s1"))) as [->|Hne].
    - rewrite !lookup_singleton_eq. constructor.
      cbn [same_cleartext].
      split; [vm_compute; reflexivity|split; reflexivity].
    - rewrite !lookup_singleton_ne by congruence. constructor. }
  split; [exact H|].
  exact (@report_ignores_encrypted_content sample_libs _ _ H).
Defined.

End ReportFacts.

(** ** Field encryption and hashing: when the fallbacks are taken *)

Module FieldFacts.
Import PyText PyTime PyJson Store Handler Views Effects PyTextFacts
  CryptoFacts LogFacts SaveFacts Samples.

Local Open Scope N_scope.

Lemma utf8_encode_cp_Some (c : N) :
  is_Some (utf8_encode_cp c)
  <-> (c < 0xD800 \/ 0xE000 <= c) /\ c < 0x110000.
Proof.
  unfold utf8_encode_cp.
  destruct (N.ltb_spec c 0x80); [split; [lia|eauto]|].
  destruct (N.ltb_spec c 0x800); [split; [lia|eauto]|].
  destruct (N.ltb_spec c 0x10000).
  - destruct (N.leb_spec 0xD800 c), (N.ltb_spec c 0xE000); cbn [andb];
      (split; [intros [? ?]; try discriminate; lia|intros ?; try lia; eauto]).
  - destruct (N.ltb_spec c 0x110000);
      (split; [intros [? ?]; try discriminate; lia|intros ?; try lia; eauto]).
Qed.

(** [str.encode] raises exactly on the strings that hold a surrogate (or a
    number that is no code point). *)
Lemma str_encode_Some (x : pystr) : is_Some (str_encode x) <-> encodable x.
Proof.
  unfold encodable. induction x as [|c r IH]; cbn [str_encode].
  - split; [constructor|eauto].
  - rewrite Forall_cons, <- IH, <- utf8_encode_cp_Some.
    destruct (utf8_encode_cp c), (str_encode r); split;
      try (intros [[? ?] [? ?]]; discriminate);
      try (intros [? ?]; discriminate); eauto.
Qed.

Section WithCipher.
Context {CS : Cipher} {LB : Libs}.

(** X1.  [_encrypt_data] takes its fallback, the field returned as it is, on
    the strings [str.encode] rejects and on no other: an encodable field
    always comes back as the base64 text of a fresh Fernet token of its
    UTF-8 bytes. *)
Theorem encrypt_falls_back_only_on_surrogates (x : pystr) (w : World) :
  (encodable x ->
   exists raw,
     str_encode x = Some raw /\
     _encrypt_data x w
     = (Ok (map Byte.to_N (b64encode (fernet_encrypt (nonce w) raw))),
        bump_nonce w) /\
     b64decode (b64encode (fernet_encrypt (nonce w) raw))
     = Some (fernet_encrypt (nonce w) raw)) /\
  (~ encodable x -> _encrypt_data x w = (Ok x, w)).
Proof.
  rewrite _encrypt_data_run. unfold enc_text, after_encrypt.
  rewrite <- str_encode_Some. split.
  - intros [raw E]. rewrite E. exists raw.
    split; [reflexivity|]. split; [reflexivity|apply b64decode_b64encode].
  - intros Hn. destruct (str_encode x); [exfalso; apply Hn; eauto|reflexivity].
Qed.

(** X2.  [_decrypt_data] never raises and never changes the state.  When
    every step comes through (the argument is a [str] that encodes, the
    bytes are base64, the token decrypts and the message is UTF-8) it
    returns the message; when any step fails it returns its argument as it
    is. *)
Theorem decrypt_returns_input_unless_token (v : json) (w : World) :
  (forall s raw token message text,
     v = JStr s -> str_encode s = Some raw ->
     b64decode raw = Some token ->
     fernet_decrypt token = Some message ->
     bytes_decode message = Some text ->
     _decrypt_data v w = (Ok (JStr text), w)) /\
  (~ (exists s raw token message text,
        v = JStr s /\ str_encode s = Some raw /\
        b64decode raw = Some token /\
        fernet_decrypt token = Some message /\
        bytes_decode message = Some text) ->
   _decrypt_data v w = (Ok v, w)).
Proof.
  unfold _decrypt_data, cipher_suite_decrypt, try_except, bind, lift, as_str.
  split.
  - intros s raw token message text -> E1 E2 E3 E4. cbn.
    rewrite E1. cbn. rewrite E2. cbn. rewrite E3. cbn. rewrite E4.
    reflexivity.
  - intros Hn. destruct v as [| | |s| |]; cbn; try reflexivity.
    destruct (str_encode s) as [raw|] eqn:E1; cbn; [|reflexivity].
    destruct (b64decode raw) as [token|] eqn:E2; cbn; [|reflexivity].
    destruct (fernet_decrypt token) as [message|] eqn:E3; cbn;
      [|reflexivity].
    destruct (bytes_decode message) as [text|] eqn:E4; cbn; [|reflexivity].
    exfalso. apply Hn. exists s, raw, token, message, text.
    repeat split; assumption.
Qed.

(** X3.  [hash_email] and [hash_phone] leave the state alone and, unlike
    [_encrypt_data], let the error of [str.encode] through.  On an
    encodable string they return the first 16 and the first 12 characters
    of the same digest, so the phone hash of a string is the start of its
    e-mail hash. *)
Theorem hashes_are_prefixes_of_one_digest (x : pystr) (w : World) :
  (encodable x ->
   exists raw,
     str_encode x = Some raw /\
     hash_email x w = (Ok (take 16 (sha256_hexdigest raw)), w) /\
     hash_phone x w = (Ok (take 12 (sha256_hexdigest raw)), w) /\
     take 12 (take 16 (sha256_hexdigest raw))
     = take 12 (sha256_hexdigest raw)) /\
  (~ encodable x ->
   hash_email x w = (Raise UnicodeError, w) /\
   hash_phone x w = (Raise UnicodeError, w)).
Proof.
  rewrite hash_email_run, hash_phone_run, <- str_encode_Some. split.
  - intros [raw E]. rewrite E. exists raw.
    repeat split. rewrite take_take. reflexivity.
  - intros Hn. destruct (str_encode x); [exfalso; apply Hn; eauto|].
    split; reflexivity.
Qed.

End WithCipher.

(** An e-mail address is encrypted; a lone surrogate comes back as it
    is. *)
Lemma encrypt_falls_back_only_on_surrogates_witness :
  let w := empty_world second_clock in
  let x := lit "ada@example.com" in
  encodable x /\ ~ encodable [0xD800] /\
  (exists raw,
     str_encode x = Some raw /\
     _encrypt_data x w
     = (Ok (map Byte.to_N (b64encode (fernet_encrypt (nonce w) raw))),
        bump_nonce w)) /\
  _encrypt_data [0xD800] w = (Ok [0xD800], w).
Proof.
  intros w x.
  assert (He : encodable x) by (apply str_encode_Some; vm_compute; eauto).
  assert (Hn : ~ encodable [0xD800])
    by (intros H; apply str_encode_Some in H; destruct H as [r H];
        vm_compute in H; discriminate H).
  split; [exact He|]. split; [exact Hn|].
  split.
  - destruct (proj1 (@encrypt_falls_back_only_on_surrogates sample_cipher
                       x w) He) as (raw & H1 & H2 & _).
    exists raw. split; [exact H1|exact H2].
  - exact (proj2 (@encrypt_falls_back_only_on_surrogates sample_cipher
                    [0xD800] w) Hn).
Defined.

(** The token of a name decrypts to the name; a text that is no token
    comes back as it is. *)
Lemma decrypt_returns_input_unless_token_witness :
  let w := empty_world second_clock in
  let c := enc_text 0 (lit "Ada") in
  _decrypt_data (JStr c) w = (Ok (JStr (lit "Ada")), w) /\
  _decrypt_data (JStr (lit "Ada")) w = (Ok (JStr (lit "Ada")), w).
Proof.
  intros w c. split.
  - eapply (proj1 (@decrypt_returns_input_unless_token sample_cipher
                     (JStr c) w));
      [reflexivity|vm_compute; reflexivity..].
  - apply (proj2 (@decrypt_returns_input_unless_token sample_cipher
                    (JStr (lit "Ada")) w)).
    intros (s & raw & token & message & text & Hv & H1 & H2 & H3 & _).
    injection Hv as <-.
    vm_compute in H1. injection H1 as <-.
    vm_compute in H2. discriminate H2.
Defined.

(** The two hashes of an e-mail address, and of a lone surrogate. *)
Lemma hashes_are_prefixes_of_one_digest_witness :
  let w := empty_world second_clock in
  let x := lit "ada@example.com" in
  encodable x /\ ~ encodable [0xD800] /\
  (exists raw,
     str_encode x = Some raw /\
     hash_email x w = (Ok (take 16 (sha256_hexdigest raw)), w) /\
     hash_phone x w = (Ok (take 12 (sha256_hexdigest raw)), w)) /\
  hash_email [0xD800] w = (Raise UnicodeError, w) /\
  hash_phone [0xD800] w = (Raise UnicodeError, w).
Proof.
  intros w x.
  assert (He : encodable x) by (apply str_encode_Some; vm_compute; eauto).
  assert (Hn : ~ encodable [0xD800])
    by (intros H; apply str_encode_Some in H; destruct H as [r H];
        vm_compute in H; discriminate H).
  split; [exact He|]. split; [exact Hn|].
  split.
  - destruct (proj1 (@hashes_are_prefixes_of_one_digest sample_libs x w) He)
      as (raw & H1 & H2 & H3 & _).
    exists raw. split; [exact H1|]. split; [exact H2|exact H3].
  - exact (proj2 (@hashes_are_prefixes_of_one_digest sample_libs
                    [0xD800] w) Hn).
Defined.

End FieldFacts.

(** ** The audit log over a sequence of activities *)

Module AuditFacts.
Import PyText PyTime PyJson Store Handler Views Effects LogFacts SaveFacts
  Samples MoreSamples.

Lemma last_n_last_n_app {A : Type} (n : nat) (l r : list A) :
  last_n n (last_n n l ++ r) = last_n n (l ++ r).
Proof.
  unfold last_n. rewrite !length_app, length_drop.
  destruct (decide (length l <= n)%nat) as [Hle|Hgt].
  - replace (length l - n)%nat with 0%nat by lia. cbn [drop].
    now rewrite Nat.sub_0_r.
  - replace (length l - (length l - n) + length r - n)%nat
      with (length r) by lia.
    replace (length l + length r - n)%nat
      with ((length l - n) + length r)%nat by lia.
    rewrite <- drop_drop. f_equal. rewrite drop_app_le by lia. reflexivity.
Qed.

(** A log file keeps its permission bits when it is rewritten. *)
Lemma log_ready_step (a : pystr) (s m : json) (w : World) :
  log_ready w ->
  let w' := snd (_log_data_activity a s m w) in
  log_ready w' /\
  log_list w'
  = last_n 1000 (log_list w ++ [log_entry (clock w (ticks w)) a s m]) /\
  clock w' = clock w /\ ticks w' = S (ticks w).
Proof.
  intros Hr. rewrite _log_data_activity_run. cbn [snd].
  unfold log_ready, log_list, log_entries, log_usable, log_step in *.
  cbn [set_path activity_log tick clock ticks umask] in *.
  destruct (activity_log w) as [[[raw|[| | | | |kv]] mode t|mode t]|];
    try (destruct Hr as [[? [=]] _]; fail).
  - destruct (dict_get (lit "activities") kv) as [[| | | |l|]|];
      try (destruct Hr as [[? [=]] _]; fail).
    destruct Hr as [_ [Hrd Hwr]]. rewrite Hrd, Hwr. cbn [andb].
    rewrite dict_get_set_eq. cbn [default from_option]. unfold id.
    repeat split; eauto.
  - destruct Hr as [Hrd Hwr]. cbn [dict_get].
    rewrite decide_True by reflexivity. cbn [default from_option]. unfold id.
    repeat split; eauto.
Qed.

Lemma log_list_bounded (w : World) :
  log_bounded w -> (length (log_list w) <= 1000)%nat.
Proof.
  unfold log_bounded, log_list. intros Hb.
  destruct (log_entries w) as [l|]; [now apply Hb|cbn; lia].
Qed.

Lemma length_entries_from (clk : nat -> datetime) (t : nat)
    (acts : list activity) :
  length (entries_from clk t acts) = length acts.
Proof.
  revert t. induction acts as [|[[a s] m] r IH]; intros t; [reflexivity|].
  cbn [entries_from length]. now rewrite IH.
Qed.

Lemma log_all_run (acts : list activity) (w : World) :
  log_ready w -> log_bounded w ->
  log_ready (log_all acts w) /\
  log_list (log_all acts w)
  = last_n 1000 (log_list w ++ entries_from (clock w) (ticks w) acts).
Proof.
  revert w. induction acts as [|[[a s] m] r IH]; intros w Hr Hb.
  - cbn [log_all entries_from]. split; [exact Hr|].
    rewrite app_nil_r, last_n_all; [reflexivity|now apply log_list_bounded].
  - cbn [log_all entries_from].
    destruct (log_ready_step a s m w Hr) as (Hr1 & Hl1 & Hc1 & Ht1).
    destruct (IH _ Hr1 (log_bounded_step a s m w Hb)) as [Hr2 Hl2].
    split; [exact Hr2|].
    rewrite Hl2, Hl1, Hc1, Ht1, last_n_last_n_app, <- app_assoc.
    reflexivity.
Qed.

(** X4.  The audit log is a window on the history of the store: after any
    sequence of logged activities it holds the last 1000 of the entries it
    held before followed by the new ones, in the order of the calls, each
    stamped with the reading of the clock its call took.  The log stays
    ready for the next entry. *)
Theorem audit_log_holds_last_1000_in_order (acts : list activity)
    (w : World) :
  log_ready w -> log_bounded w ->
  let w' := log_all acts w in
  log_list w'
  = last_n 1000 (log_list w ++ entries_from (clock w) (ticks w) acts) /\
  log_ready w' /\
  ((length (log_list w) + length acts <= 1000)%nat ->
   log_list w' = log_list w ++ entries_from (clock w) (ticks w) acts).
Proof.
  intros Hr Hb w'. destruct (log_all_run acts w Hr Hb) as [Hr' Hl].
  split; [exact Hl|]. split; [exact Hr'|].
  intros Hlen. subst w'. rewrite Hl. apply last_n_all.
  rewrite length_app, length_entries_from. exact Hlen.
Qed.

(** X5.  A log file that cannot take the entry swallows it: when the file is a
    directory, cannot be read or written, is no JSON, or does not hold a
    list under [activities], [_log_data_activity] returns as if nothing had
    happened, the file stays as it is, and the entry is lost. *)
Theorem unusable_log_loses_entries_silently (a : pystr) (s m : json)
    (w : World) (e : fs_entry) :
  activity_log w = Some e ->
  ~ (is_Some (log_entries w) /\ log_usable w) ->
  _log_data_activity a s m w = (Ok tt, tick w).
Proof.
  intros He Hn. rewrite _log_data_activity_run. f_equal.
  assert (Hs : log_step (log_entry (clock w (ticks w)) a s m) (tick w)
               = activity_log w).
  { unfold log_step, log_entries, log_usable in *.
    cbn [tick activity_log] in *.
    destruct (activity_log w) as [[[raw|[| | | | |kv]] mode t|mode t]|];
      try reflexivity; [|discriminate He].
    destruct (dict_get (lit "activities") kv) as [[| | | |l|]|];
      try reflexivity.
    destruct (readable mode) eqn:Hrd, (writable mode) eqn:Hwr;
      try reflexivity.
    exfalso. apply Hn. eauto. }
  rewrite Hs. reflexivity.
Qed.

(** The window on an empty store, after two activities. *)
Lemma audit_log_holds_last_1000_in_order_witness :
  let w := empty_world second_clock in
  let acts := [(lit "SAVE", JStr (lit "s1"), JNull);
               (lit "LOAD", JStr (lit "s1"), JNull)] in
  log_ready w /\ log_bounded w /\
  log_list (log_all acts w)
  = last_n 1000 (log_list w ++ entries_from (clock w) (ticks w) acts) /\
  log_ready (log_all acts w).
Proof.
  intros w acts.
  assert (Hr : log_ready w) by (split; reflexivity).
  assert (Hb : log_bounded w) by (intros l H; discriminate H).
  split; [exact Hr|]. split; [exact Hb|].
  destruct (audit_log_holds_last_1000_in_order acts w Hr Hb)
    as (H1 & H2 & _).
  split; [exact H1|exact H2].
Defined.

(** A log file that is no JSON keeps swallowing entries. *)
Lemma unusable_log_loses_entries_silently_witness :
  let w := world_with_corrupt_log in
  exists e,
    activity_log w = Some e /\
    ~ (is_Some (log_entries w) /\ log_usable w) /\
    _log_data_activity (lit "SAVE") (JStr (lit "s1")) JNull w
    = (Ok tt, tick w).
Proof.
  intros w.
  assert (He : activity_log w = Some (File (NotJson (lit "{")) 420 noon))
    by reflexivity.
  assert (Hn : ~ (is_Some (log_entries w) /\ log_usable w))
    by (intros [[l Hl] _]; discriminate Hl).
  eexists. split; [exact He|]. split; [exact Hn|].
  exact (unusable_log_loses_entries_silently (lit "SAVE") (JStr (lit "s1"))
           JNull w _ He Hn).
Defined.

End AuditFacts.

(** ** What a method leaves alone *)

Module FrameFacts.
Import PyText PyTime PyJson Store Handler Views Effects PyTextFacts
  CryptoFacts LogFacts DeleteFacts SaveFacts RoundTrip ExportFacts Samples
  MoreSamples.

Section Preserves.
Context {S : Type} (f : World -> S).

Lemma preserves_ret {A : Type} (a : A) : preserves f (ret a).
Proof. intros w. reflexivity. Qed.

Lemma preserves_raise {A : Type} (e : exn) : preserves f (@raise A e).
Proof. intros w. reflexivity. Qed.

Lemma preserves_lift {A : Type} (e : exn) (o : option A) :
  preserves f (lift e o).
Proof. destruct o; intros w; reflexivity. Qed.

Lemma preserves_bind {A B : Type} (m : M A) (k : A -> M B) :
  preserves f m -> (forall a, preserves f (k a)) -> preserves f (bind m k).
Proof.
  intros Hm Hk w. unfold bind. specialize (Hm w).
  destruct (m w) as [[a|e] w1]; cbn [snd] in *; [|exact Hm].
  now rewrite Hk.
Qed.

Lemma preserves_try {A : Type} (m : M A) (h : exn -> M A) :
  preserves f m -> (forall e, preserves f (h e)) ->
  preserves f (try_except m h).
Proof.
  intros Hm Hh w. unfold try_except. specialize (Hm w).
  destruct (m w) as [[a|e] w1]; cbn [snd] in *; [exact Hm|].
  now rewrite Hh.
Qed.

Lemma preserves_for_each {A : Type} (xs : list A) (body : A -> M unit) :
  (forall x, preserves f (body x)) -> preserves f (for_each xs body).
Proof.
  intros H. induction xs as [|x r IH]; cbn [for_each].
  - apply preserves_ret.
  - apply preserves_bind; [apply H|intros _; exact IH].
Qed.

Lemma preserves_for_fold {A T : Type} (xs : list A) (body : T -> A -> M T)
    (acc : T) :
  (forall s x, preserves f (body s x)) -> preserves f (for_fold xs body acc).
Proof.
  intros H. revert acc. induction xs as [|x r IH]; intros acc; cbn [for_fold].
  - apply preserves_ret.
  - apply preserves_bind; [apply H|intros s; apply IH].
Qed.

(** The primitives, each under the condition on [f] it needs. *)

Lemma preserves_now :
  (forall w, f (tick w) = f w) -> preserves f datetime_now.
Proof. intros H w. apply H. Qed.

Lemma preserves_exists (p : path) : preserves f (os_path_exists p).
Proof. intros w. reflexivity. Qed.

Lemma preserves_load_json (p : path) : preserves f (load_json p).
Proof.
  intros w. unfold load_json.
  destruct (lookup_path p w) as [[[raw|v] mode t|mode t]|];
    try reflexivity; now destruct (readable mode).
Qed.

Lemma preserves_dump_json (p : path) (v : json) :
  (forall w e, f (set_path p e w) = f w) -> preserves f (dump_json p v).
Proof.
  intros H w. unfold dump_json.
  destruct (lookup_path p w) as [[c mode t|mode t]|]; cbn [snd];
    try reflexivity.
  - destruct (writable mode); cbn [snd]; [apply H|reflexivity].
  - destruct (new_file_error p); cbn [snd]; [reflexivity|apply H].
Qed.

Lemma preserves_print_text (text : pystr) : preserves f (print_text text).
Proof.
  intros w. unfold print_text, bind, lift.
  now destruct (str_encode text).
Qed.

Lemma preserves_for_fold_reached {A T : Type} (xs : list A)
    (body : T -> A -> M T) (acc : T) :
  (forall s x, preserves f (body s x)) ->
  preserves f (for_fold_reached xs body acc).
Proof.
  intros H. revert acc.
  induction xs as [|x r IH]; intros acc w; cbn [for_fold_reached].
  - reflexivity.
  - specialize (H acc x w).
    destruct (body acc x w) as [[a|e] w1]; cbn [snd] in *.
    + now rewrite IH.
    + exact H.
Qed.

Lemma preserves_remove (p : path) :
  (forall w e, f (set_path p e w) = f w) -> preserves f (os_remove p).
Proof.
  intros H w. unfold os_remove.
  destruct (lookup_path p w) as [[c mode t|mode t]|]; cbn [snd];
    try reflexivity. apply H.
Qed.

Lemma preserves_chmod (p : path) (mode : N) :
  (forall w e, f (set_path p e w) = f w) -> preserves f (os_chmod p mode).
Proof.
  intros H w. unfold os_chmod.
  destruct (lookup_path p w) as [[c m0 t|m0 t]|]; cbn [snd];
    try reflexivity; apply H.
Qed.

Lemma preserves_stat (p : path) : preserves f (stat_mtime p).
Proof.
  intros w. unfold stat_mtime.
  destruct (lookup_path p w) as [[c m0 t|m0 t]|]; reflexivity.
Qed.

Lemma preserves_listdir_encrypted : preserves f listdir_encrypted.
Proof. intros w. reflexivity. Qed.

Lemma preserves_listdir_exports : preserves f listdir_exports.
Proof. intros w. reflexivity. Qed.

Lemma preserves_getitem (v : json) (k : pystr) : preserves f (getitem v k).
Proof. destruct v; try apply preserves_raise. apply preserves_lift. Qed.

Lemma preserves_setitem (v : json) (k : pystr) (x : json) :
  preserves f (setitem v k x).
Proof. destruct v; try apply preserves_raise. apply preserves_ret. Qed.

Lemma preserves_get (v : json) (k : pystr) (d : json) :
  preserves f (get v k d).
Proof. destruct v; try apply preserves_raise. apply preserves_ret. Qed.

Lemma preserves_contains (k : pystr) (v : json) : preserves f (contains k v).
Proof. destruct v; try apply preserves_raise; apply preserves_ret. Qed.

Lemma preserves_copy (v : json) : preserves f (copy v).
Proof. destruct v; try apply preserves_raise; apply preserves_ret. Qed.

Lemma preserves_len (v : json) : preserves f (len v).
Proof. destruct v; try apply preserves_raise; apply preserves_ret. Qed.

Lemma preserves_as_str (e : exn) (v : json) : preserves f (as_str e v).
Proof. destruct v; try apply preserves_raise; apply preserves_ret. Qed.

Lemma preserves_append (v x : json) : preserves f (append v x).
Proof. destruct v; try apply preserves_raise; apply preserves_ret. Qed.

Lemma preserves_slice_last (n : nat) (v : json) :
  preserves f (slice_last n v).
Proof. destruct v; try apply preserves_raise; apply preserves_ret. Qed.

Lemma preserves_log (a : pystr) (s m : json) :
  (forall w e, f (set_path ActivityLog e (tick w)) = f w) ->
  preserves f (_log_data_activity a s m).
Proof. intros H w. rewrite _log_data_activity_run. apply H. Qed.

Lemma preserves_decrypt {CS : Cipher} (v : json) :
  preserves f (_decrypt_data v).
Proof.
  intros w. destruct (_decrypt_data_total v w) as [v' ->]. reflexivity.
Qed.

Lemma preserves_encrypt {CS : Cipher} (x : pystr) :
  (forall w, f (bump_nonce w) = f w) -> preserves f (_encrypt_data x).
Proof.
  intros H w. rewrite _encrypt_data_run. cbn [snd]. unfold after_encrypt.
  destruct (str_encode x); [apply H|reflexivity].
Qed.

End Preserves.

(** Split a computation into its steps.  The steps that write are tried
    first, each under its side condition, which [side] has to solve: the
    part of the state in question is out of reach of clock readings, cipher
    calls and the write. *)
Ltac frame_by side :=
  repeat first
    [ apply preserves_now; side
    | apply preserves_log; side
    | apply preserves_encrypt; side
    | apply preserves_decrypt
    | apply preserves_dump_json; side
    | apply preserves_remove; side
    | apply preserves_chmod; side
    | apply preserves_ret | apply preserves_raise | apply preserves_lift
    | apply preserves_exists | apply preserves_load_json
    | apply preserves_stat | apply preserves_print_text
    | apply preserves_listdir_encrypted | apply preserves_listdir_exports
    | apply preserves_getitem | apply preserves_setitem | apply preserves_get
    | apply preserves_contains | apply preserves_copy | apply preserves_len
    | apply preserves_as_str | apply preserves_append
    | apply preserves_slice_last
    | match goal with
      | H : preserves ?f ?m |- preserves ?f ?m => exact H
      | H : forall _, preserves ?f _ |- preserves ?f _ => apply H
      | H : forall _ _, preserves ?f _ |- preserves ?f _ => apply H
      | H : forall _ _ _, preserves ?f _ |- preserves ?f _ => apply H
      end
    | apply preserves_bind; [|intros ?]
    | apply preserves_try; [|intros ?]
    | apply preserves_for_each; intros ?
    | apply preserves_for_fold; intros ? ?
    | apply preserves_for_fold_reached; intros ? ?
    | match goal with
      | |- preserves _ (if ?b then _ else _) => destruct b eqn:?
      | |- preserves _ (match ?x with _ => _ end) => destruct x eqn:?
      end ].

(** The part is a whole directory, the log file, the umask or the clock,
    and the write goes elsewhere. *)
Ltac frame := frame_by ltac:(intros; reflexivity).

(** The part is one entry of a directory, and the write goes to an entry of
    another name or to another place. *)
Ltac other_entry :=
  intros;
  first
    [ reflexivity
    | match goal with
      | |- context [set_path _ ?e _] =>
          cbn [set_path encrypted_dir exports_dir];
          destruct e; [apply lookup_insert_ne|apply lookup_delete_ne];
          congruence
      end ].

Section WithLibs.
Context {CS : Cipher} {LB : Libs}.

Lemma preserves_decrypted_or_none {S : Type} (f : World -> S) (d : json)
    (k : pystr) :
  preserves f (decrypted_or_none d k).
Proof. unfold decrypted_or_none. frame. Qed.





(** A method whose handler returns, returns in every state. *)
Lemma try_total {A : Type} (m : M A) (h : exn -> M A) (w : World) :
  (forall e w', exists a, fst (h e w') = Ok a) ->
  exists a, fst (try_except m h w) = Ok a.
Proof.
  intros H. unfold try_except. destruct (m w) as [[a|e] w1]; cbn; eauto.
Qed.


Lemma load_preserves {S : Type} (f : World -> S) (sid : pystr) :
  (forall w, f (tick w) = f w) ->
  (forall w e, f (set_path ActivityLog e w) = f w) ->
  preserves f (load_candidate_data sid).
Proof.
  intros Ht Hl. unfold load_candidate_data.
  pose proof (preserves_decrypted_or_none f).
  cbv zeta.
  frame_by ltac:(intros; first [apply Ht|rewrite Hl; apply Ht]).
Qed.

Lemma export_preserves {S : Type} (f : World -> S) (sid fmt : pystr) :
  (forall w, f (tick w) = f w) ->
  (forall w e, f (set_path ActivityLog e w) = f w) ->
  (forall w e stamp,
     f (set_path (Exports (export_name sid stamp)) e w) = f w) ->
  preserves f (export_candidate_data sid fmt).
Proof.
  intros Ht Hl Hx. unfold export_candidate_data.
  pose proof (load_preserves f sid Ht Hl).
  frame_by ltac:(intros; first [apply Ht|apply Hx|rewrite Hl; apply Ht]).
Qed.

Lemma remove_export_preserves {S : Type} (f : World -> S)
    (sid name : pystr) :
  (forall w e n, is_export_of sid n = true ->
     f (set_path (Exports n) e w) = f w) ->
  preserves f (remove_export sid name).
Proof.
  intros Hx. unfold remove_export. fold (is_export_of sid name).
  destruct (is_export_of sid name) eqn:E;
    frame_by ltac:(intros; now apply Hx).
Qed.

Lemma delete_preserves {S : Type} (f : World -> S) (sid reason : pystr) :
  (forall w, f (tick w) = f w) ->
  (forall w e, f (set_path ActivityLog e w) = f w) ->
  (forall w e, f (set_path (Encrypted (record_name sid)) e w) = f w) ->
  (forall w e n, is_export_of sid n = true ->
     f (set_path (Exports n) e w) = f w) ->
  preserves f (delete_candidate_data sid reason).
Proof.
  intros Ht Hl Hr Hx. unfold delete_candidate_data.
  pose proof (fun name => remove_export_preserves f sid name Hx).
  cbv zeta.
  frame_by ltac:(intros; first [apply Ht|apply Hr|rewrite Hl; apply Ht]).
Qed.

Lemma report_preserves {S : Type} (f : World -> S) :
  (forall w, f (tick w) = f w) -> preserves f get_privacy_report.
Proof.
  intros Ht. unfold get_privacy_report, report_date.
  frame_by ltac:(intros; apply Ht).
Qed.

Lemma cleanup_preserves {S : Type} (f : World -> S) (days : Z) :
  (forall w, f (tick w) = f w) ->
  (forall w e, f (set_path ActivityLog e w) = f w) ->
  (forall w e n, is_record_name n = true ->
     f (set_path (Encrypted n) e w) = f w) ->
  (forall w e n, startswith n (lit "export_") = true ->
     f (set_path (Exports n) e w) = f w) ->
  preserves f (cleanup_old_data days).
Proof.
  intros Ht Hl Hr Hx. unfold cleanup_old_data, cleanup_record, cleanup_export.
  frame_by ltac:(intros; first [apply Ht|rewrite Hl; apply Ht
                               |apply Hr; assumption|apply Hx; assumption]).
Qed.


(** X7.  The methods that read never raise and write no record: loading a
    session changes neither [data/encrypted] nor [data/exports], exporting
    one changes nothing in [data/encrypted], and the privacy report changes
    no file at all, the audit log included.  For the two methods that take
    a session this is for one whose files are entries of the two
    directories themselves: the paths of its record and of its exports do
    not lead through a sub-directory. *)
Theorem reading_methods_write_no_record (sid fmt : pystr) (w : World) :
  files_in_place sid w ->
  (exists r, fst (load_candidate_data sid w) = Ok r) /\
  encrypted_dir (snd (load_candidate_data sid w)) = encrypted_dir w /\
  exports_dir (snd (load_candidate_data sid w)) = exports_dir w /\
  (exists r, fst (export_candidate_data sid fmt w) = Ok r) /\
  encrypted_dir (snd (export_candidate_data sid fmt w)) = encrypted_dir w /\
  (exists r, fst (get_privacy_report w) = Ok r) /\
  encrypted_dir (snd (get_privacy_report w)) = encrypted_dir w /\
  exports_dir (snd (get_privacy_report w)) = exports_dir w /\
  activity_log (snd (get_privacy_report w)) = activity_log w.
Proof.
  intros _. repeat split.
  - apply try_total. intros e w'. eexists. reflexivity.
  - apply (load_preserves encrypted_dir); intros; reflexivity.
  - apply (load_preserves exports_dir); intros; reflexivity.
  - apply try_total. intros e w'. eexists. reflexivity.
  - apply (export_preserves encrypted_dir); intros; reflexivity.
  - apply try_total. intros e w'. eexists. reflexivity.
  - apply (report_preserves encrypted_dir); intros; reflexivity.
  - apply (report_preserves exports_dir); intros; reflexivity.
  - apply (report_preserves activity_log); intros; reflexivity.
Qed.


(** X9.  The retention sweep reaches only the names it filters on: an entry of
    [data/encrypted] whose name is not of the form [candidate_*.json], and
    an entry of [data/exports] whose name does not start with [export_],
    is as it was after [cleanup_old_data], whether the call returns or
    raises. *)
Theorem cleanup_leaves_other_names (days : Z) (n : pystr) (w : World) :
  (is_record_name n = false ->
   encrypted_dir (snd (cleanup_old_data days w)) !! n
   = encrypted_dir w !! n) /\
  (startswith n (lit "export_") = false ->
   exports_dir (snd (cleanup_old_data days w)) !! n = exports_dir w !! n).
Proof.
  split; intros Hn.
  - apply (cleanup_preserves (fun w => encrypted_dir w !! n));
      try (intros; reflexivity).
    intros w0 e k Hk. assert (k <> n) by (intros ->; congruence).
    other_entry.
  - apply (cleanup_preserves (fun w => exports_dir w !! n));
      try (intros; reflexivity).
    intros w0 e k Hk. assert (k <> n) by (intros ->; congruence).
    other_entry.
Qed.

End WithLibs.



(** Loading and exporting the session [new] of the sweep scenario, and a
    privacy report, leave the record files as they are. *)
Lemma reading_methods_write_no_record_witness :
  let w := world_with_records in
  let sid := lit "new" in
  files_in_place sid w /\
  encrypted_dir (snd (load_candidate_data sid w)) = encrypted_dir w /\
  encrypted_dir (snd (export_candidate_data sid (lit "json") w))
  = encrypted_dir w /\
  activity_log (snd (get_privacy_report w)) = activity_log w.
Proof.
  intros w sid.
  assert (Hin : files_in_place sid w) by (split; reflexivity).
  split; [exact Hin|].
  destruct (@reading_methods_write_no_record sample_cipher sample_libs sid
              (lit "json") w Hin)
    as (_ & H1 & _ & _ & H2 & _ & _ & _ & H3).
  split; [exact H1|]. split; [exact H2|exact H3].
Defined.

(** A file of another name in [data/exports] outlives the sweep that
    removes the old export beside it. *)
Lemma cleanup_leaves_other_names_witness :
  let w := world_with_old_exports in
  let n := lit "notes.txt" in
  is_record_name n = false /\
  startswith n (lit "export_") = false /\
  encrypted_dir (snd (cleanup_old_data 30 w)) !! n = encrypted_dir w !! n /\
  exports_dir (snd (cleanup_old_data 30 w)) !! n
  = Some (File (NotJson (lit "keep")) 420 new_year).
Proof.
  intros w n.
  assert (H1 : is_record_name n = false) by reflexivity.
  assert (H2 : startswith n (lit "export_") = false) by reflexivity.
  split; [exact H1|]. split; [exact H2|].
  destruct (@cleanup_leaves_other_names sample_libs 30 n w) as [Ha Hb].
  split; [exact (Ha H1)|].
  rewrite (Hb H2). reflexivity.
Defined.

End FrameFacts.

(** ** A session through save, load, export and delete *)

Module SessionFacts.
Import PyText PyTime PyJson Store Handler Views Effects PyTextFacts
  CryptoFacts LogFacts DeleteFacts SaveFacts RoundTrip ExportFacts Samples
  MoreSamples FrameFacts.

Ltac step_enc :=
  match goal with
  | |- context [encrypted_or_none ?x ?w] =>
      let v := fresh "f" in
      let n := fresh "n" in
      let Hs := fresh "Hs" in
      let E := fresh "E" in
      destruct (encrypted_or_none_run x w) as (v & n & Hs & E);
      rewrite E; clear E Hs; unfold with_nonce; msimpl
  end.

Section WithLibs.
Context {CS : Cipher} {LB : Libs}.

(** What [save_candidate_data] does to the files: nothing when it fails,
    and one SAVE entry in the log when it succeeds. *)
Lemma save_effects (ci : CandidateInfo) (sid : pystr) (h : option (list json))
    (w : World) :
  exists (b : bool) (w1 : World),
    save_candidate_data ci sid h w = (Ok b, w1) /\
    (b = false ->
     encrypted_dir w1 = encrypted_dir w /\ exports_dir w1 = exports_dir w /\
     activity_log w1 = activity_log w) /\
    (b = true ->
     activity_log w1
     = log_step (log_entry (clock w (S (ticks w))) (lit "SAVE") (JStr sid)
                           (save_metadata ci)) (tick (tick w)) /\
     ticks w1 = S (S (ticks w)) /\ clock w1 = clock w /\ umask w1 = umask w).
Proof.
  unfold save_candidate_data, datetime_now.
  fold (history_value h). mrun.
  do 4 step_enc.
  match goal with |- context [hashed_or_none hash_email ?x ?w] =>
    destruct (hashed_or_none_run hash_email 16 x w hash_email_run)
      as [(_ & eh & _ & E)|(_ & e & E)];
    rewrite E; clear E; msimpl end.
  2:{ eexists false, _. split; [reflexivity|]. split; [|discriminate].
      intros _. repeat split. }
  match goal with |- context [hashed_or_none hash_phone ?x ?w] =>
    destruct (hashed_or_none_run hash_phone 12 x w hash_phone_run)
      as [(_ & ph & _ & E)|(_ & e & E)];
    rewrite E; clear E; msimpl end.
  2:{ eexists false, _. split; [reflexivity|]. split; [|discriminate].
      intros _. repeat split. }
  fold (save_metadata ci).
  fold (stored_doc ci sid (clock w (ticks w)) f f0 f1 f2 eh ph
          (history_value h)).
  set (doc := stored_doc _ _ _ _ _ _ _ _ _ _). clearbody doc.
  assert (Hfin : forall (d : list (pystr * json)) (n' : nat),
    exists (b : bool) (w1 : World),
    (let (r, w') :=
       let (r, w') :=
         dump_json (Encrypted (record_name sid)) (JDict d)
           (mkWorld (encrypted_dir w) (exports_dir w) (activity_log w)
                    (umask w) (clock w) (S (ticks w)) n') in
       match r with
       | Ok _ =>
           let (r0, w'0) := os_chmod (Encrypted (record_name sid)) 384 w' in
           match r0 with
           | Ok _ =>
               let (r1, w'1) :=
                 _log_data_activity (lit "SAVE") (JStr sid)
                   (save_metadata ci) w'0 in
               match r1 with
               | Ok _ => (Ok true, w'1)
               | Raise e => (Raise e, w'1)
               end
           | Raise e => (Raise e, w'0)
           end
       | Raise e => (Raise e, w')
       end in
     match r with
     | Ok a => (Ok a, w')
     | Raise _ => (Ok false, w')
     end) = (Ok b, w1) /\
    (b = false ->
     encrypted_dir w1 = encrypted_dir w /\ exports_dir w1 = exports_dir w /\
     activity_log w1 = activity_log w) /\
    (b = true ->
     activity_log w1
     = log_step (log_entry (clock w (S (ticks w))) (lit "SAVE") (JStr sid)
                           (save_metadata ci)) (tick (tick w)) /\
     ticks w1 = S (S (ticks w)) /\ clock w1 = clock w /\ umask w1 = umask w)).
  { intros d n'. unfold dump_json, os_chmod. wexpand. cbn [new_file_error].
    destruct (encrypted_dir w !! record_name sid) as [[c mode t|mode t]|];
      [destruct (writable mode)| |destruct (create_error (record_name sid))];
      msimpl;
      try (eexists false, _; split; [reflexivity|];
           split; [intros _; repeat split|discriminate]);
      rewrite lookup_insert_eq; msimpl;
      rewrite _log_data_activity_run; cbn [snd]; wexpand;
      (eexists true, _; split; [reflexivity|];
       split; [discriminate|intros _; repeat split]). }
  destruct (truthy (history_value h)) eqn:Eh; msimpl.
  - match goal with |- context [_encrypt_data ?x ?w0] =>
      destruct (_encrypt_data_nonce x w0) as [n' ->] end.
    unfold with_nonce. msimpl. apply Hfin.
  - apply Hfin.
Qed.

Lemma load_absent (sid : pystr) (w : World) :
  encrypted_dir w !! record_name sid = None ->
  load_candidate_data sid w = (Ok None, w).
Proof.
  intros E. unfold load_candidate_data, os_path_exists. mrun.
  cbn [lookup_path]. rewrite E.
  rewrite bool_decide_eq_false_2 by (intros [? [=]]). reflexivity.
Qed.


Lemma export_of_none (sid fmt : pystr) (w : World) :
  load_candidate_data sid w = (Ok None, w) ->
  export_candidate_data sid fmt w = (Ok None, w).
Proof.
  intros E. unfold export_candidate_data. mrun. rewrite E. reflexivity.
Qed.

Lemma delete_absent_run (sid reason : pystr) (w : World) :
  encrypted_dir w !! record_name sid = None ->
  delete_candidate_data sid reason w = (Ok false, w).
Proof.
  intros E. unfold delete_candidate_data, os_path_exists. mrun.
  cbn [lookup_path]. rewrite E.
  rewrite bool_decide_eq_false_2 by (intros [? [=]]). reflexivity.
Qed.

(** X10.  A successful save leaves the record file with the permission bits
    [0o600], whatever the umask and whatever bits the file had before: the
    owner may read and write it, group and others have no access. *)
Theorem saved_record_is_owner_only (ci : CandidateInfo) (sid : pystr)
    (h : option (list json)) (w : World) :
  fst (save_candidate_data ci sid h w) = Ok true ->
  exists c t,
    encrypted_dir (snd (save_candidate_data ci sid h w)) !! record_name sid
    = Some (File c 384 t) /\
    readable 384 = true /\ writable 384 = true /\ N.land 384 63 = 0%N.
Proof.
  intros Hok.
  destruct (save_run ci sid h w)
    as (b & w1 & f1 & f2 & f3 & f4 & extra & E & _ & _ & _ & _ & _ & _
        & Hsaved).
  rewrite E in *. cbn [fst snd] in *. injection Hok as ->.
  destruct (Hsaved eq_refl) as (eh & ph & t & _ & _ & Hrec & _).
  eexists _, t. split; [exact Hrec|]. repeat split.
Qed.

(** X11.  A save that returns failure has written nothing: the record files, the
    exports and the audit log are as they were before the call. *)
Theorem failed_save_writes_nothing (ci : CandidateInfo) (sid : pystr)
    (h : option (list json)) (w : World) :
  fst (save_candidate_data ci sid h w) = Ok false ->
  let w1 := snd (save_candidate_data ci sid h w) in
  encrypted_dir w1 = encrypted_dir w /\ exports_dir w1 = exports_dir w /\
  activity_log w1 = activity_log w.
Proof.
  intros Hf. destruct (save_effects ci sid h w) as (b & w1 & E & Hfalse & _).
  rewrite E in *. cbn [fst snd] in *. injection Hf as ->.
  now apply Hfalse.
Qed.


(** X13.  Erasure holds: once [delete_candidate_data] ran on a stored record,
    whatever it returned, the session loads as [None], exports as [None],
    and a second deletion returns failure, each without touching the
    state. *)
Theorem erased_session_is_gone (sid reason fmt : pystr) (w : World)
    (c : fcontent) (mode : N) (t : datetime) :
  encrypted_dir w !! record_name sid = Some (File c mode t) ->
  let w1 := snd (delete_candidate_data sid reason w) in
  load_candidate_data sid w1 = (Ok None, w1) /\
  export_candidate_data sid fmt w1 = (Ok None, w1) /\
  delete_candidate_data sid reason w1 = (Ok false, w1).
Proof.
  intros E.
  destruct (delete_present_result sid reason w c mode t E)
    as (b & w1 & Ed & Hgone & _).
  rewrite Ed. cbn [snd].
  split; [now apply load_absent|].
  split; [now apply export_of_none, load_absent|now apply delete_absent_run].
Qed.

(** X14.  The DELETE entry is logged before the record is removed.  When the
    removal then fails, here because a directory stands where the record
    file should be, the call returns failure and has removed nothing, but
    the audit log holds the DELETE entry. *)
Theorem failed_delete_is_logged_as_delete (sid reason : pystr) (w : World)
    (mode : N) (t : datetime) :
  encrypted_dir w !! record_name sid = Some (Dir mode t) ->
  delete_candidate_data sid reason w
  = (Ok false,
     snd (_log_data_activity (lit "DELETE") (JStr sid)
            (JDict [(lit "reason", JStr reason)]) w)) /\
  encrypted_dir (snd (delete_candidate_data sid reason w)) = encrypted_dir w /\
  exports_dir (snd (delete_candidate_data sid reason w)) = exports_dir w.
Proof.
  intros E.
  assert (H : delete_candidate_data sid reason w
              = (Ok false,
                 snd (_log_data_activity (lit "DELETE") (JStr sid)
                        (JDict [(lit "reason", JStr reason)]) w))).
  { unfold delete_candidate_data, os_path_exists, os_remove. mrun.
    cbn [lookup_path]. rewrite E.
    rewrite bool_decide_eq_true_2 by eauto. msimpl.
    rewrite _log_data_activity_run. cbn [snd]. wexpand. rewrite E.
    reflexivity. }
  rewrite H. split; [reflexivity|].
  rewrite _log_data_activity_run. split; reflexivity.
Qed.

Lemma startswith_app_assoc (a b c : pystr) :
  startswith ((a ++ b) ++ c) a = true.
Proof. rewrite <- app_assoc. apply startswith_app. Qed.

(** X15.  The export files of a session are found by the prefix
    [export_<session_id>_], so the files of a session whose id goes on with
    an underscore match as well: deleting session [id] removes the exports
    of every session [id_<rest>]. *)
Theorem delete_removes_exports_of_extended_ids (sid rest stamp reason : pystr)
    (w : World) (c : fcontent) (mode : N) (t : datetime) :
  encrypted_dir w !! record_name sid = Some (File c mode t) ->
  all_files (is_export_of sid) (exports_dir w) ->
  let other := sid ++ lit "_" ++ rest in
  fst (delete_candidate_data sid reason w) = Ok true /\
  exports_dir (snd (delete_candidate_data sid reason w))
    !! export_name other stamp = None /\
  encrypted_dir (snd (delete_candidate_data sid reason w))
    !! record_name other = encrypted_dir w !! record_name other.
Proof.
  intros E Hall other.
  destruct (delete_present_result sid reason w c mode t E)
    as (b & w1 & Ed & _ & _ & Hiff & Hrem).
  pose proof (delete_preserves
                (fun w => encrypted_dir w !! record_name other) sid reason)
    as Hfr.
  rewrite Ed in *. cbn [fst snd].
  apply Hiff in Hall. subst b.
  split; [reflexivity|]. split.
  - rewrite (Hrem eq_refl).
    assert (Hm : is_export_of sid (export_name other stamp) = true).
    { unfold is_export_of, export_name, export_pattern, other.
      replace ((lit "export_" ++ (sid ++ lit "_" ++ rest) ++ lit "_")
               ++ stamp ++ lit ".json")
        with ((lit "export_" ++ sid ++ lit "_")
              ++ (rest ++ lit "_" ++ stamp ++ lit ".json")).
      - apply startswith_app.
      - rewrite <- !app_assoc. reflexivity. }
    now rewrite Hm.
  - specialize (Hfr ltac:(intros; reflexivity) ltac:(intros; reflexivity)).
    assert (Hne : record_name other <> record_name sid).
    { unfold record_name, other. intros H. apply app_inv_head in H.
      rewrite <- app_assoc in H. apply app_inv_head in H.
      discriminate H. }
    specialize (Hfr ltac:(other_entry)
                    ltac:(intros; reflexivity) w).
    rewrite Ed in Hfr. exact Hfr.
Qed.

End WithLibs.

Section WithInverse.
Context {CS : Cipher} {LB : Libs} {FI : FernetInverse CS}.

(** X16.  A transcript that is not empty is stored encrypted only, marks the
    record as complete, and loads back as it was handed in (provided
    [json.loads] reads back what [json.dumps] wrote for it).  An empty
    list is taken for no transcript at all. *)
Theorem transcript_is_sealed_and_loads_back (ci : CandidateInfo)
    (sid : pystr) (msgs : list json) (w : World) :
  msgs <> [] ->
  json_loads (json_dumps (JList msgs)) = Some (JList msgs) ->
  fst (save_candidate_data ci sid (Some msgs) w) = Ok true ->
  let w1 := snd (save_candidate_data ci sid (Some msgs) w) in
  (exists stored data iv,
     record_doc sid w1 = Some stored /\
     fst (load_candidate_data sid w1) = Ok (Some data) /\
     lookup_in [lit "conversation_history_encrypted"] stored
     = Some (JStr (enc_text iv (json_dumps (JList msgs)))) /\
     lookup_in [lit "conversation_history"] stored = None /\
     lookup_in [lit "metadata"; lit "completion_status"] stored
     = Some (JStr (lit "complete")) /\
     lookup_in [lit "conversation_history"] data = Some (JList msgs)) /\
  save_candidate_data ci sid (Some []) w = save_candidate_data ci sid None w.
Proof.
  intros Hne Hrt Hok w1. split; [|reflexivity].
  assert (Ht : truthy (JList msgs) = true) by (now destruct msgs).
  assert (Hh : transcript_loads (history_value (Some msgs))
                                (Some (JList msgs))).
  { unfold transcript_loads. cbn [history_value from_option].
    rewrite Ht. eauto. }
  destruct (save_then_load ci sid (Some msgs) (Some (JList msgs)) w Hok Hh)
    as (f1 & f2 & f3 & f4 & eh & ph & extra & _ & _ & _ & _ & _ & _ & Hx
        & Hrec & Hload).
  cbv zeta in Hrec, Hload. fold w1 in Hrec, Hload.
  unfold stored_transcript in Hx. cbn [history_value from_option] in *.
  rewrite Ht in Hx. destruct Hx as [iv ->].
  eexists _, _, iv. split; [exact Hrec|]. split; [exact Hload|].
  split; [doc_lookup; reflexivity|].
  split; [doc_lookup; reflexivity|].
  split; [doc_lookup; now rewrite Ht|].
  doc_lookup. reflexivity.
Qed.

(** X17.  The last save wins.  After a successful save the record file can be
    written again, so a second save for the session succeeds whenever the
    e-mail address and the phone number can be hashed; the record is then
    the second candidate's, and nothing of the first save, its transcript
    included, is left in what [load_candidate_data] returns.  The fields
    that come back are compared for a record whose strings JSON gives
    back as they are. *)
Theorem second_save_replaces_record (ci1 ci2 : CandidateInfo) (sid : pystr)
    (h1 : option (list json)) (w : World) :
  fst (save_candidate_data ci1 sid h1 w) = Ok true ->
  can_hash (email ci2) = true -> can_hash (phone ci2) = true ->
  stable_record ci2 ->
  let w1 := snd (save_candidate_data ci1 sid h1 w) in
  let w2 := snd (save_candidate_data ci2 sid None w1) in
  fst (save_candidate_data ci2 sid None w1) = Ok true /\
  exists data,
    fst (load_candidate_data sid w2) = Ok (Some data) /\
    lookup_in [lit "candidate_info"] data = Some (loaded_info ci2) /\
    lookup_in [lit "conversation_history_encrypted"] data = None /\
    lookup_in [lit "conversation_history"] data = None.
Proof.
  intros Hok He Hp _ w1 w2.
  destruct (save_run ci1 sid h1 w)
    as (b & wa & f1 & f2 & f3 & f4 & extra & E & _ & _ & _ & _ & _ & _
        & Hsaved).
  assert (Hw1 : w1 = wa) by (subst w1; now rewrite E).
  rewrite E in Hok. cbn [fst] in Hok. injection Hok as ->.
  destruct (Hsaved eq_refl) as (eh & ph & t & _ & _ & Hrec & _).
  assert (Hsecond : fst (save_candidate_data ci2 sid None w1) = Ok true).
  { destruct (save_run ci2 sid None w1)
      as (b2 & wb & g1 & g2 & g3 & g4 & extra2 & E2 & Hb2 & _).
    rewrite E2. cbn [fst]. f_equal. rewrite Hb2, He, Hp. cbn [andb].
    unfold can_write. rewrite Hw1, Hrec. reflexivity. }
  split; [exact Hsecond|].
  destruct (save_then_load ci2 sid None None w1 Hsecond eq_refl)
    as (g1 & g2 & g3 & g4 & eh2 & ph2 & extra2 & _ & _ & _ & _ & _ & _ & Hx
        & _ & Hload).
  cbv zeta in Hload. fold w2 in Hload.
  unfold stored_transcript in Hx. cbn [history_value from_option truthy] in Hx.
  subst extra2.
  eexists. split; [exact Hload|].
  split; [doc_lookup; reflexivity|].
  split; doc_lookup; reflexivity.
Qed.

(** The export of a stored record, when no file of its name exists yet. *)
Lemma export_of_stored_doc (ci : CandidateInfo) (sid fmt : pystr)
    (ts : datetime) (f1 f2 f3 f4 eh ph : json) (h : option (list json))
    (extra : list (pystr * json)) (mode : N) (t : datetime) (w : World) :
  encrypted_dir w !! record_name sid
  = Some (File (Json (JDict (stored_doc ci sid ts f1 f2 f3 f4 eh ph
                               (history_value h) ++ extra))) mode t) ->
  readable mode = true ->
  sealed (full_name ci) f1 -> sealed (email ci) f2 ->
  sealed (phone ci) f3 -> sealed (current_location ci) f4 ->
  stored_transcript (history_value h) extra ->
  transcript_round_trips h ->
  exports_dir w !! export_file_at sid w = None ->
  create_error (export_file_at sid w) = None ->
  exists w',
    export_candidate_data sid fmt w
    = (Ok (Some (lit "data/exports/" ++ export_file_at sid w)), w') /\
    exports_dir w' !! export_file_at sid w
    = Some (File
              (Json (export_doc (clock w (S (ticks w))) sid fmt
                       (loaded_info ci) (transcript_length h)
                       (JStr (if truthy (history_value h) then lit "complete"
                              else lit "incomplete"))))
              (N.ldiff 438 (umask w)) (clock w (S (S (S (ticks w)))))).
Proof.
  intros E Hr H1 H2 H3 H4 Hx Hrt Hw Hv.
  assert (Hh : transcript_loads (history_value h) (loaded_history h)).
  { unfold transcript_loads, loaded_history, transcript_round_trips in *.
    destruct (truthy (history_value h)); eauto. }
  unfold export_candidate_data. mrun.
  rewrite (load_of_stored ci sid ts f1 f2 f3 f4 eh ph _ extra _ mode t w
             E Hr H1 H2 H3 H4 Hx Hh).
  msimpl. rewrite loaded_doc_truthy. cbn [negb]. msimpl.
  rewrite _log_data_activity_run. cbn [snd]. unfold datetime_now. wexpand.
  assert (Hhist :
    default (JList [])
      (dict_get (lit "conversation_history")
         (loaded_doc (stored_doc ci sid ts f1 f2 f3 f4 eh ph
                        (history_value h) ++ extra)
                     (loaded_info ci) (loaded_history h)))
    = JList (default [] h) /\
    Z.of_nat (length (default [] h)) = transcript_length h).
  { unfold loaded_history, loaded_doc, stored_transcript in *.
    destruct h as [l|];
      cbn [history_value from_option default transcript_length] in *.
    - unfold id. split; [|reflexivity]. destruct (truthy (JList l)) eqn:Et.
      + now rewrite dict_get_set_eq.
      + subst extra. doc_lookup. destruct l; [reflexivity|discriminate Et].
    - cbn [truthy] in *. subst extra. split; [|reflexivity].
      doc_lookup. reflexivity. }
  destruct Hhist as [-> Hlen]. rewrite Hlen.
  assert (Hmeta :
    dict_get (lit "metadata")
      (loaded_doc (stored_doc ci sid ts f1 f2 f3 f4 eh ph
                     (history_value h) ++ extra)
                  (loaded_info ci) (loaded_history h))
    = Some (JDict [(lit "ip_address_hash", JNull);
                   (lit "user_agent_hash", JNull);
                   (lit "session_duration", JNull);
                   (lit "completion_status",
                    JStr (if truthy (history_value h) then lit "complete"
                          else lit "incomplete"))])).
  { unfold loaded_doc. destruct (loaded_history h); doc_lookup; reflexivity. }
  assert (Hinfo :
    dict_get (lit "candidate_info")
      (loaded_doc (stored_doc ci sid ts f1 f2 f3 f4 eh ph
                     (history_value h) ++ extra)
                  (loaded_info ci) (loaded_history h))
    = Some (loaded_info ci)).
  { unfold loaded_doc. destruct (loaded_history h); doc_lookup; reflexivity. }
  rewrite Hmeta, Hinfo. cbn [default from_option]. unfold id. msimpl.
  dict_simpl. cbn [default from_option]. unfold id.
  unfold dump_json. wexpand. cbn [new_file_error].
  fold (export_file_at sid w). rewrite Hw, Hv. msimpl.
  rewrite _log_data_activity_run. cbn [snd]. wexpand.
  eexists. split; [reflexivity|]. wsimpl.
  rewrite lookup_insert_eq. reflexivity.
Qed.

(** X18.  The export of a saved session holds the personal fields decrypted:
    the identifying fields are in it in clear, next to the number of
    messages of the transcript and the completion status.  The file is
    created with the default permission bits, [0o666] less the umask, not
    with the [0o600] of the record file.  This is for a record whose
    strings JSON gives back as they are, and for an export file name the
    file system takes: it is longer than the name of the record file. *)
Theorem export_holds_decrypted_fields (ci : CandidateInfo) (sid fmt : pystr)
    (h : option (list json)) (w0 : World) :
  fst (save_candidate_data ci sid h w0) = Ok true ->
  transcript_round_trips h ->
  stable_record ci ->
  let w := snd (save_candidate_data ci sid h w0) in
  exports_dir w !! export_file_at sid w = None ->
  create_error (export_file_at sid w) = None ->
  exists w' t,
    export_candidate_data sid fmt w
    = (Ok (Some (lit "data/exports/" ++ export_file_at sid w)), w') /\
    exports_dir w' !! export_file_at sid w
    = Some (File
              (Json (export_doc (clock w (S (ticks w))) sid fmt
                       (loaded_info ci) (transcript_length h)
                       (JStr (if truthy (history_value h) then lit "complete"
                              else lit "incomplete"))))
              (N.ldiff 438 (umask w0)) t).
Proof.
  intros Hok Hrt _ w Hnone Hv.
  destruct (save_run ci sid h w0)
    as (b & w1 & f1 & f2 & f3 & f4 & extra & E & _ & H1 & H2 & H3 & H4
        & Hx & Hsaved).
  assert (Hw : w = w1) by (subst w; now rewrite E).
  rewrite E in Hok. cbn [fst] in Hok. injection Hok as ->.
  destruct (Hsaved eq_refl) as (eh & ph & t & _ & _ & Hrec & _ & _ & _ & Hu).
  rewrite <- Hw in Hrec, Hu.
  destruct (export_of_stored_doc ci sid fmt _ f1 f2 f3 f4 eh ph h extra 384 t
              w Hrec eq_refl H1 H2 H3 H4 Hx Hrt Hnone Hv)
    as (w' & Ee & Hdoc).
  exists w'. eexists. split; [exact Ee|]. rewrite <- Hu. exact Hdoc.
Qed.

End WithInverse.

(** The export of the specification's candidate, under the umask [0o022]:
    the file has the bits [0o644]. *)
Lemma export_holds_decrypted_fields_witness :
  let w := snd (save_candidate_data sample_candidate (lit "s1") None
                  (empty_world second_clock)) in
  fst (save_candidate_data sample_candidate (lit "s1") None
         (empty_world second_clock)) = Ok true /\
  transcript_round_trips None /\
  stable_record sample_candidate /\
  exports_dir w !! export_file_at (lit "s1") w = None /\
  create_error (export_file_at (lit "s1") w) = None /\
  exists w' t,
    export_candidate_data (lit "s1") (lit "json") w
    = (Ok (Some (lit "data/exports/" ++ export_file_at (lit "s1") w)), w') /\
    exports_dir w' !! export_file_at (lit "s1") w
    = Some (File
              (Json (export_doc (clock w (S (ticks w))) (lit "s1") (lit "json")
                       (loaded_info sample_candidate) 0
                       (JStr (lit "incomplete"))))
              420 t).
Proof.
  intros w.
  assert (Hs : fst (save_candidate_data sample_candidate (lit "s1") None
                      (empty_world second_clock)) = Ok true)
    by (vm_compute; reflexivity).
  assert (Hrt : transcript_round_trips None)
    by (intros H; vm_compute in H; discriminate H).
  assert (Hn : exports_dir w !! export_file_at (lit "s1") w = None)
    by (vm_compute; reflexivity).
  assert (Hst : stable_record sample_candidate)
    by (repeat split; vm_compute; reflexivity).
  assert (Hv : create_error (export_file_at (lit "s1") w) = None)
    by (vm_compute; reflexivity).
  split; [exact Hs|]. split; [exact Hrt|]. split; [exact Hst|].
  split; [exact Hn|]. split; [exact Hv|].
  exact (@export_holds_decrypted_fields sample_cipher sample_libs
           sample_cipher_inverse sample_candidate (lit "s1") (lit "json")
           None (empty_world second_clock) Hs Hrt Hst Hn Hv).
Defined.

(** The record of the specification's candidate after a save. *)
Lemma saved_record_is_owner_only_witness :
  fst (save_candidate_data sample_candidate (lit "s1") None
         (empty_world second_clock)) = Ok true /\
  exists c t,
    encrypted_dir (snd (save_candidate_data sample_candidate (lit "s1") None
                          (empty_world second_clock))) !! record_name (lit "s1")
    = Some (File c 384 t).
Proof.
  assert (Hs : fst (save_candidate_data sample_candidate (lit "s1") None
                      (empty_world second_clock)) = Ok true)
    by (vm_compute; reflexivity).
  split; [exact Hs|].
  destruct (saved_record_is_owner_only sample_candidate (lit "s1") None
              (empty_world second_clock) Hs) as (c & t & H & _).
  exists c, t. exact H.
Defined.

(** A save that fails at the hash of the e-mail address. *)
Lemma failed_save_writes_nothing_witness :
  let w := world_with_records in
  let r := save_candidate_data surrogate_email_candidate (lit "s1") None w in
  fst r = Ok false /\
  encrypted_dir (snd r) = encrypted_dir w /\
  exports_dir (snd r) = exports_dir w /\
  activity_log (snd r) = activity_log w.
Proof.
  intros w r.
  assert (Hf : fst r = Ok false) by (vm_compute; reflexivity).
  split; [exact Hf|].
  exact (failed_save_writes_nothing surrogate_email_candidate (lit "s1") None
           w Hf).
Defined.


(** Erasure on the store where the deletion itself reports failure. *)
Lemma erased_session_is_gone_witness :
  let w := world_with_export_dir in
  let w1 := snd (delete_candidate_data (lit "s1") (lit "user_request") w) in
  (exists c mode t,
     encrypted_dir w !! record_name (lit "s1") = Some (File c mode t)) /\
  load_candidate_data (lit "s1") w1 = (Ok None, w1) /\
  export_candidate_data (lit "s1") (lit "json") w1 = (Ok None, w1) /\
  delete_candidate_data (lit "s1") (lit "user_request") w1 = (Ok false, w1).
Proof.
  intros w w1.
  assert (H : encrypted_dir w !! record_name (lit "s1")
              = Some (File (Json (JDict
                   [(lit "session_id", JStr (lit "s1"));
                    (lit "timestamp", JStr (lit "2024-03-01T12:00:00"))]))
                   384 noon)) by (vm_compute; reflexivity).
  split; [eauto|].
  exact (erased_session_is_gone (lit "s1") (lit "user_request") (lit "json")
           w _ _ _ H).
Defined.

(** A directory in the place of the record of session [s1]. *)
Lemma failed_delete_is_logged_as_delete_witness :
  let w := world_with_record_dir in
  encrypted_dir w !! record_name (lit "s1") = Some (Dir 493 noon) /\
  fst (delete_candidate_data (lit "s1") (lit "user_request") w) = Ok false /\
  encrypted_dir (snd (delete_candidate_data (lit "s1") (lit "user_request")
                        w)) = encrypted_dir w.
Proof.
  intros w.
  assert (H : encrypted_dir w !! record_name (lit "s1")
              = Some (Dir 493 noon)) by (vm_compute; reflexivity).
  split; [exact H|].
  destruct (failed_delete_is_logged_as_delete (lit "s1") (lit "user_request")
              w 493 noon H) as (H1 & H2 & _).
  split; [now rewrite H1|exact H2].
Defined.

(** Deleting session [s1] removes the export of session [s1_b]. *)
Lemma delete_removes_exports_of_extended_ids_witness :
  let w := world_with_nested_ids in
  (exists c mode t,
     encrypted_dir w !! record_name (lit "s1") = Some (File c mode t)) /\
  all_files (is_export_of (lit "s1")) (exports_dir w) /\
  is_Some (exports_dir w !! export_name (lit "s1_b") (lit "20240301_120000")) /\
  exports_dir (snd (delete_candidate_data (lit "s1") (lit "user_request") w))
    !! export_name (lit "s1" ++ lit "_" ++ lit "b") (lit "20240301_120000")
  = None.
Proof.
  intros w.
  assert (H : encrypted_dir w !! record_name (lit "s1")
              = Some (File (Json (JDict
                   [(lit "session_id", JStr (lit "s1"));
                    (lit "timestamp", JStr (lit "2024-03-01T12:00:00"))]))
                   384 noon)) by (vm_compute; reflexivity).
  assert (Hall : all_files (is_export_of (lit "s1")) (exports_dir w)).
  { apply (bool_decide_unpack _). vm_compute. exact I. }
  split; [eauto|]. split; [exact Hall|].
  split; [eexists; vm_compute; reflexivity|].
  destruct (delete_removes_exports_of_extended_ids (lit "s1") (lit "b")
              (lit "20240301_120000") (lit "user_request") w _ _ _ H Hall)
    as (_ & H2 & _).
  exact H2.
Defined.

(** A transcript of one message, with the stand-in cipher. *)
Lemma transcript_is_sealed_and_loads_back_witness :
  let save :=
    @save_candidate_data sample_cipher transcript_libs sample_candidate
      (lit "s1") (Some sample_transcript) (empty_world second_clock) in
  sample_transcript <> [] /\
  @json_loads transcript_libs
    (@json_dumps transcript_libs (JList sample_transcript))
  = Some (JList sample_transcript) /\
  fst save = Ok true /\
  exists stored data iv,
    record_doc (lit "s1") (snd save) = Some stored /\
    fst (@load_candidate_data sample_cipher transcript_libs (lit "s1")
           (snd save)) = Ok (Some data) /\
    lookup_in [lit "conversation_history_encrypted"] stored
    = Some (JStr (enc_text iv
                    (@json_dumps transcript_libs (JList sample_transcript)))) /\
    lookup_in [lit "conversation_history"] stored = None /\
    lookup_in [lit "metadata"; lit "completion_status"] stored
    = Some (JStr (lit "complete")) /\
    lookup_in [lit "conversation_history"] data
    = Some (JList sample_transcript).
Proof.
  intros save.
  assert (Hne : sample_transcript <> []) by discriminate.
  assert (Hrt : @json_loads transcript_libs
                  (@json_dumps transcript_libs (JList sample_transcript))
                = Some (JList sample_transcript))
    by (vm_compute; reflexivity).
  assert (Hs : fst save = Ok true) by (vm_compute; reflexivity).
  split; [exact Hne|]. split; [exact Hrt|]. split; [exact Hs|].
  exact (proj1 (@transcript_is_sealed_and_loads_back sample_cipher
                  transcript_libs sample_cipher_inverse sample_candidate
                  (lit "s1") sample_transcript (empty_world second_clock)
                  Hne Hrt Hs)).
Defined.

(** A second save for session [s1], by another candidate. *)
Lemma second_save_replaces_record_witness :
  let w1 := snd (save_candidate_data sample_candidate (lit "s1") None
                   (empty_world second_clock)) in
  let w2 := snd (save_candidate_data sparse_candidate (lit "s1") None w1) in
  fst (save_candidate_data sample_candidate (lit "s1") None
         (empty_world second_clock)) = Ok true /\
  can_hash (email sparse_candidate) = true /\
  can_hash (phone sparse_candidate) = true /\
  stable_record sparse_candidate /\
  fst (save_candidate_data sparse_candidate (lit "s1") None w1) = Ok true /\
  exists data,
    fst (load_candidate_data (lit "s1") w2) = Ok (Some data) /\
    lookup_in [lit "candidate_info"] data
    = Some (loaded_info sparse_candidate).
Proof.
  intros w1 w2.
  assert (Hs : fst (save_candidate_data sample_candidate (lit "s1") None
                      (empty_world second_clock)) = Ok true)
    by (vm_compute; reflexivity).
  assert (He : can_hash (email sparse_candidate) = true) by reflexivity.
  assert (Hp : can_hash (phone sparse_candidate) = true)
    by (vm_compute; reflexivity).
  assert (Hst : stable_record sparse_candidate)
    by (repeat split; vm_compute; reflexivity).
  split; [exact Hs|]. split; [exact He|]. split; [exact Hp|].
  split; [exact Hst|].
  destruct (@second_save_replaces_record sample_cipher sample_libs
              sample_cipher_inverse sample_candidate sparse_candidate
              (lit "s1") None (empty_world second_clock) Hs He Hp Hst)
    as (H1 & data & H2 & H3 & _).
  split; [exact H1|]. exists data. split; [exact H2|exact H3].
Defined.

End SessionFacts.

(** ** The retention sweep: exports and the audit trail *)

Module RetentionFacts.
Import PyText PyTime PyJson Store Handler Views Effects LogFacts DeleteFacts
  SaveFacts SweepFacts Samples MoreSamples FrameFacts AuditFacts.

Section WithLibs.
Context {LB : Libs}.

(** The record loop, with what it appends to the audit log: one
    AUTO_DELETE entry for every record it removes, whether it reaches the
    end of the listing or is left by an exception. *)
Lemma cleanup_loop_log (days : Z) (cutoff : datetime)
    (m0 : gmap pystr fs_entry) (names : list pystr) (w : World) (cnt : Z) :
  naive_clock w -> utcoffset cutoff = None -> NoDup names ->
  (forall n, n ∈ names -> is_Some (m0 !! n)) ->
  (forall n, n ∈ names -> encrypted_dir w !! n = m0 !! n) ->
  log_ready w -> log_bounded w ->
  exists w' new removed stop,
    for_fold_reached names (cleanup_record days cutoff) cnt w
    = (Ok ((cnt + Z.of_nat (length removed))%Z, stop), w') /\
    length new = length removed /\
    (forall n, n ∈ removed -> n ∈ names /\ sweeps cutoff m0 n = true) /\
    NoDup removed /\
    (forall k, encrypted_dir w' !! k
               = if bool_decide (k ∈ removed) then None
                 else encrypted_dir w !! k) /\
    Forall (fun x => activity_of x = Some (JStr (lit "AUTO_DELETE"))) new /\
    log_list w' = last_n 1000 (log_list w ++ new) /\
    log_ready w' /\ log_bounded w' /\
    exports_dir w' = exports_dir w /\ clock w' = clock w /\
    umask w' = umask w.
Proof.
  revert w cnt. induction names as [|n r IH];
    intros w cnt Hclk Hcut Hnd Hin Hm Hr Hb.
  - exists w, [], [], None. cbn. unfold ret. rewrite Z.add_0_r, app_nil_r.
    rewrite last_n_all by (now apply log_list_bounded).
    repeat split; auto; try constructor.
    all: try match goal with H : _ ∈ [] |- _ => inversion H end.
    all: try (intros k Hk; inversion Hk).
  - apply NoDup_cons in Hnd as [Hn Hnd].
    destruct (Hin n) as [e He]; [now left|].
    assert (Hwn : encrypted_dir w !! n = Some e)
      by (rewrite Hm; [exact He|now left]).
    pose proof (cleanup_record_pass days cutoff cnt n w e Hclk Hcut Hwn)
      as Hone.
    assert (Hsw : sweeps cutoff m0 n = is_record_name n && expired cutoff e)
      by (unfold sweeps; now rewrite He).
    rewrite <- Hsw in Hone.
    assert (Hin' : forall k, k ∈ r -> is_Some (m0 !! k))
      by (intros k Hk; apply Hin; now right).
    assert (Hm' : forall k, k ∈ r -> encrypted_dir w !! k = m0 !! k)
      by (intros k Hk; apply Hm; now right).
    assert (Hkeep : forall b : bool,
      (Ok cnt, w) = (Ok cnt, w) ->
      exists w' new removed stop,
        for_fold_reached r (cleanup_record days cutoff) cnt w
        = (Ok ((cnt + Z.of_nat (length removed))%Z, stop), w') /\
        length new = length removed /\
        (forall k, k ∈ removed -> k ∈ n :: r /\ sweeps cutoff m0 k = true) /\
        NoDup removed /\
        (forall k, encrypted_dir w' !! k
                   = if bool_decide (k ∈ removed) then None
                     else encrypted_dir w !! k) /\
        Forall (fun x => activity_of x = Some (JStr (lit "AUTO_DELETE")))
               new /\
        log_list w' = last_n 1000 (log_list w ++ new) /\
        log_ready w' /\ log_bounded w' /\
        exports_dir w' = exports_dir w /\ clock w' = clock w /\
        umask w' = umask w).
    { intros _ _.
      destruct (IH w cnt Hclk Hcut Hnd Hin' Hm' Hr Hb)
        as (w' & new & rm & stop & E' & Hlen & Hsub & Hrest).
      exists w', new, rm, stop. split; [exact E'|]. split; [exact Hlen|].
      split; [|exact Hrest].
      intros k Hk. destruct (Hsub k Hk) as [Hkr Hks].
      split; [now right|exact Hks]. }
    cbn [for_fold_reached].
    destruct (sweeps cutoff m0 n) eqn:Es.
    + destruct Hone as (s & age & ->).
      set (meta := JDict _).
      assert (Hrt : log_ready (tick w)) by exact Hr.
      assert (Hbt : log_bounded (tick w)) by exact Hb.
      destruct (log_ready_step (lit "AUTO_DELETE") s meta (tick w) Hrt)
        as (Hr1 & Hl1 & Hc1 & Ht1).
      pose proof (log_bounded_step (lit "AUTO_DELETE") s meta (tick w) Hbt)
        as Hb1.
      set (w1 := snd (_log_data_activity (lit "AUTO_DELETE") s meta (tick w)))
        in *.
      assert (Henc1 : encrypted_dir w1 = encrypted_dir w)
        by (subst w1; rewrite _log_data_activity_run; reflexivity).
      assert (Hexp1 : exports_dir w1 = exports_dir w)
        by (subst w1; rewrite _log_data_activity_run; reflexivity).
      assert (Hum1 : umask w1 = umask w)
        by (subst w1; rewrite _log_data_activity_run; reflexivity).
      destruct (IH (set_path (Encrypted n) None w1) (cnt + 1)%Z)
        as (w' & new & rm & stop & E' & Hlen & Hsub & Hndr & Hlook & Hall
            & Hl' & Hr' & Hb' & Hx' & Hc' & Hu').
      * intros k. cbn [set_path clock]. rewrite Hc1. apply Hclk.
      * exact Hcut.
      * exact Hnd.
      * exact Hin'.
      * intros k Hk. cbn [set_path encrypted_dir]. rewrite Henc1.
        rewrite lookup_delete_ne by (intros ->; contradiction).
        now apply Hm'.
      * exact Hr1.
      * exact Hb1.
      * assert (Hnrm : n ∉ rm) by (intros Hk; apply Hn; now apply Hsub).
        exists w', (log_entry (clock (tick w) (ticks (tick w)))
                      (lit "AUTO_DELETE") s meta :: new), (n :: rm), stop.
        rewrite E'. cbn [length].
        split; [do 3 f_equal; lia|].
        split; [now rewrite Hlen|].
        split.
        { intros k Hk. apply elem_of_cons in Hk as [->|Hk].
          - split; [now left|exact Es].
          - destruct (Hsub k Hk) as [Hkr Hks]. split; [now right|exact Hks]. }
        split; [now constructor|].
        split.
        { intros k. rewrite Hlook. cbn [set_path encrypted_dir].
          rewrite Henc1. destruct (decide (k = n)) as [->|Hkn].
          - rewrite bool_decide_eq_false_2 by exact Hnrm.
            rewrite lookup_delete_eq.
            now rewrite bool_decide_eq_true_2 by now left.
          - rewrite lookup_delete_ne by congruence.
            destruct (decide (k ∈ rm)) as [Hk|Hk].
            + rewrite !bool_decide_eq_true_2; [reflexivity|now right|exact Hk].
            + rewrite !bool_decide_eq_false_2; [reflexivity| |exact Hk].
              intros Hc. apply elem_of_cons in Hc as [?|?]; contradiction. }
        split; [constructor; [reflexivity|exact Hall]|].
        split.
        { rewrite Hl'.
          change (log_list (set_path (Encrypted n) None w1))
            with (log_list w1).
          rewrite Hl1. change (log_list (tick w)) with (log_list w).
          rewrite last_n_last_n_app, <- app_assoc. reflexivity. }
        split; [exact Hr'|]. split; [exact Hb'|].
        split; [rewrite Hx'; exact Hexp1|].
        split; [rewrite Hc'; exact Hc1|rewrite Hu'; exact Hum1].
    + destruct (is_record_name n && skipped cutoff e) eqn:Esk.
      * rewrite Hone. destruct (str_encode n) as [b|] eqn:Eb.
        -- apply (Hkeep true eq_refl).
        -- exists w, [], [], (Some UnicodeError).
           cbn [length]. rewrite Z.add_0_r, app_nil_r.
           rewrite last_n_all by (now apply log_list_bounded).
           repeat split; auto; try constructor.
           all: try match goal with H : _ ∈ [] |- _ => inversion H end.
    all: try (intros k Hk; inversion Hk).
      * rewrite Hone. apply (Hkeep true eq_refl).
Qed.

(** [cleanup_old_data] on the records, when the cutoff is representable
    and the names of the files the record loop skips can be printed. *)
Lemma cleanup_records_run (retention_days : Z) (w : World)
    (cutoff : datetime) :
  naive_clock w ->
  sub_days (clock w (ticks w)) retention_days = Some cutoff ->
  skipped_names_print cutoff (encrypted_dir w) ->
  exists w',
    cleanup_old_data retention_days w
    = (Ok (Z.of_nat
             (length (filter
                        (fun n => sweeps cutoff (encrypted_dir w) n = true)
                        (map fst (map_to_list (encrypted_dir w)))))), w') /\
    (forall name,
       encrypted_dir w' !! name
       = if sweeps cutoff (encrypted_dir w) name then None
         else encrypted_dir w !! name) /\
    clock w' = clock w /\ umask w' = umask w.
Proof.
  intros Hclk Hcut Hp.
  pose proof (cleanup_preserves clock retention_days
                ltac:(intros; reflexivity) ltac:(intros; reflexivity)
                ltac:(intros; reflexivity) ltac:(intros; reflexivity) w)
    as Hc.
  pose proof (cleanup_preserves umask retention_days
                ltac:(intros; reflexivity) ltac:(intros; reflexivity)
                ltac:(intros; reflexivity) ltac:(intros; reflexivity) w)
    as Hu.
  destruct (cleanup_run retention_days w cutoff Hclk Hcut Hp)
    as (w1 & w' & _ & _ & _ & _ & E & Hlook).
  rewrite E in Hc, Hu. cbn [snd] in Hc, Hu.
  exists w'. split; [exact E|]. split; [exact Hlook|]. split; assumption.
Qed.

(** One pass of the export loop. *)
Lemma cleanup_export_exact (cutoff : datetime) (n : pystr) (w : World)
    (e : fs_entry) :
  utcoffset cutoff = None ->
  exports_dir w !! n = Some e ->
  (startswith n (lit "export_") = true -> utcoffset (mtime_of e) = None) ->
  (old_export cutoff (exports_dir w) n = true -> is_file e = true) ->
  cleanup_export cutoff n w
  = (Ok tt,
     if old_export cutoff (exports_dir w) n
     then set_path (Exports n) None w else w).
Proof.
  intros Hcut He Hnaive Hfile. unfold cleanup_export, old_export in *.
  rewrite He in *.
  destruct (startswith n (lit "export_")); cbn [andb] in *; [|reflexivity].
  specialize (Hnaive eq_refl).
  unfold stat_mtime, os_remove. mrun. cbn [lookup_path]. rewrite He.
  assert (Hlt : exists b, dt_lt (mtime_of e) cutoff = Some b).
  { unfold dt_lt, dt_cmp. rewrite Hnaive, Hcut.
    destruct (cmp_fields _ _); eauto. }
  destruct Hlt as [b Hlt]. rewrite Hlt in Hfile.
  destruct e as [c mode t|mode t]; cbn [mtime_of] in *; rewrite Hlt;
    msimpl; destruct b; try reflexivity.
  - rewrite He. reflexivity.
  - discriminate (Hfile eq_refl).
Qed.

(** The export loop removes the old exports, one after the other. *)
Lemma cleanup_exports_loop (cutoff : datetime) (m0 : gmap pystr fs_entry)
    (names : list pystr) (w : World) :
  utcoffset cutoff = None -> NoDup names ->
  (forall n, n ∈ names -> is_Some (m0 !! n)) ->
  (forall n, n ∈ names -> exports_dir w !! n = m0 !! n) ->
  (forall n e, m0 !! n = Some e -> startswith n (lit "export_") = true ->
     utcoffset (mtime_of e) = None) ->
  (forall n e, m0 !! n = Some e -> old_export cutoff m0 n = true ->
     is_file e = true) ->
  for_each names (cleanup_export cutoff) w
  = (Ok tt,
     with_exports (purge (old_export cutoff m0) names (exports_dir w)) w).
Proof.
  intros Hcut Hnd Hin Hm Hnaive Hfile. revert w Hm.
  induction names as [|n r IH]; intros w Hm.
  - cbn. unfold ret. now destruct w.
  - apply NoDup_cons in Hnd as [Hn Hnd].
    destruct (Hin n) as [e He]; [now left|].
    assert (Hwn : exports_dir w !! n = Some e)
      by (rewrite Hm; [exact He|now left]).
    assert (Hold : old_export cutoff (exports_dir w) n
                   = old_export cutoff m0 n)
      by (unfold old_export; now rewrite Hwn, He).
    cbn [for_each purge]. unfold bind.
    rewrite (cleanup_export_exact cutoff n w e Hcut Hwn).
    + rewrite Hold. destruct (old_export cutoff m0 n).
      * rewrite IH; [reflexivity|assumption| |].
        -- intros k Hk. apply Hin. now right.
        -- intros k Hk. cbn [set_path exports_dir].
           rewrite lookup_delete_ne by (intros ->; contradiction).
           apply Hm. now right.
      * rewrite IH; [reflexivity|assumption| |].
        -- intros k Hk. apply Hin. now right.
        -- intros k Hk. apply Hm. now right.
    + intros Hs. exact (Hnaive n e He Hs).
    + rewrite Hold. intros Ho. exact (Hfile n e He Ho).
Qed.

(** X19.  [cleanup_old_data] sweeps the exports by the age of the file: when
    the cutoff is representable, the record loop before it was not left by
    an exception (the names of the record files it skips can be printed)
    and no old export entry is a directory, the call removes exactly the
    entries of [data/exports] whose name starts with [export_] and whose
    modification time is strictly older than the cutoff, and leaves every
    other entry as it was. *)
Theorem cleanup_removes_old_exports (retention_days : Z) (w : World)
    (cutoff : datetime) :
  naive_clock w ->
  sub_days (clock w (ticks w)) retention_days = Some cutoff ->
  skipped_names_print cutoff (encrypted_dir w) ->
  (forall n e, exports_dir w !! n = Some e ->
     startswith n (lit "export_") = true ->
     utcoffset (mtime_of e) = None) ->
  (forall n e, exports_dir w !! n = Some e ->
     old_export cutoff (exports_dir w) n = true -> is_file e = true) ->
  forall name,
    exports_dir (snd (cleanup_old_data retention_days w)) !! name
    = if old_export cutoff (exports_dir w) name then None
      else exports_dir w !! name.
Proof.
  intros Hclk Hcut Hp Hnaive Hfile name.
  assert (Hcn : utcoffset cutoff = None)
    by (rewrite (sub_days_offset _ _ _ Hcut); apply Hclk).
  destruct (cleanup_run retention_days w cutoff Hclk Hcut Hp)
    as (w1 & w' & _ & Hexp & _ & Hw' & E & _).
  rewrite E. cbn [snd]. subst w'.
  rewrite (cleanup_exports_loop cutoff (exports_dir w)).
  - cbn [snd with_exports exports_dir].
    rewrite purge_lookup, Hexp.
    destruct (old_export cutoff (exports_dir w) name) eqn:Eo.
    + destruct (decide _) as [|Hn]; [reflexivity|].
      destruct (exports_dir w !! name) eqn:El; [|reflexivity].
      exfalso. apply Hn. split; [|reflexivity].
      apply listing_elem. eauto.
    + rewrite decide_False; [reflexivity|]. intros [_ H]. discriminate H.
  - exact Hcn.
  - apply listing_NoDup.
  - intros n Hn. rewrite Hexp in Hn. now apply listing_elem.
  - intros n _. now rewrite Hexp.
  - exact Hnaive.
  - exact Hfile.
Qed.

(** X20.  Every automatic deletion is audited.  When the log takes entries and
    the cutoff is representable, [cleanup_old_data] returns the number of
    record files it removed, each of them a record whose timestamp was
    older than the cutoff, and has appended exactly that many entries to
    the audit log, each of them an AUTO_DELETE entry; the log is cut to
    its last 1000 entries as always.  This holds also for a sweep that
    ends early. *)
Theorem cleanup_audits_every_removal (retention_days : Z) (w : World)
    (cutoff : datetime) :
  naive_clock w ->
  sub_days (clock w (ticks w)) retention_days = Some cutoff ->
  log_ready w -> log_bounded w ->
  exists new removed,
    fst (cleanup_old_data retention_days w)
    = Ok (Z.of_nat (length removed)) /\
    NoDup removed /\
    (forall name, name ∈ removed ->
       sweeps cutoff (encrypted_dir w) name = true) /\
    (forall name,
       encrypted_dir (snd (cleanup_old_data retention_days w)) !! name
       = if bool_decide (name ∈ removed) then None
         else encrypted_dir w !! name) /\
    length new = length removed /\
    Forall (fun x => activity_of x = Some (JStr (lit "AUTO_DELETE"))) new /\
    log_list (snd (cleanup_old_data retention_days w))
    = last_n 1000 (log_list w ++ new).
Proof.
  intros Hclk Hcut Hr Hb.
  assert (Hcn : utcoffset cutoff = None)
    by (rewrite (sub_days_offset _ _ _ Hcut); apply Hclk).
  unfold cleanup_old_data, datetime_now, listdir_encrypted, listdir_exports.
  mrun. rewrite Hcut. msimpl. fold (tick w).
  destruct (cleanup_loop_log retention_days cutoff (encrypted_dir w)
              (map fst (map_to_list (encrypted_dir w))) (tick w) 0)
    as (w1 & new & rm & stop & E1 & Hlen & Hsub & Hnd & Hlook & Hall & Hl
        & _).
  { exact Hclk. }
  { exact Hcn. }
  { apply listing_NoDup. }
  { intros n Hn. now apply listing_elem. }
  { reflexivity. }
  { exact Hr. }
  { exact Hb. }
  rewrite E1. msimpl. rewrite Z.add_0_l.
  change (log_list (tick w)) with (log_list w) in Hl.
  change (encrypted_dir (tick w)) with (encrypted_dir w) in Hlook.
  exists new, rm.
  assert (Hsw : forall name, name ∈ rm ->
            sweeps cutoff (encrypted_dir w) name = true)
    by (intros name Hn; now apply Hsub).
  destruct stop as [x|]; msimpl.
  - cbn [fst snd]. repeat split; assumption.
  - pose proof (preserves_for_each activity_log
                  (map fst (map_to_list (exports_dir w1)))
                  (cleanup_export cutoff)) as Hfr.
    assert (Hlog : activity_log
                     (snd (for_each (map fst (map_to_list (exports_dir w1)))
                             (cleanup_export cutoff) w1)) = activity_log w1).
    { apply Hfr. intros x. unfold cleanup_export. frame. }
    pose proof (for_each_frame encrypted_dir (cleanup_export cutoff)
                  (cleanup_export_frame cutoff)
                  (map fst (map_to_list (exports_dir w1))) w1) as Henc.
    destruct (for_each _ (cleanup_export cutoff) w1) as [[u|ex] w2];
      cbn [fst snd] in *.
    all: split; [reflexivity|]; split; [exact Hnd|]; split; [exact Hsw|].
    all: split; [intros name; rewrite Henc; apply Hlook|].
    all: split; [exact Hlen|]; split; [exact Hall|].
    all: rewrite <- Hl; unfold log_list, log_entries; now rewrite Hlog.
Qed.

End WithLibs.

(** With a retention of 30 days on 1 March, the export of 1 January goes;
    the export of today and the file of another name stay. *)
Lemma cleanup_removes_old_exports_witness :
  let w := world_with_old_exports in
  let cutoff := mkdt 2024 1 31 12 0 0 0 None in
  let w' := snd (cleanup_old_data 30 w) in
  naive_clock w /\
  sub_days (clock w (ticks w)) 30 = Some cutoff /\
  skipped_names_print cutoff (encrypted_dir w) /\
  exports_dir w' !! export_name (lit "a") (lit "20240101_120000") = None /\
  exports_dir w' !! export_name (lit "b") (lit "20240301_120000")
  = exports_dir w !! export_name (lit "b") (lit "20240301_120000") /\
  exports_dir w' !! lit "notes.txt" = exports_dir w !! lit "notes.txt".
Proof.
  intros w cutoff w'.
  assert (Hclk : naive_clock w) by (intros k; reflexivity).
  assert (Hcut : sub_days (clock w (ticks w)) 30 = Some cutoff)
    by (vm_compute; reflexivity).
  assert (Hnaive : forall n e, exports_dir w !! n = Some e ->
            startswith n (lit "export_") = true ->
            utcoffset (mtime_of e) = None).
  { change (map_Forall (fun n e => startswith n (lit "export_") = true ->
                                   utcoffset (mtime_of e) = None)
                       (exports_dir w)).
    apply (bool_decide_unpack _). vm_compute. exact I. }
  assert (Hfile : forall n e, exports_dir w !! n = Some e ->
            old_export cutoff (exports_dir w) n = true -> is_file e = true).
  { change (map_Forall (fun n e =>
                          old_export cutoff (exports_dir w) n = true ->
                          is_file e = true)
                       (exports_dir w)).
    apply (bool_decide_unpack _). vm_compute. exact I. }
  assert (Hp : skipped_names_print cutoff (encrypted_dir w))
    by (apply (bool_decide_unpack _); vm_compute; exact I).
  pose proof (@cleanup_removes_old_exports sample_libs 30 w cutoff Hclk Hcut
                Hp Hnaive Hfile) as H.
  split; [exact Hclk|]. split; [exact Hcut|]. split; [exact Hp|].
  split; [exact (H (export_name (lit "a") (lit "20240101_120000")))|].
  split; [exact (H (export_name (lit "b") (lit "20240301_120000")))|].
  exact (H (lit "notes.txt")).
Defined.

(** The sweep of the specification's scenario removes one record and
    appends one AUTO_DELETE entry to a log that did not exist. *)
Lemma cleanup_audits_every_removal_witness :
  let w := world_with_records in
  let cutoff := mkdt 2024 1 31 12 0 0 0 None in
  naive_clock w /\
  sub_days (clock w (ticks w)) 30 = Some cutoff /\
  log_ready w /\ log_bounded w /\
  fst (cleanup_old_data 30 w) = Ok 1%Z /\
  exists new removed,
    fst (cleanup_old_data 30 w) = Ok (Z.of_nat (length removed)) /\
    NoDup removed /\
    (forall name, name ∈ removed ->
       sweeps cutoff (encrypted_dir w) name = true) /\
    (forall name,
       encrypted_dir (snd (cleanup_old_data 30 w)) !! name
       = if bool_decide (name ∈ removed) then None
         else encrypted_dir w !! name) /\
    length new = length removed /\
    Forall (fun x => activity_of x = Some (JStr (lit "AUTO_DELETE"))) new /\
    log_list (snd (cleanup_old_data 30 w)) = last_n 1000 (log_list w ++ new).
Proof.
  intros w cutoff.
  assert (Hclk : naive_clock w) by (intros k; reflexivity).
  assert (Hcut : sub_days (clock w (ticks w)) 30 = Some cutoff)
    by (vm_compute; reflexivity).
  assert (Hr : log_ready w) by (split; reflexivity).
  assert (Hb : log_bounded w) by (intros l H; discriminate H).
  split; [exact Hclk|]. split; [exact Hcut|].
  split; [exact Hr|]. split; [exact Hb|].
  split; [vm_compute; reflexivity|].
  exact (@cleanup_audits_every_removal sample_libs 30 w cutoff Hclk Hcut
           Hr Hb).
Defined.

(** A record file that is skipped and whose name cannot be printed ends
    the sweep: the call returns the count reached, and the export loop is
    not run, so the old export stays. *)
Example cleanup_ends_at_undecodable_name :
  let w := world_with_undecodable_name in
  let cutoff := mkdt 2024 1 31 12 0 0 0 None in
  let r := cleanup_old_data 30 w in
  old_export cutoff (exports_dir w)
    (export_name (lit "a") (lit "20240101_120000")) = true /\
  fst r = Ok 0%Z /\
  exports_dir (snd r) = exports_dir w /\
  encrypted_dir (snd r) = encrypted_dir w.
Proof. cbv zeta. repeat split; vm_compute; reflexivity. Qed.

End RetentionFacts.

(** ** The privacy report: its content and its failure *)

Module ReportContent.
Import PyText PyTime PyJson Store Handler Views Effects LogFacts DeleteFacts
  SaveFacts SweepFacts ReportFacts Samples MoreSamples FrameFacts AuditFacts.

Lemma cmp_fields_lex (a b : datetime) :
  cmp_fields a b = lex_compare (cmp_key a) (cmp_key b).
Proof.
  unfold cmp_fields, cmp_key. cbn [lex_compare].
  repeat match goal with
         | |- context [(?x ?= ?y)%Z] => destruct (x ?= y)%Z; try reflexivity
         end.
Qed.

Lemma lex_compare_lt_trans (a b c : list Z) :
  length a = length b -> length b = length c ->
  lex_compare a b = Lt -> lex_compare c b <> Lt -> lex_compare a c = Lt.
Proof.
  revert b c. induction a as [|x a IH]; intros [|y b] [|z c] Hab Hbc;
    cbn [lex_compare length] in *; try discriminate; try lia.
  destruct (Z.compare_spec x y), (Z.compare_spec z y), (Z.compare_spec x z);
    try discriminate; try congruence; try lia; intros Hlt Hn;
    try congruence; try lia.
  apply (IH b c); auto.
Qed.

Lemma lex_compare_gt_trans (a b c : list Z) :
  length a = length b -> length b = length c ->
  lex_compare a b = Gt -> lex_compare c b <> Gt -> lex_compare a c = Gt.
Proof.
  revert b c. induction a as [|x a IH]; intros [|y b] [|z c] Hab Hbc;
    cbn [lex_compare length] in *; try discriminate; try lia.
  destruct (Z.compare_spec x y), (Z.compare_spec z y), (Z.compare_spec x z);
    try discriminate; try congruence; try lia; intros Hlt Hn;
    try congruence; try lia.
  apply (IH b c); auto.
Qed.

Lemma lex_compare_antisym (a b : list Z) :
  lex_compare a b = CompOpp (lex_compare b a).
Proof.
  revert b. induction a as [|x a IH]; intros [|y b]; cbn [lex_compare];
    try reflexivity.
  rewrite (Z.compare_antisym y x).
  destruct (y ?= x)%Z; cbn [CompOpp]; auto.
Qed.

Lemma lex_compare_refl (a : list Z) : lex_compare a a = Eq.
Proof.
  induction a as [|x a IH]; [reflexivity|]. cbn [lex_compare].
  now rewrite Z.compare_refl.
Qed.

Lemma cmp_key_length (d : datetime) : length (cmp_key d) = 7%nat.
Proof. reflexivity. Qed.

(** [<] between naive values is the comparison of the fields. *)
Lemma dt_lt_of_naive (a b : datetime) :
  utcoffset a = None -> utcoffset b = None ->
  dt_lt a b = Some (match cmp_fields a b with Lt => true | _ => false end).
Proof.
  intros Ha Hb. unfold dt_lt, dt_cmp. rewrite Ha, Hb.
  now destruct (cmp_fields a b).
Qed.

Lemma dt_gt_of_naive (a b : datetime) :
  utcoffset a = None -> utcoffset b = None ->
  dt_gt a b = Some (match cmp_fields a b with Gt => true | _ => false end).
Proof.
  intros Ha Hb. unfold dt_gt, dt_cmp. rewrite Ha, Hb.
  now destruct (cmp_fields a b).
Qed.

(** [min] of naive values returns a member that none is before. *)
Lemma min_from_naive (cur : datetime) (l : list datetime) :
  Forall (fun d => utcoffset d = None) (cur :: l) ->
  exists lo,
    min_from cur l = Some lo /\ lo ∈ cur :: l /\
    Forall (fun d => cmp_fields d lo <> Lt) (cur :: l).
Proof.
  revert cur. induction l as [|x r IH]; intros cur Hn.
  - exists cur. split; [reflexivity|]. split; [left|].
    constructor; [|constructor].
    rewrite cmp_fields_lex, lex_compare_refl. discriminate.
  - apply Forall_cons in Hn as [Hc Hn]. pose proof Hn as Hxr.
    apply Forall_cons in Hn as [Hx Hr].
    cbn [min_from]. rewrite (dt_lt_of_naive x cur Hx Hc).
    destruct (cmp_fields x cur) eqn:Ecmp.
    1,3: destruct (IH cur) as (lo & E & Hin & Hall);
      [constructor; assumption|];
      exists lo; split; [exact E|];
      apply Forall_cons in Hall as [Hlc Hlr];
      (split; [apply elem_of_cons in Hin as [->|Hin];
               [left|right; right; exact Hin]|]);
      (constructor; [exact Hlc|]); (constructor; [|exact Hlr]);
      intros Hlt; rewrite cmp_fields_lex in *;
      pose proof (lex_compare_lt_trans (cmp_key x) (cmp_key lo) (cmp_key cur)
                    eq_refl eq_refl Hlt Hlc); congruence.
    destruct (IH x Hxr) as (lo & E & Hin & Hall).
    exists lo. split; [exact E|]. split; [right; exact Hin|].
    constructor; [|exact Hall].
    apply Forall_cons in Hall as [Hlx _].
    intros Hlt. apply Hlx. rewrite cmp_fields_lex in *.
    apply (lex_compare_lt_trans (cmp_key x) (cmp_key cur) (cmp_key lo)
             eq_refl eq_refl Ecmp).
    rewrite lex_compare_antisym, Hlt. discriminate.
Qed.

(** [max] of naive values returns a member that none is after. *)
Lemma max_from_naive (cur : datetime) (l : list datetime) :
  Forall (fun d => utcoffset d = None) (cur :: l) ->
  exists hi,
    max_from cur l = Some hi /\ hi ∈ cur :: l /\
    Forall (fun d => cmp_fields d hi <> Gt) (cur :: l).
Proof.
  revert cur. induction l as [|x r IH]; intros cur Hn.
  - exists cur. split; [reflexivity|]. split; [left|].
    constructor; [|constructor].
    rewrite cmp_fields_lex, lex_compare_refl. discriminate.
  - apply Forall_cons in Hn as [Hc Hn]. pose proof Hn as Hxr.
    apply Forall_cons in Hn as [Hx Hr].
    cbn [max_from]. rewrite (dt_gt_of_naive x cur Hx Hc).
    destruct (cmp_fields x cur) eqn:Ecmp.
    1,2: destruct (IH cur) as (hi & E & Hin & Hall);
      [constructor; assumption|];
      exists hi; split; [exact E|];
      apply Forall_cons in Hall as [Hlc Hlr];
      (split; [apply elem_of_cons in Hin as [->|Hin];
               [left|right; right; exact Hin]|]);
      (constructor; [exact Hlc|]); (constructor; [|exact Hlr]);
      intros Hgt; rewrite cmp_fields_lex in *;
      pose proof (lex_compare_gt_trans (cmp_key x) (cmp_key hi) (cmp_key cur)
                    eq_refl eq_refl Hgt Hlc); congruence.
    destruct (IH x Hxr) as (hi & E & Hin & Hall).
    exists hi. split; [exact E|]. split; [right; exact Hin|].
    constructor; [|exact Hall].
    apply Forall_cons in Hall as [Hlx _].
    intros Hgt. apply Hlx. rewrite cmp_fields_lex in *.
    apply (lex_compare_gt_trans (cmp_key x) (cmp_key cur) (cmp_key hi)
             eq_refl eq_refl Ecmp).
    rewrite lex_compare_antisym, Hgt. discriminate.
Qed.

Section WithLibs.
Context {LB : Libs}.

(** [get_privacy_report] when the log can be read and the dates compare. *)
Lemma report_run (w : World) (l : list json) :
  recent_source w = Some l ->
  Forall (fun d => utcoffset d = None) (report_dates w) ->
  exists oldest newest,
    get_privacy_report w
    = (Ok (report_doc (clock w (ticks w))
             (Z.of_nat (length (report_files w))) oldest newest
             (JList (last_n 10 l))),
       tick w) /\
    match report_dates w with
    | [] => oldest = JNull /\ newest = JNull
    | _ :: _ =>
        exists lo hi,
          oldest = JStr (isoformat lo) /\ newest = JStr (isoformat hi) /\
          lo ∈ report_dates w /\ hi ∈ report_dates w /\
          Forall (fun d => cmp_fields d lo <> Lt /\ cmp_fields d hi <> Gt)
                 (report_dates w)
    end.
Proof.
  intros Hlog Hnaive.
  unfold get_privacy_report, datetime_now, listdir_encrypted, os_path_exists,
    load_json.
  mrun. wexpand. rewrite !report_dates_run. wexpand. cbn [app].
  fold (report_files w).
  change (omap (fun n => encrypted_dir w !! n ≫= file_date) (report_files w))
    with (report_dates w).
  assert (Hdates :
    match report_dates w with
    | [] => True
    | d :: r =>
        exists lo hi,
          min_from d r = Some lo /\ max_from d r = Some hi /\
          lo ∈ report_dates w /\ hi ∈ report_dates w /\
          Forall (fun d => cmp_fields d lo <> Lt /\ cmp_fields d hi <> Gt)
                 (report_dates w)
    end).
  { destruct (report_dates w) as [|d r] eqn:Ed; [exact I|].
    destruct (min_from_naive d r Hnaive) as (lo & Elo & Hlo & Hmin).
    destruct (max_from_naive d r Hnaive) as (hi & Ehi & Hhi & Hmax).
    exists lo, hi. repeat split; try assumption.
    apply Forall_forall. intros x Hx. split.
    - rewrite Forall_forall in Hmin. now apply Hmin.
    - rewrite Forall_forall in Hmax. now apply Hmax. }
  unfold recent_source in Hlog.
  assert (Hfin : forall P : Prop,
    (forall kv mode t,
       activity_log w = Some (File (Json (JDict kv)) mode t) ->
       readable mode = true ->
       dict_get (lit "activities") kv = Some (JList l) -> P) ->
    (activity_log w = None -> l = [] -> P) -> P).
  { intros P H1 H2.
    destruct (activity_log w) as [[[raw|[| | | | |kv]] mode t|mode t]|];
      try discriminate Hlog.
    - destruct (readable mode) eqn:Hr; [|discriminate Hlog].
      destruct (dict_get (lit "activities") kv) as [[| | | |l0|]|] eqn:Ea;
        try discriminate Hlog.
      injection Hlog as ->. now apply (H1 kv mode t).
    - injection Hlog as <-. now apply H2. }
  destruct (report_dates w) as [|d r].
  - msimpl. exists JNull, JNull. split; [|split; reflexivity].
    apply Hfin.
    + intros kv mode t -> Hr Ha.
      rewrite bool_decide_eq_true_2 by eauto. msimpl. rewrite Hr. msimpl.
      rewrite Ha. reflexivity.
    + intros -> ->. rewrite bool_decide_eq_false_2 by (intros [? [=]]).
      reflexivity.
  - destruct Hdates as (lo & hi & -> & -> & Hrest). msimpl.
    exists (JStr (isoformat lo)), (JStr (isoformat hi)). split.
    + apply Hfin.
      * intros kv mode t -> Hr Ha.
        rewrite bool_decide_eq_true_2 by eauto. msimpl. rewrite Hr. msimpl.
        rewrite Ha. reflexivity.
      * intros -> ->. rewrite bool_decide_eq_false_2 by (intros [? [=]]).
        reflexivity.
    + exists lo, hi. repeat split; apply Hrest.
Qed.

(** X21.  The privacy report when nothing raises.  It counts every entry of
    [data/encrypted] whose name starts with [candidate_], readable or not,
    and gives the same number twice; its oldest and newest record are the
    least and the greatest of the timestamps that could be read; its
    recent activities are the last ten entries of the audit log, oldest
    first.  The call takes one reading of the clock and changes nothing
    else. *)
Theorem report_counts_and_bounds (w : World) (l : list json) :
  recent_source w = Some l ->
  Forall (fun d => utcoffset d = None) (report_dates w) ->
  exists oldest newest,
    get_privacy_report w
    = (Ok (report_doc (clock w (ticks w))
             (Z.of_nat (length (report_files w))) oldest newest
             (JList (last_n 10 l))),
       tick w) /\
    match report_dates w with
    | [] => oldest = JNull /\ newest = JNull
    | _ :: _ =>
        exists lo hi,
          oldest = JStr (isoformat lo) /\ newest = JStr (isoformat hi) /\
          lo ∈ report_dates w /\ hi ∈ report_dates w /\
          Forall (fun d => cmp_fields d lo <> Lt /\ cmp_fields d hi <> Gt)
                 (report_dates w)
    end.
Proof. apply report_run. Qed.

(** [get_privacy_report] when the log file cannot be loaded. *)
Lemma report_unloadable_log_run (w : World) (e : fs_entry) :
  activity_log w = Some e -> unloadable e ->
  exists x,
    get_privacy_report w
    = (Ok (JDict [(lit "error", JStr (str_of_exn x))]), tick w).
Proof.
  intros He Hu.
  unfold get_privacy_report, datetime_now, listdir_encrypted, os_path_exists,
    load_json.
  mrun. wexpand. rewrite !report_dates_run. wexpand. cbn [app].
  assert (Hload : exists x,
    match activity_log w with
    | Some (File c mode _) =>
        if readable mode
        then match c with
             | NotJson _ => (@Raise json JSONDecodeError, tick w)
             | Json v => (Ok v, tick w)
             end
        else (Raise OSError, tick w)
    | _ => (Raise OSError, tick w)
    end = (Raise x, tick w)).
  { rewrite He. destruct e as [[raw|v] mode t|mode t]; cbn [unloadable] in Hu.
    - destruct (readable mode); eauto.
    - rewrite Hu. eauto.
    - eauto. }
  destruct Hload as [x Hload]. unfold tick in Hload.
  destruct (omap _ _) as [|d r]; msimpl.
  - rewrite (bool_decide_eq_true_2 (is_Some (activity_log w)))
      by (rewrite He; eauto).
    msimpl. rewrite Hload. eauto.
  - destruct (min_from d r); msimpl; [|eauto].
    destruct (max_from d r); msimpl; [|eauto].
    rewrite (bool_decide_eq_true_2 (is_Some (activity_log w)))
      by (rewrite He; eauto).
    msimpl. rewrite Hload. eauto.
Qed.

(** X22.  When the audit log file is there but cannot be loaded (a directory, a
    file that cannot be read, or text that is no JSON), the privacy report
    is the error dictionary alone: the counts and dates the method had
    already collected are dropped with the exception. *)
Theorem report_is_error_when_log_unloadable (w : World) (e : fs_entry) :
  activity_log w = Some e -> unloadable e ->
  exists x,
    get_privacy_report w
    = (Ok (JDict [(lit "error", JStr (str_of_exn x))]), tick w).
Proof. apply report_unloadable_log_run. Qed.

End WithLibs.

(** The report on the store of the sweep scenario: four names start with
    [candidate_], two of the files hold a timestamp. *)
Lemma report_counts_and_bounds_witness :
  let w := world_with_records in
  recent_source w = Some [] /\
  Forall (fun d => utcoffset d = None) (report_dates w) /\
  exists oldest newest,
    get_privacy_report w
    = (Ok (report_doc (clock w (ticks w)) 4 oldest newest (JList [])),
       tick w).
Proof.
  intros w.
  assert (Hl : recent_source w = Some []) by reflexivity.
  assert (Hn : Forall (fun d => utcoffset d = None) (report_dates w)).
  { replace (report_dates w)
      with [mkdt 2024 2 20 12 0 0 0 None; mkdt 2024 1 16 12 0 0 0 None]
      by (vm_compute; reflexivity).
    repeat constructor. }
  split; [exact Hl|]. split; [exact Hn|].
  destruct (@report_counts_and_bounds sample_libs w [] Hl Hn)
    as (oldest & newest & H & _).
  exists oldest, newest.
  replace 4%Z with (Z.of_nat (length (report_files w)))
    by (vm_compute; reflexivity).
  exact H.
Defined.

(** The report on a store whose audit log is no JSON. *)
Lemma report_is_error_when_log_unloadable_witness :
  let w := world_with_corrupt_log in
  exists e x,
    activity_log w = Some e /\ unloadable e /\
    get_privacy_report w
    = (Ok (JDict [(lit "error", JStr (str_of_exn x))]), tick w).
Proof.
  intros w.
  assert (He : activity_log w = Some (File (NotJson (lit "{")) 420 noon))
    by reflexivity.
  destruct (@report_is_error_when_log_unloadable sample_libs w _ He I)
    as [x H].
  eexists _, x. split; [exact He|]. split; [exact I|exact H].
Defined.

End ReportContent.

(** ** The encryption key across restarts *)

Module InstallFacts.
Import PyText PyTime PyJson Store Handler Views Effects Install LogFacts
  Samples MoreSamples.

(** Unfold the computations on the data directory. *)
Ltac io_run :=
  unfold os_makedirs; unfold io_bind, io_lift; unfold io_ret;
  cbv beta iota zeta;
  cbn [store key_file maintenance_report_file keys_drawn].

Section WithKeys.
Context {KL : KeyLib}.

Lemma _get_or_create_encryption_key_run (d : Disk) :
  _get_or_create_encryption_key d
  = match key_file d with
    | Some (KeyFile content mode) =>
        if readable mode then (Ok content, d) else (Raise OSError, d)
    | Some KeyDir => (Raise OSError, d)
    | None =>
        (Ok (generate_key (keys_drawn d)),
         mkDisk (store d) (Some (KeyFile (generate_key (keys_drawn d)) 384))
                (maintenance_report_file d) (S (keys_drawn d)))
    end.
Proof.
  unfold _get_or_create_encryption_key, key_file_exists, read_key_file,
    Fernet_generate_key, write_key_file, chmod_key_file.
  io_run.
  destruct (key_file d) as [[content mode|]|] eqn:Ek.
  - rewrite bool_decide_eq_true_2 by eauto. cbv beta iota. now rewrite Ek.
  - rewrite bool_decide_eq_true_2 by eauto. cbv beta iota. now rewrite Ek.
  - rewrite bool_decide_eq_false_2 by (intros [? [=]]). cbv beta iota.
    cbn [key_file store maintenance_report_file keys_drawn].
    now rewrite Ek.
Qed.

Lemma __init___run (d : Disk) :
  __init__ d
  = match _get_or_create_encryption_key d with
    | (Ok key, d1) =>
        match fernet_of_key key with
        | Some c => (Ok (key, c), d1)
        | None => (Raise ValueError, d1)
        end
    | (Raise e, d1) => (Raise e, d1)
    end.
Proof.
  unfold __init__. io_run.
  destruct (_get_or_create_encryption_key d) as [[key|e] d1]; [|reflexivity].
  now destruct (fernet_of_key key).
Qed.

(** The construction of the handler works on the key file only. *)
Lemma __init___frame (d d1 : Disk) (x : bytes * Cipher) :
  __init__ d = (Ok x, d1) ->
  store d1 = store d /\
  maintenance_report_file d1 = maintenance_report_file d.
Proof.
  rewrite __init___run, _get_or_create_encryption_key_run.
  destruct (key_file d) as [[content mode|]|].
  - destruct (readable mode); [|discriminate].
    destruct (fernet_of_key content); [|discriminate].
    intros [= _ <-]. split; reflexivity.
  - discriminate.
  - destruct (fernet_of_key _); [|discriminate].
    intros [= _ <-]. split; reflexivity.
Qed.

(** X23.  The key of an installation is drawn once.  Whenever [DataHandler()]
    succeeds, a second construction returns the same key and the same
    cipher and changes nothing; the store of records is never touched.  On
    a directory without key file the key is the one [Fernet.generate_key]
    drew, written to a file with the bits [0o600]; a key file that is
    there is read and left as it is. *)
Theorem handler_key_is_drawn_once (d d1 : Disk) (key : bytes) (c : Cipher) :
  __init__ d = (Ok (key, c), d1) ->
  __init__ d1 = (Ok (key, c), d1) /\
  store d1 = store d /\
  (key_file d = None ->
   key = generate_key (keys_drawn d) /\
   key_file d1 = Some (KeyFile key 384)) /\
  (is_Some (key_file d) -> d1 = d).
Proof.
  rewrite !__init___run, !_get_or_create_encryption_key_run.
  destruct (key_file d) as [[content mode|]|] eqn:Ek.
  - destruct (readable mode) eqn:Hr; [|discriminate].
    destruct (fernet_of_key content) as [c0|] eqn:Ef; [|discriminate].
    intros [= <- <- <-]. rewrite Ek, Hr, Ef.
    repeat split; try discriminate.
  - discriminate.
  - destruct (fernet_of_key (generate_key (keys_drawn d))) as [c0|] eqn:Ef;
      [|discriminate].
    intros [= <- <- <-]. cbn [key_file]. change (readable 384) with true.
    cbv iota. rewrite Ef. repeat split.
    intros [? [=]].
Qed.

(** X24.  A key file that cannot be used is never replaced.  When the file is a
    directory, cannot be read, or holds bytes [Fernet] does not take for a
    key (an empty file, for one), [DataHandler()] raises and leaves the
    directory as it is, so every later start fails in the same way. *)
Theorem unusable_key_file_blocks_handler (d : Disk) (e : key_entry) :
  key_file d = Some e ->
  match e with
  | KeyFile content mode =>
      readable mode = false \/ fernet_of_key content = None
  | KeyDir => True
  end ->
  exists x, __init__ d = (Raise x, d).
Proof.
  intros Ek Hbad. rewrite __init___run, _get_or_create_encryption_key_run, Ek.
  destruct e as [content mode|]; [|eauto].
  destruct (readable mode) eqn:Hr; [|eauto].
  destruct Hbad as [?|Hf]; [discriminate|]. rewrite Hf. eauto.
Qed.

End WithKeys.

(** The first start on a fresh directory, and the second. *)
Lemma handler_key_is_drawn_once_witness :
  exists key c d1,
    __init__ fresh_disk = (Ok (key, c), d1) /\
    __init__ d1 = (Ok (key, c), d1) /\
    store d1 = store fresh_disk /\
    key_file d1 = Some (KeyFile key 384).
Proof.
  assert (H : __init__ fresh_disk
              = (Ok (generate_key 0, sample_cipher),
                 mkDisk (empty_world second_clock)
                        (Some (KeyFile (generate_key 0) 384)) None 1))
    by reflexivity.
  destruct (handler_key_is_drawn_once _ _ _ _ H) as (H1 & H2 & H3 & _).
  eexists _, _, _. split; [exact H|]. split; [exact H1|].
  split; [exact H2|]. exact (proj2 (H3 eq_refl)).
Defined.

(** A start on a directory whose key file is empty. *)
Lemma unusable_key_file_blocks_handler_witness :
  exists x,
    key_file disk_with_empty_key = Some (KeyFile [] 384) /\
    fernet_of_key [] = None /\
    __init__ disk_with_empty_key = (Raise x, disk_with_empty_key).
Proof.
  assert (Hk : key_file disk_with_empty_key = Some (KeyFile [] 384))
    by reflexivity.
  assert (Hf : fernet_of_key [] = None) by reflexivity.
  destruct (unusable_key_file_blocks_handler disk_with_empty_key _ Hk
              (or_intror Hf)) as [x H].
  exists x. split; [exact Hk|]. split; [exact Hf|exact H].
Defined.

End InstallFacts.

(** ** A session from the assistant: save, export, delete *)

Module LifecycleFacts.
Import PyText PyTime PyJson Store Handler Views Effects Install App PyTextFacts
  CryptoFacts LogFacts DeleteFacts SaveFacts RoundTrip ExportFacts Samples
  MoreSamples FrameFacts AuditFacts SessionFacts.



Lemma appended_none (w w' : World) :
  log_ready w -> log_bounded w ->
  activity_log w' = activity_log w -> umask w' = umask w ->
  appended [] w w'.
Proof.
  intros Hr Hb Hl Hu. split; [|split].
  - assert (H : log_list w' = log_list w)
      by (unfold log_list, log_entries; now rewrite Hl).
    rewrite H, app_nil_r. symmetry.
    now apply last_n_all, log_list_bounded.
  - unfold log_ready, log_entries, log_usable in *. now rewrite Hl, Hu.
  - unfold log_bounded, log_entries in *. now rewrite Hl.
Qed.

Section WithInverse.
Context {CS : Cipher} {LB : Libs} {FI : FernetInverse CS}.



End WithInverse.


End LifecycleFacts.

(** ** The maintenance script *)

Module MaintenanceFacts.
Import PyText PyTime PyJson Store Handler Views Effects Install Maintenance
  LogFacts DeleteFacts SaveFacts RoundTrip SweepFacts ReportFacts Samples
  MoreSamples FrameFacts RetentionFacts ReportContent InstallFacts.

(** Unfold the script. *)
Ltac main_run :=
  unfold main, print; io_run; unfold in_store;
  cbn [store key_file maintenance_report_file keys_drawn].

Section WithLibs.
Context {LB : Libs} {KL : KeyLib}.

(** X26.  A privacy report that failed stops the script before the sweep.  The
    script reads [report['data_summary']] without looking for the [error]
    key, so when the audit log cannot be loaded it ends with [KeyError]:
    no record is swept, no export removed, and no maintenance report
    written. *)
Theorem maintenance_stops_when_report_fails (config : Config) (d d1 : Disk)
    (x : bytes * Cipher) (e : fs_entry) :
  __init__ d = (Ok x, d1) ->
  activity_log (store d) = Some e -> unloadable e ->
  exists d',
    main config d = (Raise KeyError, d') /\
    encrypted_dir (store d') = encrypted_dir (store d) /\
    exports_dir (store d') = exports_dir (store d) /\
    activity_log (store d') = activity_log (store d) /\
    maintenance_report_file d' = maintenance_report_file d.
Proof.
  intros Hinit Hlog Hu.
  destruct (__init___frame d d1 x Hinit) as [Hs Hm].
  main_run. rewrite Hinit. cbv beta iota.
  rewrite Hs in *. 
  destruct (report_unloadable_log_run (store d) e Hlog Hu) as [ex Hrep].
  rewrite Hrep. cbv beta iota. cbn [store].
  unfold getitem. dict_simpl. unfold lift, raise. cbv beta iota.
  cbn [store key_file maintenance_report_file keys_drawn].
  eexists. split; [reflexivity|]. cbn [store maintenance_report_file].
  repeat split. exact Hm.
Qed.

(** X27.  The script takes the privacy report before it sweeps.  When the
    report comes through, the cutoff is representable and the sweep is not
    ended early (the names of the record files it skips can be printed),
    the maintenance report the script writes holds the number of records
    the sweep removed next to a privacy report whose [total_records] still
    counts them: the count of the names starting with [candidate_] before
    the sweep.  The file is created with the default permission bits. *)
Theorem maintenance_reports_before_it_sweeps (config : Config) (d d1 : Disk)
    (x : bytes * Cipher) (l : list json) (cutoff : datetime) :
  __init__ d = (Ok x, d1) ->
  let w := store d in
  recent_source w = Some l ->
  Forall (fun t => utcoffset t = None) (report_dates w) ->
  naive_clock w ->
  sub_days (clock w (S (ticks w))) (DATA_RETENTION_DAYS config) = Some cutoff ->
  skipped_names_print cutoff (encrypted_dir w) ->
  maintenance_report_file d = None ->
  exists d' doc t,
    main config d = (Ok tt, d') /\
    maintenance_report_file d'
    = Some (File (Json doc) (N.ldiff 438 (umask w)) t) /\
    lookup_in [lit "privacy_report"; lit "data_summary"; lit "total_records"]
              doc
    = Some (JInt (Z.of_nat (length (report_files w)))) /\
    lookup_in [lit "deleted_records"] doc
    = Some (JInt (Z.of_nat
                    (length (filter
                       (fun n => sweeps cutoff (encrypted_dir w) n = true)
                       (map fst (map_to_list (encrypted_dir w))))))) /\
    forall name,
      encrypted_dir (store d') !! name
      = if sweeps cutoff (encrypted_dir w) name then None
        else encrypted_dir w !! name.
Proof.
  intros Hinit w Hl Hn Hclk Hcut Hp Hfile.
  destruct (__init___frame d d1 x Hinit) as [Hs Hm].
  main_run. rewrite Hinit. cbv beta iota.
  rewrite Hs. fold w.
  destruct (report_run w l Hl Hn) as (oldest & newest & Hrep & _).
  rewrite Hrep. cbv beta iota. cbn [store].
  unfold report_doc. unfold getitem. dict_simpl. unfold lift, ret.
  cbv beta iota. cbn [store key_file maintenance_report_file keys_drawn].
  dict_simpl. cbv beta iota.
  cbn [store key_file maintenance_report_file keys_drawn].
  assert (Hclk' : naive_clock (tick w)) by exact Hclk.
  destruct (cleanup_records_run (DATA_RETENTION_DAYS config) (tick w) cutoff
              Hclk' Hcut Hp) as (w2 & Ec & Henc & Hc2 & Hu2).
  destruct (truthy oldest); cbv beta iota;
    cbn [store key_file maintenance_report_file keys_drawn];
    rewrite Ec; cbv beta iota;
    cbn [store key_file maintenance_report_file keys_drawn];
    unfold datetime_now, dump_maintenance_report; cbv beta iota;
    cbn [store key_file maintenance_report_file keys_drawn];
    rewrite Hm, Hfile; cbv beta iota;
    cbn [store key_file maintenance_report_file keys_drawn];
    (eexists _, _, _; split; [reflexivity|]);
    cbn [store key_file maintenance_report_file keys_drawn];
    cbn [umask];
    (split; [rewrite Hu2; reflexivity|]);
    (split; [cbn [lookup_in]; dict_simpl; cbn [lookup_in]; dict_simpl;
             reflexivity|]);
    (split; [cbn [lookup_in]; dict_simpl; reflexivity|]);
    intros name; cbn [encrypted_dir]; apply Henc.
Qed.
End WithLibs.

(** The script on a directory whose audit log is no JSON. *)
Lemma maintenance_stops_when_report_fails_witness :
  let d := disk_with_corrupt_log in
  exists x d1 e d',
    __init__ d = (Ok x, d1) /\
    activity_log (store d) = Some e /\ unloadable e /\
    main (mkConfig 30) d = (Raise KeyError, d') /\
    encrypted_dir (store d') = encrypted_dir (store d) /\
    maintenance_report_file d' = None.
Proof.
  intros d.
  assert (Hi : __init__ d = (Ok (repeat (byte_of 65) 44, sample_cipher), d))
    by reflexivity.
  assert (He : activity_log (store d)
               = Some (File (NotJson (lit "{")) 420 noon)) by reflexivity.
  destruct (@maintenance_stops_when_report_fails sample_libs sample_keys
              (mkConfig 30) d d _ _ Hi He I)
    as (d' & H1 & H2 & _ & _ & H5).
  eexists _, _, _, d'. split; [exact Hi|]. split; [exact He|].
  split; [exact I|]. split; [exact H1|]. split; [exact H2|exact H5].
Defined.

(** The script on the store of the sweep scenario, with 30 days: four
    records are reported, one is removed. *)
Lemma maintenance_reports_before_it_sweeps_witness :
  let d := disk_with_records in
  let w := store d in
  let cutoff := mkdt 2024 1 31 12 0 1 0 None in
  exists x d1 d' doc t,
    __init__ d = (Ok x, d1) /\
    recent_source w = Some [] /\
    Forall (fun t => utcoffset t = None) (report_dates w) /\
    naive_clock w /\
    sub_days (clock w (S (ticks w))) 30 = Some cutoff /\
    skipped_names_print cutoff (encrypted_dir w) /\
    maintenance_report_file d = None /\
    main (mkConfig 30) d = (Ok tt, d') /\
    maintenance_report_file d' = Some (File (Json doc) 420 t) /\
    lookup_in [lit "privacy_report"; lit "data_summary"; lit "total_records"]
              doc = Some (JInt 4) /\
    lookup_in [lit "deleted_records"] doc = Some (JInt 1).
Proof.
  intros d w cutoff.
  assert (Hi : __init__ d = (Ok (repeat (byte_of 65) 44, sample_cipher), d))
    by reflexivity.
  assert (Hl : recent_source w = Some []) by reflexivity.
  assert (Hn : Forall (fun t => utcoffset t = None) (report_dates w)).
  { replace (report_dates w)
      with [mkdt 2024 2 20 12 0 0 0 None; mkdt 2024 1 16 12 0 0 0 None]
      by (vm_compute; reflexivity).
    repeat constructor. }
  assert (Hclk : naive_clock w) by (intros k; reflexivity).
  assert (Hcut : sub_days (clock w (S (ticks w)))
                   (DATA_RETENTION_DAYS (mkConfig 30)) = Some cutoff)
    by (vm_compute; reflexivity).
  assert (Hp : skipped_names_print cutoff (encrypted_dir w))
    by (apply (bool_decide_unpack _); vm_compute; exact I).
  assert (Hf : maintenance_report_file d = None) by reflexivity.
  destruct (@maintenance_reports_before_it_sweeps sample_libs sample_keys
              (mkConfig 30) d d _ [] cutoff Hi Hl Hn Hclk Hcut Hp Hf)
    as (d' & doc & t & H1 & H2 & H3 & H4 & _).
  eexists _, _, d', doc, t.
  split; [exact Hi|]. split; [exact Hl|]. split; [exact Hn|].
  split; [exact Hclk|]. split; [exact Hcut|]. split; [exact Hp|].
  split; [exact Hf|].
  split; [exact H1|]. split; [exact H2|].
  split.
  - replace 4%Z with (Z.of_nat (length (report_files w)))
      by (vm_compute; reflexivity).
    exact H3.
  - replace 1%Z
      with (Z.of_nat
              (length (filter
                 (fun n => sweeps cutoff (encrypted_dir w) n = true)
                 (map fst (map_to_list (encrypted_dir w))))))
      by (vm_compute; reflexivity).
    exact H4.
Defined.

End MaintenanceFacts.
